(** * kitty/line.c: the line model of the terminal

    A shallow embedding of the functions of [kitty/line.c] that read and
    mutate one row of the screen grid, and the properties of them that the
    specification of the line model states.

    Conventions of the embedding.
    - [index_type], [char_type], [color_type] and [unsigned int] are 32-bit
      unsigned integers; they are values of [Z] and every C operation that
      can leave the range is written with [wrap32].
    - A [char_type] buffer is a [list Z] of code points; a C string literal
      is a [string], turned into code points by [utf32].
    - The two parallel cell arrays of a line are lists, read with [cpu_at]
      and [gpu_at] and written with stdpp's list insert.
    - Functions of other translation units (the text cache, the cursor, the
      Unicode tables, the options) are either Section variables or are
      modelled from the specification; each such definition says so. *)

From Stdlib Require Import ZArith String Ascii Bool Lia.
From stdpp Require Import base numbers list.

Local Open Scope Z_scope.
Local Infix "+:+" := String.append (at level 60, right associativity).

(** ** Machine integers *)

Definition wrap32 (z : Z) : Z := z mod 2 ^ 32.
Definition wrap64 (z : Z) : Z := z mod 2 ^ 64.
Definition add32 (a b : Z) : Z := wrap32 (a + b).
Definition sub32 (a b : Z) : Z := wrap32 (a - b).
Definition u32 (z : Z) : Prop := 0 <= z < 2 ^ 32.

Definition MIN (a b : Z) : Z := if a >? b then b else a.
Definition MAX (a b : Z) : Z := if a >? b then a else b.

(** Code points of a C string literal. *)
Definition utf32 (s : string) : list Z :=
  map (fun a => Z.of_N (N_of_ascii a)) (list_ascii_of_string s).

(** The decimal digits of an unsigned number, last digit first: the
    do-while loop [digit = num % 10; ...; num /= 10; while (num > 0)] of
    [nonnegative_integer_as_utf32]. *)
Fixpoint digits_rev (fuel : nat) (num : Z) : list Z :=
  match fuel with
  | O => []
  | S fuel' =>
      (48 + num mod 10) :: (if num / 10 >? 0 then digits_rev fuel' (num / 10) else [])
  end.

(** The digits in the order in which they are written; a number has no
    more decimal digits than binary ones. *)
Definition decimal (num : Z) : list Z :=
  if num =? 0 then [48] else rev (digits_rev (S (Z.to_nat (Z.log2 num))) num).

(** [%u] and [%lu] of printf. *)
Definition fmt_u (n : Z) : string :=
  string_of_list_ascii (map (fun d => ascii_of_N (Z.to_N d)) (decimal n)).

(** ** Data model *)

(** [CellAttrs]: the bit-fields of the packed attribute word, by name. *)
Record CellAttrs := mkCellAttrs {
  decoration : Z;
  bold : bool;
  italic : bool;
  reverse : bool;
  strike : bool;
  dim : bool;
  mark : Z
}.

Record GPUCell := mkGPUCell {
  fg : Z;
  bg : Z;
  decoration_fg : Z;
  sprite_x : Z;
  sprite_y : Z;
  sprite_z : Z;
  attrs : CellAttrs
}.

(** [static const GPUCell blank_cell = { 0 }] of [line_as_ansi]. *)
Definition blank_attrs : CellAttrs := mkCellAttrs 0 false false false false false 0.
Definition blank_cell : GPUCell := mkGPUCell 0 0 0 0 0 0 blank_attrs.

Module CPU.
(** [CPUCell]; [x] and [y] are the offsets of the cell inside its
    multi-cell glyph. *)
Record cell := mk {
  ch_or_idx : Z;
  ch_is_idx : bool;
  hyperlink_id : Z;
  next_char_was_wrapped : bool;
  is_multicell : bool;
  x : Z;
  y : Z
}.
End CPU.
Abbreviation CPUCell := CPU.cell.

(** [c->val = 0], [memset(c, 0, sizeof(CPUCell))] and [{.ch_or_idx=ch}]. *)
Definition zero_cpu_cell : CPUCell := CPU.mk 0 false 0 false false 0 0.
Definition cpu_cell_of_char (ch : Z) : CPUCell := CPU.mk ch false 0 false false 0 0.

Record MultiCellData := mkMCD {
  mcd_width : Z;
  mcd_scale : Z;
  mcd_subscale : Z
}.

Inductive PromptKind :=
| UNKNOWN_PROMPT_KIND
| PROMPT_START
| SECONDARY_PROMPT
| OUTPUT_START.

(** ** SGR encoding of a cell: [color_as_sgr], [decoration_as_sgr],
       [cell_as_sgr] *)

Section Sgr.

(** [DECORATION_FG_CODE] is a macro of another header. *)
Variable DECORATION_FG_CODE : Z.

(** [snprintf(buf, sz, fmt, ...)] returns the length of the formatted
    text and [cell_as_sgr] advances [p] by it; the function below is the
    formatted text. *)
Definition color_as_sgr (val simple_code aix_code complex_code : Z) : string :=
  let k := Z.land val 255 in
  if k =? 1 then
    let val := Z.shiftr val 8 in
    if (val <? 16) && negb (simple_code =? 0) then
      fmt_u (if val <? 8 then simple_code + val else aix_code + (val - 8)) +:+ ";"
    else
      fmt_u complex_code +:+ ":5:" +:+ fmt_u val +:+ ";"
  else if k =? 2 then
    fmt_u complex_code +:+ ":2:" +:+ fmt_u (Z.land (Z.shiftr val 24) 255) +:+ ":"
      +:+ fmt_u (Z.land (Z.shiftr val 16) 255) +:+ ":"
      +:+ fmt_u (Z.land (Z.shiftr val 8) 255) +:+ ";"
  else
    fmt_u (complex_code + 1) +:+ ";".

Definition decoration_as_sgr (decoration : Z) : string :=
  match decoration with
  | 1 => "4;"%string
  | 2 => "4:2;"%string
  | 3 => "4:3;"%string
  | 4 => "4:4"%string
  | 5 => "4:5"%string
  | _ => "24;"%string
  end.

Definition slen (s : string) : Z := Z.of_nat (String.length s).

(** The macros [SZ] and [P(s)]: [s] is copied at [p] when it fits in what
    is left of the 128 bytes of [buf]; [acc] is [buf] up to [p]. *)
Definition SZ (acc : string) : Z := wrap64 (128 - slen acc - 2).
Definition P (acc s : string) : string :=
  if SZ acc >? slen s then acc +:+ s else acc.

(** [if (p > buf) *(p - 1) = 0; *p = 0;] *)
Fixpoint drop_last (s : string) : string :=
  match s with
  | EmptyString => EmptyString
  | String a EmptyString => EmptyString
  | String a r => String a (drop_last r)
  end.

(** What [cell_as_sgr] has built in [buf] when it reaches the line that
    removes the trailing semicolon. *)
Definition cell_as_sgr_codes (cell prev : GPUCell) : string :=
  let CA := attrs cell in
  let PA := attrs prev in
  let p := EmptyString in
  let intensity_differs :=
    negb (Bool.eqb (bold CA) (bold PA)) || negb (Bool.eqb (dim CA) (dim PA)) in
  let p :=
    if intensity_differs then
      if bold CA && dim CA then
        let p := if negb (bold PA) then P p "1;" else p in
        if negb (dim PA) then P p "2;" else p
      else
        let p := P p "22;" in
        let p := if bold CA then P p "1;" else p in
        if dim CA then P p "2;" else p
    else p in
  let p := if negb (Bool.eqb (italic CA) (italic PA))
           then P p (if italic CA then "3;" else "23;") else p in
  let p := if negb (Bool.eqb (reverse CA) (reverse PA))
           then P p (if reverse CA then "7;" else "27;") else p in
  let p := if negb (Bool.eqb (strike CA) (strike PA))
           then P p (if strike CA then "9;" else "29;") else p in
  let p := if negb (fg cell =? fg prev)
           then p +:+ color_as_sgr (fg cell) 30 90 38 else p in
  let p := if negb (bg cell =? bg prev)
           then p +:+ color_as_sgr (bg cell) 40 100 48 else p in
  let p := if negb (decoration_fg cell =? decoration_fg prev)
           then p +:+ color_as_sgr (decoration_fg cell) 0 0 DECORATION_FG_CODE
           else p in
  let p := if negb (decoration CA =? decoration PA)
           then P p (decoration_as_sgr (decoration CA)) else p in
  p.

Definition cell_as_sgr (cell prev : GPUCell) : string :=
  drop_last (cell_as_sgr_codes cell prev).

End Sgr.

(** ** Text cache, cells and lines *)

(** Modelled from the spec: the text cache is another translation unit
    (text-cache.c).  Section 2 of the specification: it "interns
    variable-length char_type sequences behind a stable integer index" and
    exposes "lookup by index -> list of code points" and "interning of a new
    sequence -> index"; section 9: "cache entries are immutable".  The
    cache is the array of its entries; an index that is not live reads as
    the empty sequence. *)
Abbreviation TextCache := (list (list Z)).

Definition tc_chars_at_index (tc : TextCache) (idx : Z) : list Z :=
  default [] (tc !! Z.to_nat idx).

Fixpoint tc_find (tc : TextCache) (chars : list Z) (i : Z) : option Z :=
  match tc with
  | [] => None
  | e :: rest => if decide (e = chars) then Some i else tc_find rest chars (i + 1)
  end.

Definition tc_get_or_insert_chars (tc : TextCache) (chars : list Z) : Z * TextCache :=
  match tc_find tc chars 0 with
  | Some idx => (idx, tc)
  | None => (Z.of_nat (length tc), tc ++ [chars])
  end.

(** [ListOfChars]: [count] is the length of [chars]. *)
Record ListOfChars := mkLC {
  chars : list Z;
  lc_is_multicell : bool;
  lc_is_topleft : bool
}.

Definition count (lc : ListOfChars) : Z := Z.of_nat (length (chars lc)).

(** [lc->chars[i]]; a slot that the cell's text does not fill reads 0. *)
Definition char_at (l : list Z) (i : Z) : Z := default 0 (l !! Z.to_nat i).

(** Modelled from the spec: [text_in_cell] is an inline function of
    lineops.h.  Section 3.1: [ch_or_idx] is "either a single code point
    (when ch_is_idx=false) or a text-cache index (when ch_is_idx=true)";
    section 2: the lookup comes "with a flag indicating whether the entry
    represents a multi-cell glyph and, if so, where the caller cell sits
    inside it"; section 3.1: offsets (0,0) mark the top-left cell. *)
Definition text_in_cell (c : CPUCell) (tc : TextCache) : ListOfChars :=
  mkLC (if CPU.ch_is_idx c then tc_chars_at_index tc (CPU.ch_or_idx c)
        else [CPU.ch_or_idx c])
       (CPU.is_multicell c)
       ((CPU.x c =? 0) && (CPU.y c =? 0)).

(** Modelled from the spec: [cell_is_char] and [cell_has_text] are inline
    functions of the cell header.  Section 3.1: a cell holds one code point
    when [ch_is_idx] is false, and "a cell whose ch_or_idx is 0 and
    ch_is_idx=false is blank". *)
Definition cell_is_char (c : CPUCell) (ch : Z) : bool :=
  negb (CPU.ch_is_idx c) && (CPU.ch_or_idx c =? ch).

Definition cell_has_text (c : CPUCell) : bool :=
  CPU.ch_is_idx c || negb (CPU.ch_or_idx c =? 0).

(** [Line]; [prompt_kind] is [attrs.prompt_kind] and [text_cache] is the
    cache that the pointer of the line refers to. *)
Record Line := mkLine {
  xnum : Z;
  cpu_cells : list CPUCell;
  gpu_cells : list GPUCell;
  prompt_kind : PromptKind;
  text_cache : TextCache
}.

(** [self->cpu_cells + i] and [self->gpu_cells + i]. *)
Definition cpu_at (self : Line) (i : Z) : CPUCell :=
  default zero_cpu_cell (cpu_cells self !! Z.to_nat i).
Definition gpu_at (self : Line) (i : Z) : GPUCell :=
  default blank_cell (gpu_cells self !! Z.to_nat i).

Definition set_cpu_cells (self : Line) (cs : list CPUCell) : Line :=
  mkLine (xnum self) cs (gpu_cells self) (prompt_kind self) (text_cache self).
Definition set_gpu_cells (self : Line) (gs : list GPUCell) : Line :=
  mkLine (xnum self) (cpu_cells self) gs (prompt_kind self) (text_cache self).
Definition set_text_cache (self : Line) (tc : TextCache) : Line :=
  mkLine (xnum self) (cpu_cells self) (gpu_cells self) (prompt_kind self) tc.

Definition TAB : Z := 9.
Definition SPACE : Z := 32.

(** The loop that expands a tab, shared by [unicode_in_range] and
    [line_as_ansi]:
    [while (num && i + 1 < limit && cell_is_char(cells + i + 1, ' ')) { i++; num--; }]
    Its value is the final [i]. *)
Fixpoint skip_tab_cells (self : Line) (limit : Z) (num : nat) (i : Z) : Z :=
  match num with
  | O => i
  | S num' =>
      if (add32 i 1 <? limit) && cell_is_char (cpu_at self (add32 i 1)) SPACE
      then skip_tab_cells self limit num' (add32 i 1)
      else i
  end.

(** ** URL detection *)

Definition MIN_URL_LEN : Z := 5.

Inductive URL_PARSER_STATES := ANY | FIRST_SLASH | SECOND_SLASH.

Section Url.

(** The Unicode class of URL characters (unicode-data.h) and the option
    [url_prefixes]: a prefix is its code points, its [len] their number. *)
Variable is_url_char : Z -> bool.
Variable url_prefixes : list (list Z).
Variable max_prefix_len : Z.

Definition prefix_len (p : list Z) : Z := Z.of_nat (length p).

Definition is_hostname_char (ch : Z) : bool :=
  (ch =? 91) || (ch =? 93) || is_url_char ch.

Definition is_hostname_lc (lc : ListOfChars) : bool :=
  forallb is_hostname_char (chars lc).

Definition is_url_lc (lc : ListOfChars) : bool :=
  forallb is_url_char (chars lc).

(** The body of the do-while loop of [find_colon_slash]; [inl] is a
    [return], [inr] the state for the next round. *)
Definition find_colon_slash_body (self : Line) (x pos : Z) (state : URL_PARSER_STATES)
  : Z + URL_PARSER_STATES :=
  let c := cpu_at self pos in
  let lc := text_in_cell c (text_cache self) in
  if negb (is_hostname_lc lc) then inl 0
  else
    let state :=
      if pos =? x then
        if cell_is_char c 58 then
          if (add32 pos 2 <? xnum self)
             && cell_is_char (cpu_at self (add32 pos 1)) 47
             && cell_is_char (cpu_at self (add32 pos 2)) 47
          then SECOND_SLASH else state
        else if cell_is_char c 47 then
          if (add32 pos 1 <? xnum self) && cell_is_char (cpu_at self (add32 pos 1)) 47
          then FIRST_SLASH else state
        else state
      else state in
    match state with
    | ANY => inr (if cell_is_char c 47 then FIRST_SLASH else ANY)
    | FIRST_SLASH => inr (if cell_is_char c 47 then SECOND_SLASH else ANY)
    | SECOND_SLASH =>
        if cell_is_char c 58 then inl pos
        else inr (if cell_is_char c 47 then SECOND_SLASH else ANY)
    end.

Fixpoint find_colon_slash_loop (fuel : nat) (self : Line) (x limit pos : Z)
    (state : URL_PARSER_STATES) : Z :=
  match fuel with
  | O => 0
  | S fuel' =>
      match find_colon_slash_body self x pos state with
      | inl r => r
      | inr state' =>
          let pos' := sub32 pos 1 in
          if pos' >=? limit then find_colon_slash_loop fuel' self x limit pos' state'
          else 0
      end
  end.

(** [pos] goes down by one per round and stays at [limit >= 2] or above,
    so [pos] rounds are enough. *)
Definition find_colon_slash (self : Line) (x limit : Z) : Z :=
  let pos := MIN x (sub32 (xnum self) 1) in
  let limit := MAX 2 limit in
  if pos <? limit then 0
  else find_colon_slash_loop (Z.to_nat pos) self x limit pos ANY.

(** The for loop of [prefix_matches], from [(p, i)]; its value is the
    value of the function. *)
Fixpoint prefix_matches_loop (fuel : nat) (self : Line) (prefix : list Z) (plen p i : Z)
  : bool :=
  match fuel with
  | O => i =? plen
  | S fuel' =>
      if (i <? plen) && (p <? xnum self) then
        if negb (cell_is_char (cpu_at self p) (char_at prefix i)) then false
        else prefix_matches_loop fuel' self prefix plen (add32 p 1) (add32 i 1)
      else i =? plen
  end.

Definition prefix_matches (self : Line) (at_ : Z) (prefix : list Z) (plen : Z) : bool :=
  if plen >? at_ then false
  else prefix_matches_loop (Z.to_nat plen) self prefix plen (sub32 at_ plen) 0.

(** [has_url_prefix_at]: [Some ans] is [*ans = ...; return true]. *)
Fixpoint has_url_prefix_at_loop (self : Line) (at_ min_prefix_len : Z)
    (prefixes : list (list Z)) : option Z :=
  match prefixes with
  | [] => None
  | prefix :: rest =>
      let plen := prefix_len prefix in
      if (at_ <? plen) || (plen <? min_prefix_len)
      then has_url_prefix_at_loop self at_ min_prefix_len rest
      else if prefix_matches self at_ prefix plen then Some (sub32 at_ plen)
      else has_url_prefix_at_loop self at_ min_prefix_len rest
  end.

Definition has_url_prefix_at (self : Line) (at_ min_prefix_len : Z) : option Z :=
  has_url_prefix_at_loop self at_ min_prefix_len url_prefixes.

Fixpoint has_url_beyond_colon_slash_loop (fuel : nat) (self : Line) (stop i : Z)
    (num_of_slashes : Z) : bool :=
  match fuel with
  | O => true
  | S fuel' =>
      if i <? stop then
        let lc := text_in_cell (cpu_at self i) (text_cache self) in
        if num_of_slashes <? 3 then
          if negb (is_hostname_lc lc) then false
          else
            has_url_beyond_colon_slash_loop fuel' self stop (add32 i 1)
              (if (count lc =? 1) && (char_at (chars lc) 0 =? 47)
               then num_of_slashes + 1 else num_of_slashes)
        else
          if negb (forallb is_url_char (chars lc)) then false
          else has_url_beyond_colon_slash_loop fuel' self stop (add32 i 1) num_of_slashes
      else true
  end.

Definition has_url_beyond_colon_slash (self : Line) (x : Z) : bool :=
  let stop := MIN (add32 (add32 x MIN_URL_LEN) 3) (xnum self) in
  has_url_beyond_colon_slash_loop (Z.to_nat (stop - x)) self stop x 0.

Definition line_url_start_at (self : Line) (x : Z) : Z :=
  if (x >=? xnum self) || (xnum self <=? MIN_URL_LEN + 3) then xnum self
  else
    let ds_pos :=
      find_colon_slash self (wrap32 (x + max_prefix_len + 3))
        (if x <? 2 then 0 else sub32 x 2) in
    let ahead :=
      if negb (ds_pos =? 0) && has_url_beyond_colon_slash self ds_pos
      then has_url_prefix_at self ds_pos (if ds_pos >? x then sub32 ds_pos x else 0)
      else None in
    match ahead with
    | Some t => t
    | None =>
        let ds_pos := find_colon_slash self x 0 in
        if (ds_pos =? 0)
           || (xnum self <? add32 (add32 ds_pos MIN_URL_LEN) 3)
           || negb (has_url_beyond_colon_slash self ds_pos)
        then xnum self
        else
          match has_url_prefix_at self ds_pos 0 with
          | Some t => t
          | None => xnum self
          end
    end.

End Url.

(** ** Flattening a range of cells to Unicode: [unicode_in_range] *)

(** [global_unicode_in_range_buf]: the process-wide buffer.  [ub_text] is
    its first [n] code points, the text flattened so far; [ub_capacity] is
    its capacity, which outlives the call. *)
Record UnicodeBuf := mkUB {
  ub_text : list Z;
  ub_capacity : Z
}.

(** Modelled from the spec: [text_in_cell_without_alloc] (lineops.h) writes
    the text of the cell at [lc.chars] and fails when [lc.capacity] is too
    small; section 4.1: the buffer "grows monotonically (doubles on need;
    >= 4096 code points)".  The loop below is
    [while (!text_in_cell_without_alloc(...)) { ns = MAX(4096u, 2 * capacity); ... }]
    with a [realloc] that succeeds; its value is the new capacity. *)
Fixpoint grow_unicode_buf (fuel : nat) (capacity n need : Z) : Z :=
  match fuel with
  | O => capacity
  | S fuel' =>
      if capacity - n <? need
      then grow_unicode_buf fuel' (MAX 4096 (2 * capacity)) n need
      else capacity
  end.

(** One round of the for loop of [unicode_in_range] at cell [i]: the new
    value of [i] (before the [i++] of the loop) and the buffer.  The text
    of the cell stands at [lc.chars = buf + n]; after [lc.chars[0]] was
    looked at, [n] goes up by 1 or by [lc.count], which keeps that many of
    these code points. *)
Definition unicode_in_range_cell (self : Line) (limit : Z)
    (include_cc skip_zero_cells : bool) (i : Z) (b : UnicodeBuf) : Z * UnicodeBuf :=
  let n := Z.of_nat (length (ub_text b)) in
  let lc := text_in_cell (cpu_at self i) (text_cache self) in
  let capacity :=
    grow_unicode_buf (Z.to_nat (n + count lc)) (ub_capacity b) n (count lc) in
  if lc_is_multicell lc && negb (lc_is_topleft lc) then (i, mkUB (ub_text b) capacity)
  else
    let ch0 := char_at (chars lc) 0 in
    if (ch0 =? 0) && skip_zero_cells then (i, mkUB (ub_text b) capacity)
    else
      let ch0 := if ch0 =? 0 then SPACE else ch0 in
      if ch0 =? TAB then
        let num_cells_to_skip_for_tab :=
          if count lc >? 1 then char_at (chars lc) 1 else 0 in
        (skip_tab_cells self limit (Z.to_nat num_cells_to_skip_for_tab) i,
         mkUB (ub_text b ++ [ch0]) capacity)
      else
        (i, mkUB (ub_text b
                  ++ (if include_cc then take (length (chars lc)) (ch0 :: tail (chars lc))
                      else [ch0]))
               capacity).

Fixpoint unicode_in_range_loop (fuel : nat) (self : Line) (limit : Z)
    (include_cc skip_zero_cells : bool) (i : Z) (b : UnicodeBuf) : UnicodeBuf :=
  match fuel with
  | O => b
  | S fuel' =>
      if i <? limit then
        let '(i', b') := unicode_in_range_cell self limit include_cc skip_zero_cells i b in
        unicode_in_range_loop fuel' self limit include_cc skip_zero_cells (add32 i' 1) b'
      else b
  end.

(** [unicode_in_range]: the Python string that is returned, and the
    capacity the global buffer is left with.  Each round moves [i] up, so
    [limit - start] rounds are enough. *)
Definition unicode_in_range (self : Line) (capacity : Z) (start limit : Z)
    (include_cc add_trailing_newline skip_zero_cells : bool) : list Z * Z :=
  let b := unicode_in_range_loop (Z.to_nat (limit - start)) self limit
             include_cc skip_zero_cells start (mkUB [] capacity) in
  let n := Z.of_nat (length (ub_text b)) in
  if add_trailing_newline
     && negb (CPU.next_char_was_wrapped (cpu_at self (sub32 (xnum self) 1)))
     && (n <? ub_capacity b)
  then (ub_text b ++ [10], ub_capacity b)
  else (ub_text b, ub_capacity b).

(** ** ANSI serialization: [line_as_ansi] *)

(** [ANSIBuf]: [buf] is the first [len] code points of the buffer.  The
    hyperlink pool maps an id to its key, a C string. *)
Definition HYPERLINK_POOL := Z -> option (list Z).

Record ANSIBuf := mkANSIBuf {
  buf : list Z;
  active_hyperlink_id : Z;
  hyperlink_pool : option HYPERLINK_POOL
}.

Definition len (output : ANSIBuf) : Z := Z.of_nat (length (buf output)).

(** [output->buf[output->len++] = c] for each [c] of [cs]. *)
Definition W (cs : list Z) (output : ANSIBuf) : ANSIBuf :=
  mkANSIBuf (buf output ++ cs) (active_hyperlink_id output) (hyperlink_pool output).

(** [output->len -= k] *)
Definition shrink (k : Z) (output : ANSIBuf) : ANSIBuf :=
  mkANSIBuf (take (Z.to_nat (len output - k)) (buf output))
    (active_hyperlink_id output) (hyperlink_pool output).

Definition ESC : Z := 27.

(** [nonnegative_integer_as_utf32]: the number of digits and the buffer. *)
Definition nonnegative_integer_as_utf32 (num : Z) (output : ANSIBuf) : Z * ANSIBuf :=
  (Z.of_nat (length (decimal num)), W (decimal num) output).

Definition strip_colon (output : ANSIBuf) : ANSIBuf :=
  if char_at (buf output) (len output - 1) =? 58 then shrink 1 output else output.

Section Ansi.

(** Macros and functions of other headers: the escape code of the text
    size protocol as a string ([xstr(TEXT_SIZE_CODE)]), the code of the
    decoration colour, the mask of the attribute bits that SGR encodes and
    the packed word [attrs.val] it is applied to, the multi-cell data of a
    cell, and the column after the last cell to serialise. *)
Variable TEXT_SIZE_CODE : string.
Variable DECORATION_FG_CODE : Z.
Variable SGR_MASK : Z.
Variable attrs_val : CellAttrs -> Z.
Variable cell_multicell_data : CPUCell -> TextCache -> MultiCellData.
Variable xlimit_for_line : Line -> Z.

(** Modelled from the spec: [tc_chars_at_index_ansi] (text-cache.c);
    section 6.2: the cache "must provide an ANSI form lookup that emits the
    cached code points directly into an ANSIBuf".  Its value is their
    number. *)
Definition tc_chars_at_index_ansi (tc : TextCache) (idx : Z) (output : ANSIBuf)
  : Z * ANSIBuf :=
  let cs := tc_chars_at_index tc idx in
  (Z.of_nat (length cs), W cs output).

Definition write_multicell_ansi_prefix (mcd : MultiCellData) (output : ANSIBuf)
  : Z * ANSIBuf :=
  let pos := len output in
  let output := W [ESC; 93] output in
  let output := W (utf32 TEXT_SIZE_CODE) output in
  let output := W [59] output in
  let output :=
    if mcd_width mcd >? 1
    then W [58] (snd (nonnegative_integer_as_utf32 (mcd_width mcd) (W [119; 61] output)))
    else output in
  let output :=
    if mcd_scale mcd >? 1
    then W [58] (snd (nonnegative_integer_as_utf32 (mcd_scale mcd) (W [115; 61] output)))
    else output in
  let output :=
    if negb (mcd_subscale mcd =? 0)
    then W [58] (snd (nonnegative_integer_as_utf32 (mcd_subscale mcd) (W [83; 61] output)))
    else output in
  let output := strip_colon output in
  let output := W [59] output in
  (len output - pos, output).

(** [text_in_cell_ansi]: the number [n] it returns, and the buffer.  For
    the top-left cell of a multi-cell glyph the C code stores the BEL at
    [buf[len]] and leaves [len] as it is, so the BEL is not among the
    first [len] code points. *)
Definition text_in_cell_ansi (c : CPUCell) (tc : TextCache) (output : ANSIBuf)
  : Z * ANSIBuf :=
  if CPU.ch_is_idx c then
    if negb (CPU.is_multicell c) then tc_chars_at_index_ansi tc (CPU.ch_or_idx c) output
    else if negb (CPU.x c =? 0) || negb (CPU.y c =? 0) then (0, output)
    else
      let mcd := cell_multicell_data c tc in
      let '(n, output) := write_multicell_ansi_prefix mcd output in
      let '(m, output) := tc_chars_at_index_ansi tc (CPU.ch_or_idx c) output in
      (n + m, output)
  else (1, W [CPU.ch_or_idx c] output).

Definition write_sgr (val : string) (output : ANSIBuf) : ANSIBuf :=
  W [109] (W (take 122 (utf32 val)) (W [ESC; 91] output)).

(** [strstr(key, ":")]: the text before the first colon and the text
    after it. *)
Fixpoint partition_key (key : list Z) : option (list Z * list Z) :=
  match key with
  | [] => None
  | c :: rest =>
      if c =? 58 then Some ([], rest)
      else match partition_key rest with
           | Some (id, uri) => Some (c :: id, uri)
           | None => None
           end
  end.

(** [write_hyperlink].  A key of the pool has the form [id:uri]; for a
    key with no colon [strstr] is NULL and the C code reads through it,
    which has no defined result: the model then writes the key as the id
    and no URI. *)
Definition write_hyperlink (hid : Z) (output : ANSIBuf) : ANSIBuf :=
  let key :=
    if negb (hid =? 0)
    then match hyperlink_pool output with
         | Some pool => pool hid
         | None => None
         end
    else None in
  let hid := match key with Some _ => hid | None => 0 end in
  let output := mkANSIBuf (buf output) hid (hyperlink_pool output) in
  let output := W [ESC; 93; 56] output in
  let output :=
    match key with
    | Some key =>
        if hid =? 0 then W [59; 59] output
        else
          let '(id, uri) := default (key, []) (partition_key key) in
          let output := W [59] output in
          let output := match id with
                        | [] => output
                        | _ => W id (W [105; 100; 61] output)
                        end in
          W uri (W [59] output)
    | None => W [59; 59] output
    end in
  W [ESC; 92] output.

Definition write_mark (mark : string) (output : ANSIBuf) : ANSIBuf :=
  W [ESC; 92] (W (take 32 (utf32 mark)) (W [ESC; 93; 49; 51; 51; 59] output)).

(** [CMP_ATTRS || CMP(fg) || CMP(bg) || CMP(decoration_fg)] *)
Definition CMP_ANY (cell prev : GPUCell) : bool :=
  negb (Z.land (attrs_val (attrs cell)) SGR_MASK =? Z.land (attrs_val (attrs prev)) SGR_MASK)
  || negb (fg cell =? fg prev)
  || negb (bg cell =? bg prev)
  || negb (decoration_fg cell =? decoration_fg prev).

(** The state of the for loop of [line_as_ansi]. *)
Record AnsiState := mkAnsiState {
  escape_code_written : bool;
  output : ANSIBuf;
  prev_cell : GPUCell
}.

(** The first part of a round at cell [pos]: the hyperlink and the SGR
    escape codes. *)
Definition line_as_ansi_escapes (self : Line) (pos : Z) (st : AnsiState) : AnsiState :=
  let st :=
    match hyperlink_pool (output st) with
    | Some _ =>
        let hid := CPU.hyperlink_id (cpu_at self pos) in
        if negb (hid =? active_hyperlink_id (output st))
        then mkAnsiState true (write_hyperlink hid (output st)) (prev_cell st)
        else st
    | None => st
    end in
  let cell := gpu_at self pos in
  if CMP_ANY cell (prev_cell st) then
    let sgr := cell_as_sgr DECORATION_FG_CODE cell (prev_cell st) in
    if negb (String.eqb sgr EmptyString)
    then mkAnsiState true (write_sgr sgr (output st)) (prev_cell st)
    else st
  else st.

(** The second part: the text of the cell and the expansion of a tab.
    [n] code points were written for the cell, the first of them at
    [len - n].  When [n] is 0 the C code reads [buf[len]], the slot after
    the text: whatever it holds, none of the first [len] code points
    changes and no cell is skipped (the skip count is read only when
    [n > 1]); the model reads nothing there. *)
Definition line_as_ansi_text (self : Line) (limit pos : Z) (st : AnsiState)
  : Z * AnsiState :=
  let '(n, o) := text_in_cell_ansi (cpu_at self pos) (text_cache self) (output st) in
  let first := Z.to_nat (len o - n) in
  let o :=
    if decide (buf o !! first = Some 0)
    then mkANSIBuf (<[first := SPACE]> (buf o)) (active_hyperlink_id o) (hyperlink_pool o)
    else o in
  let '(pos, o) :=
    if decide (buf o !! first = Some TAB) then
      let '(num_cells_to_skip_for_tab, o) :=
        if n >? 1 then (char_at (buf o) (len o - n + 1), shrink (n - 1) o)
        else (0, o) in
      (skip_tab_cells self limit (Z.to_nat num_cells_to_skip_for_tab) pos, o)
    else (pos, o) in
  (pos, mkAnsiState (escape_code_written st) o (prev_cell st)).

(** A round of the for loop at cell [pos]: the new [pos] (before the
    [pos++] of the loop) and the state, with [*prev_cell = cell]. *)
Definition line_as_ansi_cell (self : Line) (limit pos : Z) (st : AnsiState)
  : Z * AnsiState :=
  let cell := gpu_at self pos in
  let '(pos', st) := line_as_ansi_text self limit pos (line_as_ansi_escapes self pos st) in
  (pos', mkAnsiState (escape_code_written st) (output st) cell).

Fixpoint line_as_ansi_loop (fuel : nat) (self : Line) (limit pos : Z) (st : AnsiState)
  : AnsiState :=
  match fuel with
  | O => st
  | S fuel' =>
      if pos <? limit then
        let '(pos', st') := line_as_ansi_cell self limit pos st in
        line_as_ansi_loop fuel' self limit (add32 pos' 1) st'
      else st
  end.

(** [line_as_ansi]: the boolean it returns, the buffer, and [*prev_cell]
    ([None] is NULL). *)
Definition line_as_ansi (self : Line) (output : ANSIBuf) (prev_cell : option GPUCell)
    (start_at stop_before prefix_char : Z) : bool * ANSIBuf * option GPUCell :=
  let output := mkANSIBuf [] (active_hyperlink_id output) (hyperlink_pool output) in
  let limit := MIN stop_before (xlimit_for_line self) in
  let output := if negb (prefix_char =? 0) then W [prefix_char] output else output in
  let '(escape_code_written, output) :=
    match prompt_kind self with
    | UNKNOWN_PROMPT_KIND => (false, output)
    | PROMPT_START => (true, write_mark "A" output)
    | SECONDARY_PROMPT => (true, write_mark "A;k=s" output)
    | OUTPUT_START => (true, write_mark "C" output)
    end in
  if limit <=? start_at then (escape_code_written, output, prev_cell)
  else
    let prev := default blank_cell prev_cell in
    let st := line_as_ansi_loop (Z.to_nat (limit - start_at)) self limit start_at
                (mkAnsiState escape_code_written output prev) in
    (Ansi.escape_code_written st, Ansi.output st, Some (Ansi.prev_cell st)).

End Ansi.

(** ** Methods of the Python type [Line] *)

Inductive PyExc := ValueError | IndexError | NotImplementedError | KeyError.

(** What a method hands back to the interpreter: an object, NULL with an
    exception set, or NULL with no exception set (which the interpreter
    reports as a SystemError). *)
Inductive PyResult (A : Type) :=
| PyReturn (a : A)
| PyRaise (e : PyExc)
| PyNullNoExc.
Arguments PyReturn {A} a.
Arguments PyRaise {A} e.
Arguments PyNullNoExc {A}.

Module Cur.
(** The fields of [Cursor] that line.c reads. *)
Record cursor := mk {
  x : Z;
  y : Z;
  fg : Z;
  bg : Z;
  decoration_fg : Z;
  bold : bool;
  italic : bool;
  reverse : bool;
  strikethrough : bool;
  dim : bool;
  decoration : Z
}.
End Cur.
Abbreviation Cursor := Cur.cursor.

Section Methods.

(** Of other headers: the multi-cell data of a cell, the conversions of a
    cursor to attributes and to a GPU cell, the colour mask, and the
    largest value of [Py_ssize_t] (Python.h). *)
Variable cell_multicell_data : CPUCell -> TextCache -> MultiCellData.
Variable cursor_to_attrs : Cursor -> CellAttrs.
Variable cursor_as_gpu_cell : Cursor -> GPUCell.
Variable COL_MASK : Z.
Variable PY_SSIZE_T_MAX : Z.

(** [width]: [x] is the value of [PyLong_AsUnsignedLong(val)].  The
    statement [return 0;] of a function whose result is a [PyObject*]
    returns NULL, and no exception is set there. *)
Definition width (self : Line) (x : Z) : PyResult Z :=
  if x >=? xnum self then PyRaise ValueError
  else
    let c := cpu_at self x in
    if negb (cell_has_text c) then PyNullNoExc
    else
      let ans := 1 in
      let ans :=
        if CPU.is_multicell c then
          if negb (CPU.x c =? 0) || negb (CPU.y c =? 0) then 0
          else mcd_width (cell_multicell_data c (text_cache self))
        else ans in
      PyReturn ans.

Definition with_text (c : CPUCell) (idx : Z) : CPUCell :=
  CPU.mk idx true (CPU.hyperlink_id c) (CPU.next_char_was_wrapped c)
    (CPU.is_multicell c) (CPU.x c) (CPU.y c).

(** [add_combining_char]: the result and the line after the call, with
    the cache that its pointer refers to. *)
Definition add_combining_char (self : Line) (x new_char : Z) : PyResult unit * Line :=
  if x >=? xnum self then (PyRaise ValueError, self)
  else
    let cell := cpu_at self x in
    if CPU.is_multicell cell then (PyRaise IndexError, self)
    else
      let lc := text_in_cell cell (text_cache self) in
      let '(idx, tc) :=
        tc_get_or_insert_chars (text_cache self) (chars lc ++ [new_char]) in
      (PyReturn tt,
       set_text_cache
         (set_cpu_cells self (<[Z.to_nat x := with_text cell idx]> (cpu_cells self))) tc).

Definition with_colors (g : GPUCell) (a : CellAttrs) (fg bg dfg : Z) : GPUCell :=
  mkGPUCell fg bg dfg (sprite_x g) (sprite_y g) (sprite_z g) a.

(** [PyUnicode_READ(kind, buf, offset)]: the code point of the string at
    [offset].  Outside the string the macro reads memory that is not the
    string's: the read has no defined result, [None]. *)
Definition PyUnicode_READ (src : list Z) (offset : Z) : option Z :=
  if offset <? 0 then None else src !! Z.to_nat offset.

(** The for loop of [set_text], from [(i, offset)]; [None] when a round
    reads outside the string. *)
Fixpoint set_text_loop (fuel : nat) (self : Line) (src : list Z) (limit : Z)
    (a : CellAttrs) (fg bg dfg : Z) (i offset : Z) : option Line :=
  match fuel with
  | O => Some self
  | S fuel' =>
      if (offset <? limit) && (i <? xnum self) then
        match PyUnicode_READ src offset with
        | Some ch =>
            let self :=
              set_cpu_cells self (<[Z.to_nat i := cpu_cell_of_char ch]> (cpu_cells self)) in
            let self :=
              set_gpu_cells self
                (<[Z.to_nat i := with_colors (gpu_at self i) a fg bg dfg]> (gpu_cells self)) in
            set_text_loop fuel' self src limit a fg bg dfg (add32 i 1) (offset + 1)
        | None => None
        end
      else Some self
  end.

(** A value that the signed type [Py_ssize_t] holds. *)
Definition fits_ssize_t (z : Z) : bool :=
  (- PY_SSIZE_T_MAX - 1 <=? z) && (z <=? PY_SSIZE_T_MAX).

(** [set_text]: [src] is the code points of the Python string, [offset]
    and [sz] are the [Py_ssize_t] values that [PyArg_ParseTuple] stored.
    [limit = offset + sz] is an addition of [Py_ssize_t]: a sum that the
    type does not hold is a signed overflow, for which C defines no
    result.  The value is [None] where the call has no defined result,
    and else what the call returns with the line that it leaves. *)
Definition set_text (self : Line) (src : list Z) (offset sz : Z) (cursor : Cursor)
  : option (PyResult unit * Line) :=
  if negb (fits_ssize_t (offset + sz)) then None
  else
    let limit := offset + sz in
    if Z.of_nat (length src) <? limit then Some (PyRaise ValueError, self)
    else
      let a := cursor_to_attrs cursor in
      let fg := Z.land (Cur.fg cursor) COL_MASK in
      let bg := Z.land (Cur.bg cursor) COL_MASK in
      let dfg := Z.land (Cur.decoration_fg cursor) COL_MASK in
      match set_text_loop (Z.to_nat (limit - offset)) self src limit a fg bg dfg
              (Cur.x cursor) offset with
      | Some self => Some (PyReturn tt, self)
      | None => None
      end.

(** [gc.attrs.mark = ...; gc.sprite_x = ...; gc.sprite_y = ...; gc.sprite_z = ...] *)
Definition keep_mark_and_sprite (gc old : GPUCell) : GPUCell :=
  mkGPUCell (fg gc) (bg gc) (decoration_fg gc) (sprite_x old) (sprite_y old) (sprite_z old)
    (mkCellAttrs (decoration (attrs gc)) (bold (attrs gc)) (italic (attrs gc))
       (reverse (attrs gc)) (strike (attrs gc)) (dim (attrs gc)) (mark (attrs old))).

(** The for loop of the else branch of [line_apply_cursor]; [gc] is the
    local variable that each round updates and copies to the cell. *)
Fixpoint apply_cursor_loop (fuel : nat) (self : Line) (stop : Z) (gc : GPUCell) (i : Z)
  : Line :=
  match fuel with
  | O => self
  | S fuel' =>
      if (i <? xnum self) && (i <? stop) then
        let gc := keep_mark_and_sprite gc (gpu_at self i) in
        apply_cursor_loop fuel'
          (set_gpu_cells self (<[Z.to_nat i := gc]> (gpu_cells self))) stop gc (add32 i 1)
      else self
  end.

(** [memset_array(cells + at, v, num)] *)
Fixpoint memset_array {A : Type} (cells : list A) (at_ : nat) (v : A) (num : nat) : list A :=
  match num with
  | O => cells
  | S num' => memset_array (<[at_ := v]> cells) (S at_) v num'
  end.

Definition line_apply_cursor (self : Line) (cursor : Cursor) (at_ num : Z)
    (clear_char : bool) : Line :=
  let gc := cursor_as_gpu_cell cursor in
  if clear_char then
    let num :=
      if add32 at_ num >? xnum self
      then (if at_ <? xnum self then sub32 (xnum self) at_ else 0)
      else num in
    set_gpu_cells
      (set_cpu_cells self
         (memset_array (cpu_cells self) (Z.to_nat at_) zero_cpu_cell (Z.to_nat num)))
      (memset_array (gpu_cells self) (Z.to_nat at_) gc (Z.to_nat num))
  else
    apply_cursor_loop (Z.to_nat (xnum self - at_)) self (add32 at_ num) gc at_.

End Methods.

(** The same GPU cell with another underline style. *)
Definition with_decoration (d : Z) (c : GPUCell) : GPUCell :=
  mkGPUCell (fg c) (bg c) (decoration_fg c) (sprite_x c) (sprite_y c) (sprite_z c)
    (mkCellAttrs d (bold (attrs c)) (italic (attrs c)) (reverse (attrs c))
       (strike (attrs c)) (dim (attrs c)) (mark (attrs c))).

(** A cell is a continuation cell of a multi-cell glyph when it is not the
    top-left one. *)
Definition is_continuation (c : CPUCell) : bool :=
  CPU.is_multicell c && (negb (CPU.x c =? 0) || negb (CPU.y c =? 0)).

(** A line has [xnum] CPU cells and [xnum] GPU cells. *)
Definition wf_line (self : Line) : Prop :=
  xnum self = Z.of_nat (length (cpu_cells self))
  /\ xnum self = Z.of_nat (length (gpu_cells self)).

(** ** Length of the text of a line: [line_length] *)

(** [BLANK_CHAR] is a macro of another header; [line_apply_cursor] has an
    [#error] that stops the compilation unless it is 0. *)
Definition BLANK_CHAR : Z := 0.

(** The for loop of [line_length], from [i]; [self->cpu_cells + last - i]
    is the cell at the offset [last - i]. *)
Fixpoint line_length_loop (fuel : nat) (self : Line) (last i : Z) : Z :=
  match fuel with
  | O => 0
  | S fuel' =>
      if i <? xnum self then
        if negb (cell_is_char (cpu_at self (last - i)) BLANK_CHAR) then sub32 (xnum self) i
        else line_length_loop fuel' self last (add32 i 1)
      else 0
  end.

Definition line_length (self : Line) : Z :=
  line_length_loop (Z.to_nat (xnum self)) self (sub32 (xnum self) 1) 0.

(** ** The end of a URL: [line_url_end_at] *)

(** [while (cond(ans)) ans++;] and [while (cond(ans)) ans--;] *)
Fixpoint while_incr (fuel : nat) (cond : Z -> bool) (ans : Z) : Z :=
  match fuel with
  | O => ans
  | S fuel' => if cond ans then while_incr fuel' cond (add32 ans 1) else ans
  end.

Fixpoint while_decr (fuel : nat) (cond : Z -> bool) (ans : Z) : Z :=
  match fuel with
  | O => ans
  | S fuel' => if cond ans then while_decr fuel' cond (sub32 ans 1) else ans
  end.

Section UrlEnd.

(** The Unicode classes of URL characters and of the characters that are
    removed from the end of a URL (unicode-data.h). *)
Variable is_url_char : Z -> bool.
Variable can_strip_from_end_of_url : Z -> bool.

Definition is_pos_ok_for_url (self : Line) (x : Z) (in_hostname : bool)
    (last_hostname_char_pos : Z) : bool :=
  if x >=? xnum self then false
  else
    let lc := text_in_cell (cpu_at self x) (text_cache self) in
    if in_hostname && (x <=? last_hostname_char_pos) then is_hostname_lc is_url_char lc
    else is_url_lc is_url_char lc.

(** The conditions of the three while loops of [line_url_end_at]. *)
Definition url_end_scan_sentinel (self : Line) (sentinel : Z) (in_hostname : bool)
    (last_hostname_char_pos : Z) (ans : Z) : bool :=
  (ans <? xnum self)
  && negb (cell_is_char (cpu_at self ans) sentinel)
  && is_pos_ok_for_url self ans in_hostname last_hostname_char_pos.

Definition url_end_scan (self : Line) (in_hostname : bool) (last_hostname_char_pos : Z)
    (ans : Z) : bool :=
  (ans <? xnum self) && is_pos_ok_for_url self ans in_hostname last_hostname_char_pos.

Definition url_end_strip (self : Line) (x : Z) (ans : Z) : bool :=
  (ans >? x)
  && negb (CPU.ch_is_idx (cpu_at self ans))
  && can_strip_from_end_of_url (CPU.ch_or_idx (cpu_at self ans)).

(** [line_url_end_at].  The first loop moves [ans] up from [x] and stops
    at [xnum] at the latest, the last one moves it down and stops at [x]:
    [xnum - x] and [ans - x] rounds are enough. *)
Definition line_url_end_at (self : Line) (x : Z) (check_short : bool) (sentinel : Z)
    (next_line_starts_with_url_chars in_hostname : bool) (last_hostname_char_pos : Z) : Z :=
  let ans := x in
  if (x >=? xnum self) || (check_short && (xnum self <=? MIN_URL_LEN + 3)) then 0
  else
    let ans :=
      if negb (sentinel =? 0)
      then while_incr (Z.to_nat (xnum self - x))
             (url_end_scan_sentinel self sentinel in_hostname last_hostname_char_pos) ans
      else while_incr (Z.to_nat (xnum self - x))
             (url_end_scan self in_hostname last_hostname_char_pos) ans in
    let ans := if negb (ans =? 0) then sub32 ans 1 else ans in
    if (ans <? sub32 (xnum self) 1) || negb next_line_starts_with_url_chars
    then while_decr (Z.to_nat (ans - x)) (url_end_strip self x) ans
    else ans.

Definition line_startswith_url_chars (self : Line) (in_hostname : bool) : bool :=
  let lc := text_in_cell (cpu_at self 0) (text_cache self) in
  if in_hostname then is_hostname_lc is_url_char lc else is_url_lc is_url_char lc.

(** The method [url_end_at]: [x], [sentinel] and
    [next_line_starts_with_url_chars] are the parsed arguments. *)
Definition url_end_at (self : Line) (x sentinel : Z) (next_line_starts_with_url_chars : bool)
  : Z :=
  line_url_end_at self x true sentinel next_line_starts_with_url_chars false (xnum self).

End UrlEnd.

(** ** Reading one cell: [text_at], [line_get_char] and the fallback text *)

(** [text_at]: [(unsigned)xval] is compared with [xnum], and the cell is
    [self->cpu_cells + xval]. *)
Definition text_at (self : Line) (xval : Z) : PyResult (list Z) :=
  if wrap32 xval >=? xnum self then PyRaise IndexError
  else
    let cell := cpu_at self xval in
    if CPU.ch_is_idx cell then
      let lc_chars := tc_chars_at_index (text_cache self) (CPU.ch_or_idx cell) in
      if CPU.is_multicell cell then
        if negb (CPU.x cell =? 0) || negb (CPU.y cell =? 0)
           || (Z.of_nat (length lc_chars) =? 0)
        then PyReturn []
        else PyReturn (drop 1 lc_chars)
      else PyReturn lc_chars
    else PyReturn [CPU.ch_or_idx cell].

Definition line_get_char (self : Line) (at_ : Z) : Z :=
  if CPU.ch_is_idx (cpu_at self at_) then
    let lc := text_in_cell (cpu_at self at_) (text_cache self) in
    if lc_is_multicell lc && negb (lc_is_topleft lc) then 0
    else char_at (chars lc) 0
  else CPU.ch_or_idx (cpu_at self at_).

Section Fallback.

(** The two variation selectors (unicode-data.h) and the UTF-8 encoder
    (another translation unit), whose value here is the bytes it writes;
    the number it returns is their number. *)
Variables VS15 VS16 : Z.
Variable encode_utf8 : Z -> list Z.

(** [cell_as_unicode_for_fallback]: the first [n] code points of [buf]. *)
Definition cell_as_unicode_for_fallback (lc : ListOfChars) : list Z :=
  let buf0 := if negb (char_at (chars lc) 0 =? 0) then char_at (chars lc) 0 else SPACE in
  if negb (buf0 =? TAB) then
    fold_left
      (fun buf ch => if negb (ch =? VS15) && negb (ch =? VS16) then buf ++ [ch] else buf)
      (drop 1 (chars lc)) [buf0]
  else [SPACE].

(** [cell_as_utf8_for_fallback]: the first [n] bytes of [buf]; the byte
    after them is 0. *)
Definition cell_as_utf8_for_fallback (lc : ListOfChars) : list Z :=
  let ch := if negb (char_at (chars lc) 0 =? 0) then char_at (chars lc) 0 else SPACE in
  let include_cc := true in
  let '(ch, include_cc) := if ch =? TAB then (SPACE, false) else (ch, include_cc) in
  let buf := encode_utf8 ch in
  if include_cc then
    fold_left
      (fun buf ch => if negb (ch =? VS15) && negb (ch =? VS16) then buf ++ encode_utf8 ch
                     else buf)
      (drop 1 (chars lc)) buf
  else buf.

End Fallback.

(** ** Clearing cells: [line_clear_text] *)

Definition line_clear_text (self : Line) (at_ num ch : Z) : Line :=
  let cc := cpu_cell_of_char ch in
  let num :=
    if add32 at_ num >? xnum self
    then (if xnum self >? at_ then sub32 (xnum self) at_ else 0)
    else num in
  set_cpu_cells self (memset_array (cpu_cells self) (Z.to_nat at_) cc (Z.to_nat num)).

(** ** Colours of a cell: [resolve_color] and [colors_for_cell] *)

(** [cp->color_table] is the table of the 256 indexed colours. *)
Definition resolve_color (color_table : list Z) (val defval : Z) : Z :=
  match Z.land val 255 with
  | 1 => default 0 (color_table !! Z.to_nat (Z.land (Z.shiftr val 8) 255))
  | 2 => Z.shiftr val 8
  | _ => defval
  end.

(** The condition of the while loop of [colors_for_cell]: the cell at
    the column is a multi-cell one with a non-zero offset [x], and the
    column is not 0. *)
Definition colors_for_cell_test (self : Line) (x : Z) : bool :=
  CPU.is_multicell (cpu_at self x) && negb (CPU.x (cpu_at self x) =? 0) && negb (x =? 0).

(** [colors_for_cell]: the boolean it returns and the values that [*x],
    [*fg], [*bg] and [*reversed] have after the call.  The loop moves the
    column down and stops at 0 at the latest: [x] rounds are enough. *)
Definition colors_for_cell (self : Line) (color_table : list Z) (x fg_ bg_ : Z)
    (reversed : bool) : bool * (Z * Z * Z * bool) :=
  if x >=? xnum self then (false, (x, fg_, bg_, reversed))
  else
    let x := while_decr (Z.to_nat x) (colors_for_cell_test self) x in
    let fg_ := resolve_color color_table (fg (gpu_at self x)) fg_ in
    let bg_ := resolve_color color_table (bg (gpu_at self x)) bg_ in
    if reverse (attrs (gpu_at self x)) then (true, (x, bg_, fg_, true))
    else (true, (x, fg_, bg_, reversed)).

(** ** Writing one cell: [line_set_char] and [set_char] *)

Section SetChar.

(** Of other headers: the conversion of a cursor to attributes, the
    colour mask, the options [underline_hyperlinks], [url_color] and
    [url_style] with the constant [UNDERLINE_ALWAYS], and the conversion
    of an [unsigned int] to the type [hyperlink_id_type]. *)
Variable cursor_to_attrs : Cursor -> CellAttrs.
Variable COL_MASK : Z.
Variables underline_hyperlinks UNDERLINE_ALWAYS url_color url_style : Z.
Variable to_hyperlink_id : Z -> Z.

(** Modelled from the spec: [cell_set_char] is an inline function of the
    cell header; section 4.6: [set_char] "resets CPU cell, writes base code
    point"; section 3.1: a cell holds "a single code point (when
    ch_is_idx=false)". *)
Definition cell_set_char (c : CPUCell) (ch : Z) : CPUCell :=
  CPU.mk ch false (CPU.hyperlink_id c) (CPU.next_char_was_wrapped c) (CPU.is_multicell c)
    (CPU.x c) (CPU.y c).

(** [c->hyperlink_id = hyperlink_id] *)
Definition with_hyperlink_id (c : CPUCell) (hyperlink_id : Z) : CPUCell :=
  CPU.mk (CPU.ch_or_idx c) (CPU.ch_is_idx c) hyperlink_id (CPU.next_char_was_wrapped c)
    (CPU.is_multicell c) (CPU.x c) (CPU.y c).

(** [line_set_char]: the cells at [at_] after the call; [cursor] is [None]
    for NULL.  The colour that is forced for a hyperlink is a
    [color_type]. *)
Definition line_set_char (self : Line) (at_ ch : Z) (cursor : option Cursor)
    (hyperlink_id : Z) : Line :=
  let g := gpu_at self at_ in
  let g :=
    match cursor with
    | Some cursor =>
        with_colors g (cursor_to_attrs cursor) (Z.land (Cur.fg cursor) COL_MASK)
          (Z.land (Cur.bg cursor) COL_MASK) (Z.land (Cur.decoration_fg cursor) COL_MASK)
    | None => g
    end in
  let c := zero_cpu_cell in
  let c := cell_set_char c ch in
  let c := with_hyperlink_id c hyperlink_id in
  let g :=
    if (underline_hyperlinks =? UNDERLINE_ALWAYS) && negb (hyperlink_id =? 0)
    then with_decoration url_style
           (mkGPUCell (fg g) (bg g)
              (Z.lor (wrap32 (Z.shiftl (Z.land url_color COL_MASK) 8)) 2)
              (sprite_x g) (sprite_y g) (sprite_z g) (attrs g))
    else g in
  set_gpu_cells
    (set_cpu_cells self (<[Z.to_nat at_ := c]> (cpu_cells self)))
    (<[Z.to_nat at_ := g]> (gpu_cells self)).

Definition set_char (self : Line) (at_ ch width : Z) (cursor : option Cursor)
    (hyperlink_id : Z) : PyResult unit * Line :=
  if at_ >=? xnum self then (PyRaise ValueError, self)
  else if negb (width =? 1) then (PyRaise NotImplementedError, self)
  else (PyReturn tt, line_set_char self at_ ch cursor (to_hyperlink_id hyperlink_id)).

End SetChar.

(** ** Marks: [line_has_mark] and [mark_text_in_line] *)

Fixpoint line_has_mark_loop (fuel : nat) (line : Line) (mark_ : Z) (x : Z) : bool :=
  match fuel with
  | O => false
  | S fuel' =>
      if x <? xnum line then
        let m := mark (attrs (gpu_at line x)) in
        if negb (m =? 0) && ((mark_ =? 0) || (mark_ =? m)) then true
        else line_has_mark_loop fuel' line mark_ (add32 x 1)
      else false
  end.

Definition line_has_mark (line : Line) (mark_ : Z) : bool :=
  line_has_mark_loop (Z.to_nat (xnum line)) line mark_ 0.

(** The same GPU cell with another mark. *)
Definition with_mark (m : Z) (c : GPUCell) : GPUCell :=
  mkGPUCell (fg c) (bg c) (decoration_fg c) (sprite_x c) (sprite_y c) (sprite_z c)
    (mkCellAttrs (decoration (attrs c)) (bold (attrs c)) (italic (attrs c))
       (reverse (attrs c)) (strike (attrs c)) (dim (attrs c)) m).

(** [for (i = 0; i < line->xnum; i++) line->gpu_cells[i].attrs.mark = 0;] *)
Fixpoint clear_marks_loop (fuel : nat) (line : Line) (i : Z) : Line :=
  match fuel with
  | O => line
  | S fuel' =>
      if i <? xnum line then
        clear_marks_loop fuel'
          (set_gpu_cells line
             (<[Z.to_nat i := with_mark 0 (gpu_at line i)]> (gpu_cells line)))
          (add32 i 1)
      else line
  end.

Section Marks.

(** [xlimit_for_line] is of another header.  [apply_marker] calls the
    Python object [marker] and iterates over what it returns; what the
    call leaves of the line is a parameter here. *)
Variable xlimit_for_line : Line -> Z.
Variable Marker : Type.
Variable apply_marker : Marker -> Line -> list Z -> Line.

(** [line_as_unicode]; [capacity] is the capacity of the global buffer
    before the call. *)
Definition line_as_unicode (self : Line) (capacity : Z) (skip_zero_cells : bool)
  : list Z * Z :=
  unicode_in_range self capacity 0 (xlimit_for_line self) true false skip_zero_cells.

(** [mark_text_in_line]; [None] is the NULL marker. *)
Definition mark_text_in_line (marker : option Marker) (line : Line) (capacity : Z) : Line :=
  match marker with
  | None => clear_marks_loop (Z.to_nat (xnum line)) line 0
  | Some marker =>
      let text := fst (line_as_unicode line capacity false) in
      if Z.of_nat (length text) >? 0 then apply_marker marker line text
      else clear_marks_loop (Z.to_nat (xnum line)) line 0
  end.

End Marks.

(** ** The method [as_ansi] *)

Section AsAnsi.

Variable TEXT_SIZE_CODE : string.
Variable DECORATION_FG_CODE : Z.
Variable SGR_MASK : Z.
Variable attrs_val : CellAttrs -> Z.
Variable cell_multicell_data : CPUCell -> TextCache -> MultiCellData.
Variable xlimit_for_line : Line -> Z.


End AsAnsi.

(** The number that a string of decimal digits denotes. *)
Definition decimal_value (digits : list Z) : Z :=
  fold_left (fun acc d => 10 * acc + (d - 48)) digits 0.

(** What the state of the scanner of [find_colon_slash] says, when it is
    about to look at the cell [pos], of the cells after it. *)
Definition slashes_after (self : Line) (pos : Z) (state : URL_PARSER_STATES) : Prop :=
  match state with
  | ANY => True
  | FIRST_SLASH => pos + 1 < xnum self /\ cell_is_char (cpu_at self (pos + 1)) 47 = true
  | SECOND_SLASH =>
      pos + 2 < xnum self
      /\ cell_is_char (cpu_at self (pos + 1)) 47 = true
      /\ cell_is_char (cpu_at self (pos + 2)) 47 = true
  end.

(** The cells from the column [s] on hold the code points of [text], one
    each. *)
Definition spelled_at (self : Line) (s : Z) (text : list Z) : Prop :=
  forall i : Z, 0 <= i < Z.of_nat (length text) ->
    cell_is_char (cpu_at self (s + i)) (char_at text i) = true.

(** One step of [cell_as_sgr]: what is built so far is empty or has two
    characters at least, and it has them once a step wrote. *)
Definition sgr_built (b : bool) (q : string) : Prop :=
  (q = EmptyString \/ 2 <= slen q) /\ (b = true -> 2 <= slen q).


(** The fields of the metadata of an escape code, with a colon between
    one and the next. *)
Fixpoint join_colon (fields : list (list Z)) : list Z :=
  match fields with
  | [] => []
  | [f] => f
  | f :: rest => f ++ 58 :: join_colon rest
  end.

(** ** Sample lines and collaborators *)

(** A line of plain cells holding the code points of [s], all GPU cells
    blank, over the text cache [tc]. *)
Definition plain_cells (s : string) : list CPUCell := map cpu_cell_of_char (utf32 s).

Definition line_of_cells (cs : list CPUCell) (tc : TextCache) : Line :=
  mkLine (Z.of_nat (length cs)) cs (replicate (length cs) blank_cell)
    UNKNOWN_PROMPT_KIND tc.

(** Cell 0 is a tab with skip count 3 (entry 0 of the cache), cells 1..3
    are spaces. *)
Definition tab_cell : CPUCell := CPU.mk 0 true 0 false false 0 0.
Definition tab_line : Line :=
  line_of_cells (tab_cell :: plain_cells "   ") [[TAB; 3]].

(** A glyph two cells wide: its top-left cell and one continuation cell,
    its text the entry 0 of the cache. *)
Definition wide_line : Line :=
  line_of_cells [CPU.mk 0 true 0 false true 0 0; CPU.mk 0 true 0 false true 1 0] [[65]].
Definition wide_mcd (c : CPUCell) (tc : TextCache) : MultiCellData := mkMCD 2 1 0.

(** Two empty cells. *)
Definition blank_line : Line := line_of_cells [zero_cpu_cell; zero_cpu_cell] [].

(** The text of scenario 1 of the specification, one code point a cell. *)
Definition url_line : Line :=
  line_of_cells (plain_cells "visit https://example.com/x now") [].

(** A classifier of URL characters for the samples: printable ASCII but
    the space, the double quote, the angle brackets, the square brackets,
    the backslash, the caret, the backquote and the braces and bar. *)
Definition sample_is_url_char (ch : Z) : bool :=
  (33 <=? ch) && (ch <=? 126)
  && negb (existsb (Z.eqb ch) [34; 60; 62; 91; 92; 93; 94; 96; 123; 124; 125]).

Definition sample_url_prefixes : list (list Z) := [utf32 "http"; utf32 "https"].

(** A layout of the attribute word for the samples, and the mask that
    clears its two mark bits. *)
Definition sample_attrs_val (a : CellAttrs) : Z :=
  decoration a + 8 * Z.b2z (bold a) + 16 * Z.b2z (italic a) + 32 * Z.b2z (reverse a)
  + 64 * Z.b2z (strike a) + 128 * Z.b2z (dim a) + 256 * mark a.
Definition sample_SGR_MASK : Z := 2 ^ 32 - 1 - 768.

Definition sample_cursor : Cursor := Cur.mk 1 0 (1 + 256 * 2) 0 0 true false false false false 0.
Definition sample_cursor_to_attrs (c : Cursor) : CellAttrs :=
  mkCellAttrs (Cur.decoration c) (Cur.bold c) (Cur.italic c) (Cur.reverse c)
    (Cur.strikethrough c) (Cur.dim c) 0.
Definition sample_COL_MASK : Z := 2 ^ 32 - 1.
(** [Py_ssize_t] of a 64-bit platform. *)
Definition sample_PY_SSIZE_T_MAX : Z := 2 ^ 63 - 1.
Definition sample_cursor_as_gpu_cell (c : Cursor) : GPUCell :=
  mkGPUCell (Z.land (Cur.fg c) sample_COL_MASK) (Z.land (Cur.bg c) sample_COL_MASK)
    (Z.land (Cur.decoration_fg c) sample_COL_MASK) 0 0 0 (sample_cursor_to_attrs c).

Definition empty_output : ANSIBuf := mkANSIBuf [] 0 None.

(** The state in which the loop of [line_as_ansi] starts on a line with no
    prompt mark, with an empty buffer and no previous cell. *)
Definition first_round : AnsiState := mkAnsiState false empty_output blank_cell.

(** A classifier of the characters that are removed from the end of a URL
    for the samples: some punctuation marks and closing brackets. *)
Definition sample_can_strip_from_end_of_url (ch : Z) : bool :=
  existsb (Z.eqb ch) [46; 44; 63; 33; 58; 59; 39; 41; 93; 125; 62].

(** A hyperlink pool for the samples: the id 7 has the key [a:b]. *)
Definition sample_pool : HYPERLINK_POOL :=
  fun hid => if hid =? 7 then Some [97; 58; 98] else None.

(** A marker type with one marker that leaves the line as it is. *)
Definition sample_apply_marker (marker : unit) (line : Line) (text : list Z) : Line := line.

(** * Properties *)

(** Case analysis on the tests of a function body, in the goal or in a
    hypothesis. *)
Ltac case_tests :=
  repeat match goal with
         | |- context [if ?b then _ else _] => destruct b eqn:?
         | |- context [match ?o with Some _ => _ | None => _ end] => destruct o eqn:?
         end.

Ltac case_tests_in H :=
  repeat match type of H with
         | context [match ?o with Some _ => _ | None => _ end] => destruct o
         | context [if ?b then _ else _] => destruct b
         | context [match ?s with ANY => _ | _ => _ end] => destruct s
         end.

Example cell_as_sgr_bold_red :
  cell_as_sgr 58
    (mkGPUCell (1 + 256 * 1) 0 0 0 0 0 (mkCellAttrs 0 true false false false false 0))
    blank_cell = "22;1;31"%string.
Proof. reflexivity. Qed.

Example cell_as_sgr_truecolor :
  cell_as_sgr 58 (mkGPUCell 0 (2 + 256 * (3 + 256 * (2 + 256 * 1))) 0 0 0 0 blank_attrs)
    blank_cell = "48:2:1:2:3"%string.
Proof. reflexivity. Qed.

Example decimal_digits :
  nonnegative_integer_as_utf32 4095 empty_output = (4, W (utf32 "4095") empty_output).
Proof. reflexivity. Qed.

(** Scenario 1 of the specification: the URL around column 12 starts at
    column 6. *)
Example url_start_scenario :
  line_url_start_at sample_is_url_char sample_url_prefixes 5 url_line 12 = 6.
Proof. vm_compute. reflexivity. Qed.

Example url_start_not_found :
  line_url_start_at sample_is_url_char sample_url_prefixes 5 url_line 2 = 31.
Proof. vm_compute. reflexivity. Qed.

(** ** Machine integers *)

Lemma MIN_spec (a b : Z) : MIN a b = Z.min a b.
Proof. unfold MIN. destruct (Z.gtb_spec a b); lia. Qed.

Lemma MAX_spec (a b : Z) : MAX a b = Z.max a b.
Proof. unfold MAX. destruct (Z.gtb_spec a b); lia. Qed.

Lemma add32_small (a b : Z) : 0 <= a + b < 2 ^ 32 -> add32 a b = a + b.
Proof. intros H. unfold add32, wrap32. apply Z.mod_small. exact H. Qed.

Lemma sub32_small (a b : Z) : 0 <= a - b < 2 ^ 32 -> sub32 a b = a - b.
Proof. intros H. unfold sub32, wrap32. apply Z.mod_small. exact H. Qed.

(** ** Decimal digits *)

(** The rounds that [decimal] allows are enough for the loop of the
    digits: with more of them the digits are the same. *)
Lemma digits_rev_fuel (fuel : nat) :
  forall (extra : nat) (num : Z),
    0 < num -> Z.log2 num < Z.of_nat fuel ->
    digits_rev (fuel + extra) num = digits_rev fuel num.
Proof.
  induction fuel as [| fuel IH]; intros extra num Hn Hf.
  - pose proof (Z.log2_nonneg num). lia.
  - cbn [Nat.add digits_rev]. f_equal.
    destruct (Z.gtb_spec (num / 10) 0) as [Hd | Hd]; [| reflexivity].
    apply IH; [lia |].
    assert (Hlt : Z.log2 (num / 10) < Z.log2 num).
    { apply Z.log2_lt_pow2; [lia |].
      pose proof (Z.log2_spec num Hn) as [_ Hs].
      rewrite Z.pow_succ_r in Hs by apply Z.log2_nonneg.
      apply Z.div_lt_upper_bound; lia. }
    lia.
Qed.

Lemma digits_rev_length (fuel : nat) :
  forall (k : nat) (num : Z),
    0 <= num < 10 ^ Z.of_nat (S k) -> (length (digits_rev fuel num) <= S k)%nat.
Proof.
  induction fuel as [| fuel IH]; intros k num Hn; cbn [digits_rev length]; [lia |].
  destruct (Z.gtb_spec (num / 10) 0) as [Hd | Hd]; [| cbn [length]; lia].
  destruct k as [| k].
  - change (10 ^ Z.of_nat 1) with 10 in Hn.
    assert (num / 10 = 0) by (apply Z.div_small; lia). lia.
  - apply le_n_S, IH. split; [lia |].
    apply Z.div_lt_upper_bound; [lia |].
    rewrite <- Z.pow_succ_r by lia. rewrite <- Nat2Z.inj_succ. lia.
Qed.

Lemma decimal_length (k : nat) (num : Z) :
  0 <= num < 10 ^ Z.of_nat (S k) -> (length (decimal num) <= S k)%nat.
Proof.
  intros Hn. unfold decimal. destruct (num =? 0); [cbn [length]; lia |].
  rewrite length_rev. apply digits_rev_length. exact Hn.
Qed.

Lemma length_append (s1 s2 : string) :
  String.length (s1 +:+ s2) = (String.length s1 + String.length s2)%nat.
Proof. induction s1 as [| a s1 IH]; simpl; [reflexivity | rewrite IH; reflexivity]. Qed.

Lemma length_string_of_list_ascii (l : list ascii) :
  String.length (string_of_list_ascii l) = length l.
Proof. induction l as [| a l IH]; simpl; [reflexivity | rewrite IH; reflexivity]. Qed.

Lemma fmt_u_length (k : nat) (n : Z) :
  0 <= n < 10 ^ Z.of_nat (S k) -> slen (fmt_u n) <= Z.of_nat (S k).
Proof.
  intros Hn. unfold slen, fmt_u.
  rewrite length_string_of_list_ascii, length_map.
  apply Nat2Z.inj_le, decimal_length. exact Hn.
Qed.

(** ** [cell_as_sgr] *)

Lemma slen_append (s1 s2 : string) : slen (s1 +:+ s2) = slen s1 + slen s2.
Proof. unfold slen. rewrite length_append. lia. Qed.

Lemma land_255 (v : Z) : 0 <= Z.land v 255 < 10 ^ Z.of_nat 3.
Proof.
  change 255 with (Z.ones 8). rewrite Z.land_ones by lia.
  pose proof (Z.mod_pos_bound v (2 ^ 8)). change (10 ^ Z.of_nat 3) with 1000. lia.
Qed.

(** The text that one call of [color_as_sgr] formats has at most 18
    characters, for codes of at most three digits. *)
Lemma color_as_sgr_length (val simple_code aix_code complex_code : Z) :
  0 <= val < 2 ^ 32 ->
  0 <= simple_code <= 990 -> 0 <= aix_code <= 990 -> 0 <= complex_code <= 990 ->
  slen (color_as_sgr val simple_code aix_code complex_code) <= 18.
Proof.
  intros Hv Hs Ha Hc. unfold color_as_sgr.
  assert (Hcode : forall c, 0 <= c <= 998 -> slen (fmt_u c) <= 3).
  { intros c Hc'. apply (fmt_u_length 2). change (10 ^ Z.of_nat 3) with 1000. lia. }
  assert (Hbyte : forall v, slen (fmt_u (Z.land v 255)) <= 3).
  { intros v. apply (fmt_u_length 2), land_255. }
  assert (Hshift : 0 <= Z.shiftr val 8 < 100000000).
  { rewrite Z.shiftr_div_pow2 by lia.
    split; [apply Z.div_pos; lia | apply Z.div_lt_upper_bound; lia]. }
  assert (Hidx : slen (fmt_u (Z.shiftr val 8)) <= 8).
  { apply (fmt_u_length 7). exact Hshift. }
  pose proof (Hcode complex_code ltac:(lia)) as Hcc.
  pose proof (Hcode (complex_code + 1) ltac:(lia)) as Hcc1.
  assert (Hsimple : Z.shiftr val 8 < 16 ->
            slen (fmt_u (if Z.shiftr val 8 <? 8 then simple_code + Z.shiftr val 8
                         else aix_code + (Z.shiftr val 8 - 8))) <= 3).
  { intros H16. apply Hcode. destruct (Z.ltb_spec (Z.shiftr val 8) 8); lia. }
  pose proof (Hbyte (Z.shiftr val 24)) as Hr.
  pose proof (Hbyte (Z.shiftr val 16)) as Hg.
  pose proof (Hbyte (Z.shiftr val 8)) as Hb.
  destruct (Z.land val 255 =? 1).
  - destruct (Z.ltb_spec (Z.shiftr val 8) 16) as [H16 | H16]; cbn [andb].
    + specialize (Hsimple H16). destruct (negb (simple_code =? 0)).
      * rewrite slen_append. change (slen ";") with 1.
        clear - Hsimple. lia.
      * rewrite !slen_append. change (slen ":5:") with 3. change (slen ";") with 1.
        clear - Hcc Hidx. lia.
    + rewrite !slen_append. change (slen ":5:") with 3. change (slen ";") with 1.
      clear - Hcc Hidx. lia.
  - destruct (Z.land val 255 =? 2).
    + rewrite !slen_append.
      change (slen ":2:") with 3. change (slen ":") with 1. change (slen ";") with 1.
      clear - Hcc Hr Hg Hb. lia.
    + rewrite slen_append. change (slen ";") with 1. clear - Hcc1. lia.
Qed.

Lemma P_bound (p s : string) (k n : Z) :
  slen s <= k -> slen p <= n - k -> slen (P p s) <= n.
Proof.
  intros Hs Hp. unfold P.
  destruct (SZ p >? slen s); [rewrite slen_append |]; unfold slen in *; lia.
Qed.

Lemma P_if_bound (b : bool) (p s : string) (k n : Z) :
  0 <= k -> slen s <= k -> slen p <= n - k -> slen (if b then P p s else p) <= n.
Proof. intros Hk Hs Hp. destruct b; [apply (P_bound p s k n Hs Hp) | lia]. Qed.

Lemma color_if_bound (b : bool) (p c : string) (n : Z) :
  slen c <= 18 -> slen p <= n - 18 -> slen (if b then p +:+ c else p) <= n.
Proof. intros Hc Hp. destruct b; [rewrite slen_append |]; lia. Qed.

(** [cell_as_sgr] never has more than 72 characters in its buffer of
    128: each [snprintf] of [color_as_sgr] is given a size larger than the
    text it formats, which is therefore written in full, and each [P]
    finds the room it tests for. *)
Lemma cell_as_sgr_fits (DECORATION_FG_CODE : Z) (cell prev : GPUCell) :
  0 <= DECORATION_FG_CODE <= 990 ->
  u32 (fg cell) -> u32 (bg cell) -> u32 (decoration_fg cell) ->
  slen (cell_as_sgr_codes DECORATION_FG_CODE cell prev) <= 72.
Proof.
  intros Hd Hfg Hbg Hdfg. unfold cell_as_sgr_codes. cbv zeta.
  apply (P_if_bound _ _ _ 4); [lia | |].
  { unfold decoration_as_sgr.
    destruct (decoration (attrs cell)) as [| [[[] | [] |] | [[] | [] |] |] |]; vm_compute;
      discriminate. }
  apply color_if_bound; [apply color_as_sgr_length; (exact Hdfg || lia) |].
  apply color_if_bound; [apply color_as_sgr_length; (exact Hbg || lia) |].
  apply color_if_bound; [apply color_as_sgr_length; (exact Hfg || lia) |].
  apply (P_if_bound _ _ _ 3); [lia | destruct (strike (attrs cell)); vm_compute; discriminate |].
  apply (P_if_bound _ _ _ 3); [lia | destruct (reverse (attrs cell)); vm_compute; discriminate |].
  apply (P_if_bound _ _ _ 3); [lia | destruct (italic (attrs cell)); vm_compute; discriminate |].
  destruct (bold (attrs cell)), (dim (attrs cell)), (bold (attrs prev)), (dim (attrs prev));
    vm_compute; discriminate.
Qed.

Section SgrFacts.

Variable DECORATION_FG_CODE : Z.

Lemma P_empty (s : string) :
  slen s < 126 -> P EmptyString s = s.
Proof.
  intros H. unfold P, SZ, wrap64, slen in *. simpl String.length.
  rewrite Z.mod_small by lia.
  destruct (Z.gtb_spec (128 - Z.of_nat 0 - 2) (Z.of_nat (String.length s))); [reflexivity | lia].
Qed.

(** The delta of two cells that differ in the underline style only is
    the text of [decoration_as_sgr] without its last character. *)
Lemma cell_as_sgr_decoration (d : Z) (prev : GPUCell) :
  d <> decoration (attrs prev) ->
  cell_as_sgr DECORATION_FG_CODE (with_decoration d prev) prev
  = drop_last (decoration_as_sgr d).
Proof.
  intros Hd. unfold cell_as_sgr, cell_as_sgr_codes, with_decoration.
  cbn [attrs bold dim italic reverse strike fg bg decoration_fg decoration].
  rewrite !Bool.eqb_reflx, !Z.eqb_refl. cbn [negb orb].
  destruct (Z.eqb_spec d (decoration (attrs prev))) as [E | _]; [contradiction |].
  cbn [negb]. rewrite P_empty; [reflexivity |].
  unfold decoration_as_sgr, slen.
  destruct d as [| [[[] | [] |] | [[] | [] |] |] |]; simpl; lia.
Qed.

(** C6: for every GPU cell [c], [cell_as_sgr(c, c)] is the empty string:
    the delta of a cell against an identical previous cell has no
    codes. *)
Theorem cell_as_sgr_same (c : GPUCell) :
  cell_as_sgr DECORATION_FG_CODE c c = EmptyString.
Proof.
  unfold cell_as_sgr, cell_as_sgr_codes.
  rewrite !Bool.eqb_reflx, !Z.eqb_refl. reflexivity.
Qed.

(** The underline styles 0 to 3 come out as the specification lists
    them. *)
Lemma cell_as_sgr_decoration_0_to_3 (prev : GPUCell) :
  (decoration (attrs prev) <> 1 ->
     cell_as_sgr DECORATION_FG_CODE (with_decoration 1 prev) prev = "4"%string)
  /\ (decoration (attrs prev) <> 2 ->
     cell_as_sgr DECORATION_FG_CODE (with_decoration 2 prev) prev = "4:2"%string)
  /\ (decoration (attrs prev) <> 3 ->
     cell_as_sgr DECORATION_FG_CODE (with_decoration 3 prev) prev = "4:3"%string)
  /\ (decoration (attrs prev) <> 0 ->
     cell_as_sgr DECORATION_FG_CODE (with_decoration 0 prev) prev = "24"%string).
Proof.
  repeat split; intros H; rewrite cell_as_sgr_decoration by congruence; reflexivity.
Qed.

(** C5: for cells that differ only in the underline style the delta
    should be the mapped code, "4:4" for the style 4 and "4:5" for the
    style 5.  The strings of [decoration_as_sgr] for these two styles
    have no semicolon at their end, and [cell_as_sgr] removes the last
    character of what it built: against a cell with no underline, both
    styles come out as "4:". *)
Theorem cell_as_sgr_decoration_4_5 :
  cell_as_sgr DECORATION_FG_CODE (with_decoration 4 blank_cell) blank_cell = "4:"%string
  /\ cell_as_sgr DECORATION_FG_CODE (with_decoration 5 blank_cell) blank_cell = "4:"%string.
Proof.
  split; rewrite cell_as_sgr_decoration by (simpl; lia); reflexivity.
Qed.

End SgrFacts.

(** ** The methods [width], [add_combining_char], [set_text] and
       [apply_cursor] *)

Lemma tc_find_spec (tc : TextCache) (chars : list Z) (i idx : Z) :
  tc_find tc chars i = Some idx ->
  i <= idx /\ tc !! Z.to_nat (idx - i) = Some chars.
Proof.
  revert i. induction tc as [| e rest IH]; intros i H; simpl in H; [discriminate |].
  destruct (decide (e = chars)) as [-> | Hne].
  - injection H as <-. split; [lia |]. rewrite Z.sub_diag. reflexivity.
  - apply IH in H as [Hle Hlk]. split; [lia |].
    replace (Z.to_nat (idx - i)) with (S (Z.to_nat (idx - (i + 1)))) by lia.
    exact Hlk.
Qed.

(** Interning gives an index under which the new cache holds the
    sequence, and keeps every entry of the old cache where it was. *)
Lemma tc_get_or_insert_chars_spec (tc : TextCache) (chars : list Z) :
  let '(idx, tc') := tc_get_or_insert_chars tc chars in
  tc_chars_at_index tc' idx = chars
  /\ forall (k : nat) (e : list Z), tc !! k = Some e -> tc' !! k = Some e.
Proof.
  unfold tc_get_or_insert_chars, tc_chars_at_index.
  destruct (tc_find tc chars 0) as [idx |] eqn:Hf.
  - apply tc_find_spec in Hf as [_ Hlk]. rewrite Z.sub_0_r in Hlk.
    rewrite Hlk. split; [reflexivity | auto].
  - split.
    + rewrite Nat2Z.id, lookup_app_r by lia. rewrite Nat.sub_diag. reflexivity.
    + intros k e Hk. apply lookup_app_l_Some. exact Hk.
Qed.

Lemma keep_mark_and_sprite_twice (gc old1 old2 : GPUCell) :
  keep_mark_and_sprite (keep_mark_and_sprite gc old1) old2 = keep_mark_and_sprite gc old2.
Proof. reflexivity. Qed.

(** The cell that a round of [apply_cursor] writes has the colours and
    the attributes of the cursor, and the mark and the sprite of the cell
    it replaces. *)
Lemma keep_mark_and_sprite_fields (gc old : GPUCell) :
  let c := keep_mark_and_sprite gc old in
  (fg c = fg gc /\ bg c = bg gc /\ decoration_fg c = decoration_fg gc)
  /\ (decoration (attrs c) = decoration (attrs gc) /\ bold (attrs c) = bold (attrs gc)
      /\ italic (attrs c) = italic (attrs gc) /\ reverse (attrs c) = reverse (attrs gc)
      /\ strike (attrs c) = strike (attrs gc) /\ dim (attrs c) = dim (attrs gc))
  /\ mark (attrs c) = mark (attrs old)
  /\ (sprite_x c = sprite_x old /\ sprite_y c = sprite_y old /\ sprite_z c = sprite_z old).
Proof. cbn. repeat split. Qed.

Section MethodFacts.

Variable cell_multicell_data : CPUCell -> TextCache -> MultiCellData.
Variable cursor_to_attrs : Cursor -> CellAttrs.
Variable cursor_as_gpu_cell : Cursor -> GPUCell.
Variable COL_MASK : Z.
Variable PY_SSIZE_T_MAX : Z.

(** *** [width] *)

Lemma width_out_of_bounds (self : Line) (x : Z) :
  xnum self <= x -> width cell_multicell_data self x = PyRaise ValueError.
Proof.
  intros H. unfold width. destruct (Z.geb_spec x (xnum self)); [reflexivity | lia].
Qed.

(** On a cell with text [width] returns what the specification says: 1
    for a cell that is not part of a multi-cell glyph, 0 for a
    continuation cell, the width of the glyph for its top-left cell. *)
Lemma width_of_text (self : Line) (x : Z) :
  x < xnum self ->
  cell_has_text (cpu_at self x) = true ->
  width cell_multicell_data self x
  = PyReturn
      (if CPU.is_multicell (cpu_at self x) then
         if is_continuation (cpu_at self x) then 0
         else mcd_width (cell_multicell_data (cpu_at self x) (text_cache self))
       else 1).
Proof.
  intros Hx Ht. unfold width, is_continuation.
  destruct (Z.geb_spec x (xnum self)); [lia |].
  rewrite Ht. cbn [negb]. destruct (CPU.is_multicell (cpu_at self x)); reflexivity.
Qed.

(** C8: for a column [x < xnum], [width(x)] should be 0 when the cell is
    empty.  The branch for a cell without text is [return 0;] in a
    function that returns a [PyObject*]: it returns NULL with no
    exception set, not the Python integer 0. *)
Theorem width_of_empty_cell (self : Line) (x : Z) :
  x < xnum self ->
  cell_has_text (cpu_at self x) = false ->
  width cell_multicell_data self x = PyNullNoExc
  /\ width cell_multicell_data self x <> PyReturn 0.
Proof.
  intros Hx Ht. unfold width.
  destruct (Z.geb_spec x (xnum self)); [lia |].
  rewrite Ht. split; [reflexivity | discriminate].
Qed.

(** *** [set_text] *)

(** C10 (amended): if [offset + sz] is greater than the length of [src]
    and is a value of [Py_ssize_t], so that the addition of the C code
    does not overflow, [set_text] fails with a value error and the line it
    leaves is the line it was given, with every CPU cell and every GPU
    cell as it was: the check of the bounds comes before the first
    write. *)
Theorem set_text_out_of_bounds (self : Line) (src : list Z) (offset sz : Z)
    (cursor : Cursor) :
  Z.of_nat (length src) < offset + sz ->
  fits_ssize_t PY_SSIZE_T_MAX (offset + sz) = true ->
  set_text cursor_to_attrs COL_MASK PY_SSIZE_T_MAX self src offset sz cursor
  = Some (PyRaise ValueError, self).
Proof.
  intros H Hfit. unfold set_text. rewrite Hfit. cbn [negb].
  destruct (Z.ltb_spec (Z.of_nat (length src)) (offset + sz)); [reflexivity | lia].
Qed.

(** Inside the string [PyUnicode_READ] reads its code point. *)
Lemma PyUnicode_READ_inside (src : list Z) (offset : Z) :
  0 <= offset < Z.of_nat (length src) ->
  PyUnicode_READ src offset = Some (char_at src offset).
Proof.
  intros H. unfold PyUnicode_READ, char_at.
  destruct (Z.ltb_spec offset 0) as [Hlt | _]; [lia |].
  destruct (src !! Z.to_nat offset) as [ch |] eqn:E; [reflexivity |].
  apply lookup_ge_None in E. lia.
Qed.

(** [limit - offset] rounds are enough for the loop of [set_text]. *)
Lemma set_text_loop_fuel (fuel : nat) :
  forall (extra : nat) (self : Line) (src : list Z) (limit : Z) (a : CellAttrs)
         (fg bg dfg i offset : Z),
    limit - offset <= Z.of_nat fuel ->
    set_text_loop (fuel + extra) self src limit a fg bg dfg i offset
    = set_text_loop fuel self src limit a fg bg dfg i offset.
Proof.
  induction fuel as [| fuel IH]; intros extra self src limit a fg bg dfg i offset Hf.
  - destruct extra as [| extra]; [reflexivity |]. simpl.
    destruct (Z.ltb_spec offset limit); [lia | reflexivity].
  - cbn [Nat.add set_text_loop].
    destruct (Z.ltb_spec offset limit) as [Hlt | Hge]; [| reflexivity].
    destruct (i <? xnum self); [| reflexivity]. cbn [andb].
    destruct (PyUnicode_READ src offset); [| reflexivity].
    apply IH. lia.
Qed.

End MethodFacts.

(** C10 as the claim states it does not hold: with [offset = 2^63 - 1]
    and [sz = 1], two values of a 64-bit [Py_ssize_t], the sum
    [offset + sz] is greater than the length of the string, yet it is not
    a [Py_ssize_t]: the addition [limit = offset + sz] overflows, the test
    of the bounds is not made on the sum, and the result of the call is
    not the value error. *)
Lemma set_text_sum_overflows :
  Z.of_nat (length (utf32 "ab")) < (2 ^ 63 - 1) + 1
  /\ fits_ssize_t sample_PY_SSIZE_T_MAX (2 ^ 63 - 1) = true
  /\ fits_ssize_t sample_PY_SSIZE_T_MAX 1 = true
  /\ set_text sample_cursor_to_attrs sample_COL_MASK sample_PY_SSIZE_T_MAX tab_line
       (utf32 "ab") (2 ^ 63 - 1) 1 sample_cursor
     <> Some (PyRaise ValueError, tab_line).
Proof.
  split; [simpl; lia | split; [reflexivity | split; [reflexivity |]]].
  vm_compute. discriminate.
Qed.

Section MutatorFacts.

Variable cursor_as_gpu_cell : Cursor -> GPUCell.

(** *** [apply_cursor] without [clear_char] *)

Lemma apply_cursor_loop_spec (fuel : nat) :
  forall (self : Line) (stop : Z) (gc : GPUCell) (i : Z),
    0 <= i -> xnum self <= 2 ^ 32 - 1 -> xnum self - i <= Z.of_nat fuel ->
    let self' := apply_cursor_loop fuel self stop gc i in
    cpu_cells self' = cpu_cells self
    /\ xnum self' = xnum self
    /\ prompt_kind self' = prompt_kind self
    /\ text_cache self' = text_cache self
    /\ forall j : nat,
         gpu_cells self' !! j
         = if (i <=? Z.of_nat j) && (Z.of_nat j <? Z.min stop (xnum self))
           then keep_mark_and_sprite gc <$> gpu_cells self !! j
           else gpu_cells self !! j.
Proof.
  induction fuel as [| fuel IH]; intros self stop gc i Hi Hx Hf; cbn zeta.
  - simpl. repeat split. intros j.
    destruct (Z.leb_spec i (Z.of_nat j)), (Z.ltb_spec (Z.of_nat j) (Z.min stop (xnum self)));
      try reflexivity. lia.
  - simpl.
    destruct (Z.ltb_spec i (xnum self)) as [Hlt | Hge]; cbn [andb].
    2:{ repeat split. intros j.
        destruct (Z.leb_spec i (Z.of_nat j)),
          (Z.ltb_spec (Z.of_nat j) (Z.min stop (xnum self))); try reflexivity. lia. }
    destruct (Z.ltb_spec i stop) as [Hls | Hgs].
    2:{ repeat split. intros j.
        destruct (Z.leb_spec i (Z.of_nat j)),
          (Z.ltb_spec (Z.of_nat j) (Z.min stop (xnum self))); try reflexivity. lia. }
    rewrite add32_small by lia.
    set (gc1 := keep_mark_and_sprite gc (gpu_at self i)).
    set (self1 := set_gpu_cells self (<[Z.to_nat i := gc1]> (gpu_cells self))).
    specialize (IH self1 stop gc1 (i + 1)).
    destruct IH as (Hc & Hn & Hp & Ht & Hg); [lia | exact Hx | simpl; lia |].
    repeat split; try assumption.
    intros j. rewrite Hg. cbn [xnum self1 set_gpu_cells].
    cbn [gpu_cells self1 set_gpu_cells].
    destruct (decide (j = Z.to_nat i)) as [-> | Hne].
    + rewrite Z2Nat.id by lia.
      destruct (Z.leb_spec (i + 1) i); [lia |].
      destruct (Z.leb_spec i i); [| lia].
      destruct (Z.ltb_spec i (Z.min stop (xnum self))); [| lia]. cbn [andb].
      destruct (gpu_cells self !! Z.to_nat i) as [old |] eqn:Hold.
      * rewrite list_lookup_insert_eq by (apply lookup_lt_Some in Hold; exact Hold).
        unfold gc1, gpu_at. rewrite Hold. reflexivity.
      * rewrite list_insert_ge by (apply lookup_ge_None; exact Hold).
        rewrite Hold. reflexivity.
    + rewrite list_lookup_insert_ne by congruence.
      destruct (Z.leb_spec (i + 1) (Z.of_nat j)), (Z.leb_spec i (Z.of_nat j)); try lia;
        cbn [andb]; reflexivity.
Qed.

(** When the unsigned sum [at + num] is not above [at], the loop of
    [apply_cursor] does not run. *)
Lemma apply_cursor_loop_empty (fuel : nat) (self : Line) (stop : Z) (gc : GPUCell) (i : Z) :
  stop <= i -> apply_cursor_loop fuel self stop gc i = self.
Proof.
  intros H. destruct fuel as [| fuel]; cbn [apply_cursor_loop]; [reflexivity |].
  destruct (Z.ltb_spec i stop) as [Hlt | _]; [lia |]. rewrite andb_false_r. reflexivity.
Qed.

(** C9 (amended): for [unsigned int] values [at] and [num] whose sum is
    an [unsigned int] too, [apply_cursor] with [clear_char = false] gives
    each cell of [at, min(at+num, xnum)) the colours [fg], [bg] and
    [decoration_fg] and the attributes other than the mark of the
    cursor's GPU cell, keeps the mark and the three sprite coordinates of
    that cell, and leaves every CPU cell and every cell outside the range
    as it was.  When the sum is not an [unsigned int], it wraps to a value
    below [at] and the call changes no cell. *)
Theorem line_apply_cursor_keeps_text (self : Line) (cursor : Cursor) (at_ num : Z) :
  u32 at_ -> u32 num -> u32 (xnum self) ->
  let gc := cursor_as_gpu_cell cursor in
  let self' := line_apply_cursor cursor_as_gpu_cell self cursor at_ num false in
  cpu_cells self' = cpu_cells self
  /\ xnum self' = xnum self
  /\ (at_ + num < 2 ^ 32 ->
      (forall (j : nat) (old : GPUCell),
         at_ <= Z.of_nat j < Z.min (at_ + num) (xnum self) ->
         gpu_cells self !! j = Some old ->
         exists c : GPUCell,
           gpu_cells self' !! j = Some c
           /\ (fg c = fg gc /\ bg c = bg gc /\ decoration_fg c = decoration_fg gc)
           /\ (decoration (attrs c) = decoration (attrs gc)
               /\ bold (attrs c) = bold (attrs gc)
               /\ italic (attrs c) = italic (attrs gc)
               /\ reverse (attrs c) = reverse (attrs gc)
               /\ strike (attrs c) = strike (attrs gc)
               /\ dim (attrs c) = dim (attrs gc))
           /\ mark (attrs c) = mark (attrs old)
           /\ (sprite_x c = sprite_x old /\ sprite_y c = sprite_y old
               /\ sprite_z c = sprite_z old))
      /\ (forall j : nat,
            ~ at_ <= Z.of_nat j < Z.min (at_ + num) (xnum self) ->
            gpu_cells self' !! j = gpu_cells self !! j))
  /\ (2 ^ 32 <= at_ + num -> self' = self).
Proof.
  intros [Ha Ha'] [Hn Hn'] [_ Hx]. cbn zeta. unfold line_apply_cursor.
  destruct (apply_cursor_loop_spec (Z.to_nat (xnum self - at_)) self (add32 at_ num)
              (cursor_as_gpu_cell cursor) at_) as (Hc & Hxn & _ & _ & Hg); [lia | lia | lia |].
  split; [exact Hc | split; [exact Hxn | split]].
  - intros Hs. rewrite add32_small in Hg by lia. rewrite add32_small by lia. split.
    + intros j old Hj Hold. rewrite Hg, Hold.
      destruct (Z.leb_spec at_ (Z.of_nat j)); [| lia].
      destruct (Z.ltb_spec (Z.of_nat j) (Z.min (at_ + num) (xnum self))); [| lia].
      cbn [andb fmap option_fmap option_map].
      exists (keep_mark_and_sprite (cursor_as_gpu_cell cursor) old).
      split; [reflexivity |].
      apply (keep_mark_and_sprite_fields (cursor_as_gpu_cell cursor) old).
    + intros j Hj. rewrite Hg.
      destruct (Z.leb_spec at_ (Z.of_nat j)); cbn [andb]; [| reflexivity].
      destruct (Z.ltb_spec (Z.of_nat j) (Z.min (at_ + num) (xnum self))); [lia | reflexivity].
  - intros Hs. apply apply_cursor_loop_empty.
    unfold add32, wrap32.
    replace (at_ + num) with ((at_ + num - 2 ^ 32) + 1 * 2 ^ 32) by lia.
    rewrite Z.mod_add by lia. rewrite Z.mod_small by lia. lia.
Qed.

End MutatorFacts.

(** *** [add_combining_char] *)

(** C7 (amended): [add_combining_char(x, ch)] fails exactly when the
    column is out of range ([x >= xnum]) or the cell at [x] is part of a
    multi-cell glyph, be it the top-left cell or a continuation cell; a
    call that fails leaves the line as it was; in every other case it
    succeeds, [ch_is_idx] is set, the cell holds the index that the cache
    gives for its previous text with [ch] appended, and under that index
    the cache holds that text. *)
Theorem add_combining_char_fails_on_multicell (self : Line) (x new_char : Z) :
  wf_line self -> 0 <= x ->
  let r := add_combining_char self x new_char in
  let old := chars (text_in_cell (cpu_at self x) (text_cache self)) in
  (fst r <> PyReturn tt <-> (x >= xnum self \/ CPU.is_multicell (cpu_at self x) = true))
  /\ (fst r <> PyReturn tt -> snd r = self)
  /\ (fst r = PyReturn tt ->
      CPU.ch_is_idx (cpu_at (snd r) x) = true
      /\ CPU.ch_or_idx (cpu_at (snd r) x)
         = fst (tc_get_or_insert_chars (text_cache self) (old ++ [new_char]))
      /\ chars (text_in_cell (cpu_at (snd r) x) (text_cache (snd r)))
         = old ++ [new_char]).
Proof.
  intros [Hcpu _] Hx. cbn zeta. unfold add_combining_char.
  destruct (Z.geb_spec x (xnum self)) as [Hge | Hlt].
  { cbn [fst snd]. split; [| split]; [| reflexivity | discriminate].
    split; [intros _; left; lia | discriminate]. }
  destruct (CPU.is_multicell (cpu_at self x)) eqn:Hm.
  { cbn [fst snd]. split; [| split]; [| reflexivity | discriminate].
    split; [intros _; right; reflexivity | discriminate]. }
  pose proof (tc_get_or_insert_chars_spec (text_cache self)
    (chars (text_in_cell (cpu_at self x) (text_cache self)) ++ [new_char])) as Hs.
  destruct (tc_get_or_insert_chars (text_cache self)
    (chars (text_in_cell (cpu_at self x) (text_cache self)) ++ [new_char])) as [idx tc'].
  destruct Hs as [Hidx _]. cbn [fst snd].
  split; [| split].
  - split; [intros H; contradiction | intros [H | H]; [lia | discriminate]].
  - intros H. contradiction.
  - intros _.
    assert (Hc : cpu_at
      (set_text_cache
         (set_cpu_cells self (<[Z.to_nat x := with_text (cpu_at self x) idx]> (cpu_cells self)))
         tc') x = with_text (cpu_at self x) idx).
    { unfold cpu_at at 1. cbn [cpu_cells set_text_cache set_cpu_cells].
      rewrite list_lookup_insert_eq by lia. reflexivity. }
    rewrite Hc. cbn [CPU.ch_is_idx CPU.ch_or_idx with_text]. repeat split.
    unfold text_in_cell. cbn [chars CPU.ch_is_idx CPU.ch_or_idx with_text text_cache
      set_text_cache]. exact Hidx.
Qed.

(** C7 as the specification states it does not hold: the top-left cell of
    the glyph of [wide_line] is in range and is not a continuation cell,
    and [add_combining_char] fails on it. *)
Lemma add_combining_char_top_left_fails :
  ~ (fst (add_combining_char wide_line 0 769) <> PyReturn tt
     <-> (0 >= xnum wide_line \/ is_continuation (cpu_at wide_line 0) = true)).
Proof.
  intros [H _].
  assert (Hf : fst (add_combining_char wide_line 0 769) <> PyReturn tt)
    by (vm_compute; discriminate).
  destruct (H Hf) as [Hx | Hc].
  - vm_compute in Hx. apply Hx. reflexivity.
  - vm_compute in Hc. discriminate.
Qed.

Example add_combining_char_top_left_error :
  add_combining_char wide_line 0 769 = (PyRaise IndexError, wide_line).
Proof. reflexivity. Qed.

Example add_combining_char_plain :
  let r := add_combining_char url_line 0 769 in
  fst r = PyReturn tt
  /\ cpu_at (snd r) 0 = CPU.mk 0 true 0 false false 0 0
  /\ text_cache (snd r) = [[118; 769]].
Proof. vm_compute. repeat split. Qed.

(** ** URL detection: [line_url_start_at] *)

Section UrlFacts.

Variable is_url_char : Z -> bool.
Variable url_prefixes : list (list Z).
Variable max_prefix_len : Z.

Lemma find_colon_slash_body_inl (self : Line) (x pos r : Z) (state : URL_PARSER_STATES) :
  find_colon_slash_body is_url_char self x pos state = inl r -> r = 0 \/ r = pos.
Proof.
  unfold find_colon_slash_body. intros H.
  case_tests_in H; inversion H; auto.
Qed.

(** What the loop returns is 0 or a column between [limit] and the
    column it started from. *)
Lemma find_colon_slash_loop_range (fuel : nat) :
  forall (self : Line) (x limit pos : Z) (state : URL_PARSER_STATES),
    1 <= limit -> limit <= pos < 2 ^ 32 ->
    let r := find_colon_slash_loop is_url_char fuel self x limit pos state in
    r = 0 \/ limit <= r <= pos.
Proof.
  induction fuel as [| fuel IH]; intros self x limit pos state Hl Hp; cbn zeta; simpl.
  - left. reflexivity.
  - destruct (find_colon_slash_body is_url_char self x pos state) as [r | state'] eqn:Hb.
    + apply find_colon_slash_body_inl in Hb as [-> | ->]; [left; reflexivity | right; lia].
    + rewrite sub32_small by lia.
      destruct (Z.geb_spec (pos - 1) limit) as [Hge | Hlt]; [| left; reflexivity].
      destruct (IH self x limit (pos - 1) state' Hl) as [H | H]; [lia | left; exact H |].
      right. lia.
Qed.

(** The rounds that [find_colon_slash] allows are enough: with more of
    them the loop returns the same column. *)
Lemma find_colon_slash_loop_fuel (fuel : nat) :
  forall (extra : nat) (self : Line) (x limit pos : Z) (state : URL_PARSER_STATES),
    1 <= limit -> limit <= pos < 2 ^ 32 -> pos - limit < Z.of_nat fuel ->
    find_colon_slash_loop is_url_char (fuel + extra) self x limit pos state
    = find_colon_slash_loop is_url_char fuel self x limit pos state.
Proof.
  induction fuel as [| fuel IH]; intros extra self x limit pos state Hl Hp Hf; [lia |].
  cbn [Nat.add find_colon_slash_loop].
  destruct (find_colon_slash_body is_url_char self x pos state) as [r | state'];
    [reflexivity |].
  rewrite sub32_small by lia.
  destruct (Z.geb_spec (pos - 1) limit) as [Hge | Hlt]; [| reflexivity].
  apply IH; lia.
Qed.

(** The rounds that [prefix_matches] and [has_url_beyond_colon_slash]
    allow are enough for their loops. *)
Lemma prefix_matches_loop_fuel (fuel : nat) :
  forall (extra : nat) (self : Line) (prefix : list Z) (plen p i : Z),
    0 <= i -> plen < 2 ^ 32 -> plen - i <= Z.of_nat fuel ->
    prefix_matches_loop (fuel + extra) self prefix plen p i
    = prefix_matches_loop fuel self prefix plen p i.
Proof.
  induction fuel as [| fuel IH]; intros extra self prefix plen p i Hi Hp Hf.
  - destruct extra as [| extra]; [reflexivity |]. simpl.
    destruct (Z.ltb_spec i plen); [lia | reflexivity].
  - cbn [Nat.add prefix_matches_loop].
    destruct (Z.ltb_spec i plen) as [Hlt | Hge]; [| reflexivity].
    destruct (p <? xnum self); [| reflexivity]. cbn [andb].
    destruct (negb (cell_is_char (cpu_at self p) (char_at prefix i))); [reflexivity |].
    rewrite (add32_small i 1) by lia. apply IH; lia.
Qed.

Lemma has_url_beyond_colon_slash_loop_fuel (fuel : nat) :
  forall (extra : nat) (self : Line) (stop i num_of_slashes : Z),
    0 <= i -> stop < 2 ^ 32 -> stop - i <= Z.of_nat fuel ->
    has_url_beyond_colon_slash_loop is_url_char (fuel + extra) self stop i num_of_slashes
    = has_url_beyond_colon_slash_loop is_url_char fuel self stop i num_of_slashes.
Proof.
  induction fuel as [| fuel IH]; intros extra self stop i n Hi Hs Hf.
  - destruct extra as [| extra]; [reflexivity |]. simpl.
    destruct (Z.ltb_spec i stop); [lia | reflexivity].
  - cbn [Nat.add has_url_beyond_colon_slash_loop].
    destruct (Z.ltb_spec i stop) as [Hlt | Hge]; [| reflexivity].
    rewrite (add32_small i 1) by lia.
    destruct (n <?  3).
    + destruct (negb (is_hostname_lc is_url_char
                        (text_in_cell (cpu_at self i) (text_cache self)))); [reflexivity |].
      apply IH; lia.
    + destruct (negb (forallb is_url_char
                        (chars (text_in_cell (cpu_at self i) (text_cache self)))));
        [reflexivity |].
      apply IH; lia.
Qed.

Lemma find_colon_slash_range (self : Line) (x limit : Z) :
  9 <= xnum self < 2 ^ 32 ->
  0 <= find_colon_slash is_url_char self x limit <= xnum self - 1.
Proof.
  intros Hx. unfold find_colon_slash.
  rewrite MIN_spec, MAX_spec, (sub32_small (xnum self) 1) by lia.
  destruct (Z.ltb_spec (Z.min x (xnum self - 1)) (Z.max 2 limit)) as [Hlt | Hge]; [lia |].
  destruct (find_colon_slash_loop_range (Z.to_nat (Z.min x (xnum self - 1))) self x
              (Z.max 2 limit) (Z.min x (xnum self - 1)) ANY) as [H | H]; lia.
Qed.

Lemma has_url_prefix_at_loop_range (self : Line) (at_ min_prefix_len t : Z)
    (prefixes : list (list Z)) :
  0 <= at_ < 2 ^ 32 ->
  has_url_prefix_at_loop self at_ min_prefix_len prefixes = Some t ->
  0 <= t <= at_.
Proof.
  intros Ha. induction prefixes as [| prefix rest IH]; simpl; [discriminate |].
  destruct (Z.ltb_spec at_ (prefix_len prefix)) as [Hlt | Hge]; cbn [orb]; [exact IH |].
  destruct (prefix_len prefix <? min_prefix_len); [exact IH |].
  destruct (prefix_matches self at_ prefix (prefix_len prefix)); [| exact IH].
  intros H. injection H as <-.
  assert (0 <= prefix_len prefix) by (unfold prefix_len; lia).
  rewrite sub32_small by lia. lia.
Qed.

(** C3: for every line and every column [x], [line_url_start_at] returns
    a column of [0, xnum], and it returns [xnum] whenever [x >= xnum] or
    [xnum <= MIN_URL_LEN + 3], that is whenever [xnum <= 8]. *)
Theorem line_url_start_at_range (self : Line) (x : Z) :
  u32 (xnum self) -> u32 x ->
  0 <= line_url_start_at is_url_char url_prefixes max_prefix_len self x <= xnum self
  /\ (x >= xnum self \/ xnum self <= MIN_URL_LEN + 3 ->
      line_url_start_at is_url_char url_prefixes max_prefix_len self x = xnum self)
  /\ MIN_URL_LEN + 3 = 8.
Proof.
  intros [Hx0 Hx1] [Hc0 Hc1]. unfold line_url_start_at, MIN_URL_LEN.
  destruct (Z.geb_spec x (xnum self)) as [Hge | Hlt]; cbn [orb].
  { repeat split; lia. }
  destruct (Z.leb_spec (xnum self) (5 + 3)) as [Hle | Hgt]; cbn [orb].
  { repeat split; lia. }
  split; [| split; [lia | reflexivity]].
  assert (Hfc : forall a b, 0 <= find_colon_slash is_url_char self a b <= xnum self - 1)
    by (intros a b; apply find_colon_slash_range; lia).
  assert (Hpre : forall a m t, 0 <= a <= xnum self - 1 ->
            has_url_prefix_at url_prefixes self a m = Some t -> 0 <= t <= xnum self).
  { intros a m t Ha Ht. unfold has_url_prefix_at in Ht.
    apply has_url_prefix_at_loop_range in Ht; lia. }
  case_tests; try lia;
    match goal with
    | H : has_url_prefix_at _ _ ?a _ = Some ?t |- _ <= ?t <= _ =>
        exact (Hpre a _ t (Hfc _ _) H)
    end.
Qed.

End UrlFacts.

(** ** Tabs: [skip_tab_cells], [unicode_in_range] and [line_as_ansi] *)

(** The loop that expands a tab stops at a column [j] with
    [i <= j <= i + num] and [j < limit]; the cells it went over hold one
    space each; and it stopped because the count was used up, or the limit
    was reached, or the next cell is not a space. *)
Lemma skip_tab_cells_spec (self : Line) (limit : Z) (num : nat) :
  forall i : Z,
    0 <= i < limit -> limit < 2 ^ 32 ->
    let j := skip_tab_cells self limit num i in
    i <= j <= i + Z.of_nat num
    /\ j < limit
    /\ (forall k : Z, i < k <= j -> cell_is_char (cpu_at self k) SPACE = true)
    /\ (j = i + Z.of_nat num \/ j + 1 = limit
        \/ cell_is_char (cpu_at self (j + 1)) SPACE = false).
Proof.
  induction num as [| num IH]; intros i Hi Hl; cbn zeta; cbn [skip_tab_cells].
  - split; [lia | split; [lia | split; [intros k Hk; lia | left; lia]]].
  - rewrite add32_small by lia.
    destruct (Z.ltb_spec (i + 1) limit) as [Hlt | Hge]; cbn [andb].
    + destruct (cell_is_char (cpu_at self (i + 1)) SPACE) eqn:Hc.
      * destruct (IH (i + 1)) as (H1 & H2 & H3 & H4); [lia | lia |].
        split; [lia | split; [lia | split]].
        -- intros k Hk. destruct (Z.eq_dec k (i + 1)) as [-> | Hne]; [exact Hc |].
           apply H3. lia.
        -- destruct H4 as [H4 | [H4 | H4]]; [left; lia | right; left; exact H4 |
                                               right; right; exact H4].
      * split; [lia | split; [lia | split; [intros k Hk; lia | right; right; exact Hc]]].
    + split; [lia | split; [lia | split; [intros k Hk; lia | right; left; lia]]].
Qed.

Lemma grow_unicode_buf_fits (fuel : nat) :
  forall capacity n need : Z,
    0 <= capacity -> n + need - capacity <= Z.of_nat fuel ->
    need <= grow_unicode_buf fuel capacity n need - n.
Proof.
  induction fuel as [| fuel IH]; intros capacity n need Hc Hf; simpl.
  - lia.
  - destruct (Z.ltb_spec (capacity - n) need) as [Hlt | Hge]; [| lia].
    apply IH; rewrite MAX_spec; lia.
Qed.

Section UnicodeFacts.

Variables (self : Line) (limit : Z) (include_cc skip_zero_cells : bool).







End UnicodeFacts.



(** *** What [text_in_cell_ansi] writes *)

Lemma W_W (a b : list Z) (o : ANSIBuf) : W a (W b o) = W (b ++ a) o.
Proof. unfold W. cbn [buf active_hyperlink_id hyperlink_pool]. rewrite app_assoc. reflexivity. Qed.

Lemma len_W (t : list Z) (o : ANSIBuf) : len (W t o) = len o + Z.of_nat (length t).
Proof. unfold len, W. cbn [buf]. rewrite length_app. lia. Qed.

Lemma strip_colon_W_colon (xs : list Z) (o : ANSIBuf) :
  strip_colon (W (xs ++ [58]) o) = W xs o.
Proof.
  unfold strip_colon, char_at, shrink, len, W. cbn [buf active_hyperlink_id hyperlink_pool].
  rewrite app_assoc.
  replace (Z.to_nat (Z.of_nat (length ((buf o ++ xs) ++ [58])) - 1))
    with (length (buf o ++ xs)) by (rewrite (length_app (buf o ++ xs)); cbn [length]; lia).
  rewrite list_lookup_middle by reflexivity. cbn [default Z.eqb Pos.eqb].
  rewrite take_app_length. reflexivity.
Qed.

Lemma strip_colon_W_semicolon (xs : list Z) (o : ANSIBuf) :
  strip_colon (W (xs ++ [59]) o) = W (xs ++ [59]) o.
Proof.
  unfold strip_colon, char_at, len, W. cbn [buf active_hyperlink_id hyperlink_pool].
  rewrite app_assoc.
  replace (Z.to_nat (Z.of_nat (length ((buf o ++ xs) ++ [59])) - 1))
    with (length (buf o ++ xs)) by (rewrite (length_app (buf o ++ xs)); cbn [length]; lia).
  rewrite list_lookup_middle by reflexivity. reflexivity.
Qed.

Section AnsiFacts.

Variable TEXT_SIZE_CODE : string.
Variable DECORATION_FG_CODE : Z.
Variable SGR_MASK : Z.
Variable attrs_val : CellAttrs -> Z.
Variable cell_multicell_data : CPUCell -> TextCache -> MultiCellData.
Variable xlimit_for_line : Line -> Z.

(** The prefix of a multi-cell glyph is appended to the buffer, and it
    starts with ESC and a closing square bracket. *)
Lemma write_multicell_ansi_prefix_appends (mcd : MultiCellData) (o : ANSIBuf) :
  exists t : list Z,
    write_multicell_ansi_prefix TEXT_SIZE_CODE mcd o
    = (Z.of_nat (length (ESC :: 93 :: t)), W (ESC :: 93 :: t) o).
Proof.
  unfold write_multicell_ansi_prefix, nonnegative_integer_as_utf32. cbn [snd].
  destruct (mcd_width mcd >? 1), (mcd_scale mcd >? 1), (negb (mcd_subscale mcd =? 0));
    rewrite !W_W, ?app_assoc;
    (rewrite strip_colon_W_colon || rewrite strip_colon_W_semicolon);
    rewrite W_W, len_W, <- ?app_assoc; cbn [app];
    eexists; rewrite Z.add_simpl_l; reflexivity.
Qed.

Lemma text_in_cell_ansi_appends (c : CPUCell) (tc : TextCache) (o : ANSIBuf) :
  exists t : list Z,
    text_in_cell_ansi TEXT_SIZE_CODE cell_multicell_data c tc o
    = (Z.of_nat (length t), W t o).
Proof.
  unfold text_in_cell_ansi, tc_chars_at_index_ansi.
  destruct (CPU.ch_is_idx c); [| exists [CPU.ch_or_idx c]; reflexivity].
  destruct (CPU.is_multicell c); cbn [negb]; [| eexists; reflexivity].
  destruct (negb (CPU.x c =? 0) || negb (CPU.y c =? 0)).
  { exists []. unfold W. rewrite app_nil_r. destruct o; reflexivity. }
  destruct (write_multicell_ansi_prefix_appends (cell_multicell_data c tc) o) as [t Ht].
  rewrite Ht. rewrite W_W. eexists. f_equal. rewrite length_app. lia.
Qed.

(** *** The round of [line_as_ansi] at a tab *)

(** When the code point at [len - n] is a tab, the text written for the
    cell starts with a tab. *)
Lemma emitted_tab (t : list Z) (o : ANSIBuf) :
  buf (W t o) !! Z.to_nat (len (W t o) - Z.of_nat (length t)) = Some TAB ->
  exists rest : list Z, t = TAB :: rest.
Proof.
  rewrite len_W. unfold len, W. cbn [buf].
  replace (Z.to_nat (Z.of_nat (length (buf o)) + Z.of_nat (length t) - Z.of_nat (length t)))
    with (length (buf o) + 0)%nat by lia.
  rewrite lookup_app_r by lia.
  replace (length (buf o) + 0 - length (buf o))%nat with 0%nat by lia.
  destruct t as [| c rest]; [discriminate |]. cbn. intros H. injection H as ->.
  exists rest. reflexivity.
Qed.

(** When the text written for the cell at [pos] is a tab followed by
    [rest], the second part of the round leaves the tab alone in the
    buffer and goes over as many space cells as the first code point of
    [rest] says. *)
Lemma line_as_ansi_text_tab (self : Line) (limit pos : Z) (st : AnsiState) (rest : list Z) :
  text_in_cell_ansi TEXT_SIZE_CODE cell_multicell_data (cpu_at self pos) (text_cache self)
    (output st)
  = (Z.of_nat (length (TAB :: rest)), W (TAB :: rest) (output st)) ->
  line_as_ansi_text TEXT_SIZE_CODE cell_multicell_data self limit pos st
  = (skip_tab_cells self limit (Z.to_nat (char_at rest 0)) pos,
     mkAnsiState (escape_code_written st) (W [TAB] (output st)) (prev_cell st)).
Proof.
  intros Ht. unfold line_as_ansi_text. rewrite Ht.
  assert (Hfirst : Z.to_nat (len (W (TAB :: rest) (output st))
                             - Z.of_nat (length (TAB :: rest)))
                   = length (buf (output st))).
  { rewrite len_W. unfold len. lia. }
  rewrite Hfirst.
  assert (Hlk : buf (W (TAB :: rest) (output st)) !! length (buf (output st)) = Some TAB).
  { unfold W. cbn [buf]. apply list_lookup_middle. reflexivity. }
  destruct (decide (buf (W (TAB :: rest) (output st)) !! length (buf (output st)) = Some 0))
    as [E | _]; [rewrite Hlk in E; discriminate |].
  destruct (decide (buf (W (TAB :: rest) (output st)) !! length (buf (output st)) = Some TAB))
    as [_ | E]; [| contradiction].
  destruct rest as [| c rest].
  - cbn [length Z.of_nat Pos.of_succ_nat Z.gtb Z.compare Pos.compare Pos.compare_cont].
    reflexivity.
  - assert (Hn : (Z.of_nat (length (TAB :: c :: rest)) >? 1) = true).
    { cbn [length]. apply Z.gtb_lt. lia. }
    rewrite Hn. f_equal.
    + f_equal. f_equal. unfold char_at. rewrite len_W. unfold len, W. cbn [buf].
      replace (Z.to_nat (Z.of_nat (length (buf (output st)))
                         + Z.of_nat (length (TAB :: c :: rest))
                         - Z.of_nat (length (TAB :: c :: rest)) + 1))
        with (length (buf (output st)) + 1)%nat by lia.
      rewrite lookup_app_r by lia.
      replace (length (buf (output st)) + 1 - length (buf (output st)))%nat with 1%nat by lia.
      reflexivity.
    + f_equal. unfold shrink. rewrite len_W. unfold len, W.
      cbn [buf active_hyperlink_id hyperlink_pool]. f_equal.
      replace (Z.to_nat (Z.of_nat (length (buf (output st)))
                         + Z.of_nat (length (TAB :: c :: rest))
                         - (Z.of_nat (length (TAB :: c :: rest)) - 1)))
        with (length (buf (output st) ++ [TAB])) by (rewrite length_app; cbn [length]; lia).
      change (buf (output st) ++ TAB :: c :: rest)
        with (buf (output st) ++ [TAB] ++ c :: rest).
      rewrite app_assoc, take_app_length. reflexivity.
Qed.

Lemma line_as_ansi_cell_tab (self : Line) (limit pos : Z) (st : AnsiState) :
  let st1 := line_as_ansi_escapes DECORATION_FG_CODE SGR_MASK attrs_val self pos st in
  let r := text_in_cell_ansi TEXT_SIZE_CODE cell_multicell_data (cpu_at self pos)
             (text_cache self) (output st1) in
  let num := Z.to_nat (if fst r >? 1
                       then char_at (buf (snd r)) (len (snd r) - fst r + 1) else 0) in
  buf (snd r) !! Z.to_nat (len (snd r) - fst r) = Some TAB ->
  line_as_ansi_cell TEXT_SIZE_CODE DECORATION_FG_CODE SGR_MASK attrs_val
    cell_multicell_data self limit pos st
  = (skip_tab_cells self limit num pos,
     mkAnsiState (escape_code_written st1) (W [TAB] (output st1)) (gpu_at self pos)).
Proof.
  cbn zeta. unfold line_as_ansi_cell.
  set (st1 := line_as_ansi_escapes DECORATION_FG_CODE SGR_MASK attrs_val self pos st).
  destruct (text_in_cell_ansi_appends (cpu_at self pos) (text_cache self) (output st1))
    as [t Ht].
  rewrite Ht. cbn [fst snd]. intros Hlk.
  destruct (emitted_tab t (output st1) Hlk) as [rest ->].
  rewrite (line_as_ansi_text_tab self limit pos st1 rest Ht).
  cbn [fst snd output escape_code_written].
  f_equal. f_equal. f_equal.
  destruct rest as [| c rest]; [reflexivity |].
  assert (Hn : (Z.of_nat (length (TAB :: c :: rest)) >? 1) = true).
  { cbn [length]. apply Z.gtb_lt. lia. }
  rewrite Hn. unfold char_at. rewrite len_W. unfold len, W. cbn [buf].
  replace (Z.to_nat (Z.of_nat (length (buf (output st1)))
                     + Z.of_nat (length (TAB :: c :: rest))
                     - Z.of_nat (length (TAB :: c :: rest)) + 1))
    with (length (buf (output st1)) + 1)%nat by lia.
  rewrite lookup_app_r by lia.
  replace (length (buf (output st1)) + 1 - length (buf (output st1)))%nat with 1%nat by lia.
  reflexivity.
Qed.

(** *** The flag that [line_as_ansi] returns *)

(** C1: the boolean that [line_as_ansi] returns should be true as soon as
    an escape sequence was written, the OSC prefix of a multi-cell glyph
    included.  [text_in_cell_ansi] writes that prefix and does not touch
    [escape_code_written]: for the line that holds one glyph two cells
    wide, with no prompt mark, no hyperlink and no SGR change, the buffer
    holds the escape sequence and the flag is false. *)
Theorem line_as_ansi_multicell_prefix_unflagged :
  line_as_ansi "66" 58 sample_SGR_MASK sample_attrs_val wide_mcd xnum
    wide_line empty_output None 0 2 0
  = (false, mkANSIBuf (ESC :: utf32 "]66;w=2;A") 0 None, Some blank_cell).
Proof. reflexivity. Qed.

(** The macros [WRITE_HYPERLINK] and [WRITE_SGR] set the flag: when the
    first part of a round writes to the buffer, the flag is true after
    it. *)
Lemma line_as_ansi_escapes_flagged (self : Line) (pos : Z) (st : AnsiState) :
  line_as_ansi_escapes DECORATION_FG_CODE SGR_MASK attrs_val self pos st <> st ->
  escape_code_written (line_as_ansi_escapes DECORATION_FG_CODE SGR_MASK attrs_val self pos st)
  = true.
Proof.
  unfold line_as_ansi_escapes. intros H.
  case_tests_in H; try reflexivity; contradiction.
Qed.

Lemma line_as_ansi_escapes_keeps_flag (self : Line) (pos : Z) (st : AnsiState) :
  escape_code_written st = true ->
  escape_code_written (line_as_ansi_escapes DECORATION_FG_CODE SGR_MASK attrs_val self pos st)
  = true.
Proof.
  unfold line_as_ansi_escapes. intros H.
  case_tests; try reflexivity; exact H.
Qed.

(** The second part of a round, which writes the text of the cell and
    with it the prefix of a multi-cell glyph, leaves the flag as it
    is. *)
Lemma line_as_ansi_text_flag (self : Line) (limit pos : Z) (st : AnsiState) :
  escape_code_written
    (snd (line_as_ansi_text TEXT_SIZE_CODE cell_multicell_data self limit pos st))
  = escape_code_written st.
Proof.
  unfold line_as_ansi_text.
  destruct (text_in_cell_ansi TEXT_SIZE_CODE cell_multicell_data (cpu_at self pos)
              (text_cache self) (output st)) as [n o].
  case_tests; reflexivity.
Qed.

(** For the top-left cell of a multi-cell glyph the second part of a
    round appends an escape sequence to the buffer. *)
Lemma line_as_ansi_text_multicell (self : Line) (limit pos : Z) (st : AnsiState) :
  CPU.ch_is_idx (cpu_at self pos) = true ->
  CPU.is_multicell (cpu_at self pos) = true ->
  CPU.x (cpu_at self pos) = 0 -> CPU.y (cpu_at self pos) = 0 ->
  exists t : list Z,
    line_as_ansi_text TEXT_SIZE_CODE cell_multicell_data self limit pos st
    = (pos, mkAnsiState (escape_code_written st) (W (ESC :: 93 :: t) (output st))
              (prev_cell st)).
Proof.
  intros Hi Hm Hx Hy. unfold line_as_ansi_text, text_in_cell_ansi, tc_chars_at_index_ansi.
  rewrite Hi, Hm, Hx, Hy. cbn [negb Z.eqb orb].
  destruct (write_multicell_ansi_prefix_appends
              (cell_multicell_data (cpu_at self pos) (text_cache self)) (output st))
    as [t Ht].
  rewrite Ht, W_W.
  set (cs := tc_chars_at_index (text_cache self) (CPU.ch_or_idx (cpu_at self pos))).
  exists (t ++ cs).
  assert (Hfirst : Z.to_nat (len (W ((ESC :: 93 :: t) ++ cs) (output st))
                             - (Z.of_nat (length (ESC :: 93 :: t)) + Z.of_nat (length cs)))
                   = length (buf (output st))).
  { rewrite len_W, length_app. unfold len. lia. }
  rewrite Hfirst.
  assert (Hlk : buf (W ((ESC :: 93 :: t) ++ cs) (output st)) !! length (buf (output st))
                = Some ESC).
  { unfold W. cbn [buf app]. apply list_lookup_middle. reflexivity. }
  destruct (decide (buf (W ((ESC :: 93 :: t) ++ cs) (output st))
                      !! length (buf (output st)) = Some 0)) as [E | _];
    [rewrite Hlk in E; discriminate |].
  destruct (decide (buf (W ((ESC :: 93 :: t) ++ cs) (output st))
                      !! length (buf (output st)) = Some TAB)) as [E | _];
    [rewrite Hlk in E; discriminate |].
  reflexivity.
Qed.

Lemma line_as_ansi_cell_pos (self : Line) (limit pos : Z) (st : AnsiState) :
  0 <= pos < limit -> limit < 2 ^ 32 ->
  pos <= fst (line_as_ansi_cell TEXT_SIZE_CODE DECORATION_FG_CODE SGR_MASK attrs_val
                cell_multicell_data self limit pos st) < limit.
Proof.
  intros Hp Hl. unfold line_as_ansi_cell, line_as_ansi_text.
  destruct (text_in_cell_ansi TEXT_SIZE_CODE cell_multicell_data (cpu_at self pos)
              (text_cache self)
              (output (line_as_ansi_escapes DECORATION_FG_CODE SGR_MASK attrs_val
                         self pos st))) as [n o].
  case_tests; cbn [fst]; try lia;
    match goal with
    | |- _ <= skip_tab_cells _ _ ?num _ < _ =>
        destruct (skip_tab_cells_spec self limit num pos Hp Hl) as (H1 & H2 & _); lia
    end.
Qed.

(** [limit - start_at] rounds are enough for the loop of [line_as_ansi]:
    with more of them the state is the same. *)
Lemma line_as_ansi_loop_fuel (self : Line) (limit : Z) (fuel : nat) :
  forall (extra : nat) (pos : Z) (st : AnsiState),
    0 <= pos -> limit < 2 ^ 32 -> limit - pos <= Z.of_nat fuel ->
    line_as_ansi_loop TEXT_SIZE_CODE DECORATION_FG_CODE SGR_MASK attrs_val
      cell_multicell_data (fuel + extra) self limit pos st
    = line_as_ansi_loop TEXT_SIZE_CODE DECORATION_FG_CODE SGR_MASK attrs_val
        cell_multicell_data fuel self limit pos st.
Proof.
  induction fuel as [| fuel IH]; intros extra pos st Hp Hl Hf.
  - destruct extra as [| extra]; [reflexivity |]. simpl.
    destruct (Z.ltb_spec pos limit); [lia | reflexivity].
  - cbn [Nat.add line_as_ansi_loop].
    destruct (Z.ltb_spec pos limit) as [Hlt | Hge]; [| reflexivity].
    pose proof (line_as_ansi_cell_pos self limit pos st (conj Hp Hlt) Hl) as Hc.
    destruct (line_as_ansi_cell TEXT_SIZE_CODE DECORATION_FG_CODE SGR_MASK attrs_val
                cell_multicell_data self limit pos st) as [pos' st'].
    cbn [fst] in Hc. rewrite add32_small by lia. apply IH; lia.
Qed.

(** *** The loop of [line_as_ansi] at a tab *)

(** The loop at a cell whose emitted text starts with a tab: after the
    escape codes of the cell it leaves the tab alone in the buffer and
    goes on at the column after the space cells that the tab covers. *)
Lemma line_as_ansi_loop_tab (self : Line) (limit pos : Z) (st : AnsiState) (fuel : nat) :
  let st1 := line_as_ansi_escapes DECORATION_FG_CODE SGR_MASK attrs_val self pos st in
  let r := text_in_cell_ansi TEXT_SIZE_CODE cell_multicell_data (cpu_at self pos)
             (text_cache self) (output st1) in
  let num := Z.to_nat (if fst r >? 1
                       then char_at (buf (snd r)) (len (snd r) - fst r + 1) else 0) in
  let j := skip_tab_cells self limit num pos in
  0 <= pos < limit -> limit < 2 ^ 32 -> limit - pos <= Z.of_nat fuel ->
  buf (snd r) !! Z.to_nat (len (snd r) - fst r) = Some TAB ->
  line_as_ansi_loop TEXT_SIZE_CODE DECORATION_FG_CODE SGR_MASK attrs_val
    cell_multicell_data fuel self limit pos st
  = line_as_ansi_loop TEXT_SIZE_CODE DECORATION_FG_CODE SGR_MASK attrs_val
      cell_multicell_data fuel self limit (j + 1)
      (mkAnsiState (escape_code_written st1) (W [TAB] (output st1)) (gpu_at self pos)).
Proof.
  cbn zeta. intros Hp Hl Hf Hlk.
  pose proof (line_as_ansi_cell_tab self limit pos st Hlk) as Hcell. cbn zeta in Hcell.
  set (st1 := line_as_ansi_escapes DECORATION_FG_CODE SGR_MASK attrs_val self pos st) in *.
  set (j := skip_tab_cells self limit _ pos) in *.
  assert (Hj : pos <= j < limit).
  { pose proof (line_as_ansi_cell_pos self limit pos st Hp Hl) as H.
    rewrite Hcell in H. exact H. }
  destruct fuel as [| fuel]; [lia |].
  transitivity (line_as_ansi_loop TEXT_SIZE_CODE DECORATION_FG_CODE SGR_MASK attrs_val
                  cell_multicell_data fuel self limit (j + 1)
                  (mkAnsiState (escape_code_written st1) (W [TAB] (output st1))
                     (gpu_at self pos))).
  - cbn [line_as_ansi_loop].
    destruct (Z.ltb_spec pos limit) as [_ | Hge]; [| lia].
    rewrite Hcell, add32_small by lia. reflexivity.
  - replace (S fuel) with (fuel + 1)%nat by lia.
    symmetry. apply line_as_ansi_loop_fuel; lia.
Qed.

(** A call of [line_as_ansi] on an empty range writes the prefix
    character and the prompt mark, and leaves [*prev_cell] as it is. *)
Lemma line_as_ansi_empty_range (self : Line) (o : ANSIBuf) (prev : option GPUCell)
    (pos stop_before prefix_char : Z) :
  pos < MIN stop_before (xlimit_for_line self) ->
  let h := line_as_ansi TEXT_SIZE_CODE DECORATION_FG_CODE SGR_MASK attrs_val
             cell_multicell_data xlimit_for_line self o prev pos pos prefix_char in
  let limit := MIN stop_before (xlimit_for_line self) in
  snd h = prev
  /\ line_as_ansi TEXT_SIZE_CODE DECORATION_FG_CODE SGR_MASK attrs_val
       cell_multicell_data xlimit_for_line self o prev pos stop_before prefix_char
     = let st := line_as_ansi_loop TEXT_SIZE_CODE DECORATION_FG_CODE SGR_MASK attrs_val
                   cell_multicell_data (Z.to_nat (limit - pos)) self limit pos
                   (mkAnsiState (fst (fst h)) (snd (fst h)) (default blank_cell prev)) in
       (escape_code_written st, output st, Some (prev_cell st)).
Proof.
  intros Hlt. cbn zeta. unfold line_as_ansi.
  assert (He : (MIN pos (xlimit_for_line self) <=? pos) = true).
  { apply Z.leb_le. rewrite MIN_spec. lia. }
  rewrite He.
  destruct (Z.leb_spec (MIN stop_before (xlimit_for_line self)) pos) as [Hle | _]; [lia |].
  destruct (prompt_kind self); cbn [fst snd]; split; reflexivity.
Qed.

(** C4 as the specification states it does not hold: for the line whose
    cell 0 is a tab with skip count 3 and whose cells 1..3 are spaces, the
    code point that [line_as_ansi] emits for the tab is not a space; it is
    the tab. *)
Lemma line_as_ansi_keeps_the_tab :
  buf (snd (fst (line_as_ansi "66" 58 sample_SGR_MASK sample_attrs_val wide_mcd xnum
                   tab_line empty_output None 0 4 0))) <> [SPACE]
  /\ buf (snd (fst (line_as_ansi "66" 58 sample_SGR_MASK sample_attrs_val wide_mcd xnum
                      tab_line empty_output None 0 4 0))) = [TAB].
Proof. split; [vm_compute; discriminate | reflexivity]. Qed.

(** C4 (amended): in [line_as_ansi], for every cell whose emitted text
    starts with a tab, the tab stays as the first emitted code point, the
    text emitted for the cell is cut to that one code point, and the space
    cells that follow are skipped without being emitted: as many as the
    skip count cached with the tab, as long as the limit of the
    serialization is not reached and the cells hold a space.  With such a
    cell at the column [pos], and [j] the last column that the tab covers:
    the for loop of [line_as_ansi], when it is at [pos] in any state,
    leaves in the buffer the escape codes of the cell and then the tab
    alone, makes the cell the previous cell, and goes on at the column
    [j + 1]; and so does a call of [line_as_ansi] that starts at [pos],
    after the prefix character and the prompt mark that the call on the
    empty range writes too. *)
Theorem line_as_ansi_tab (self : Line) (limit pos : Z) (st : AnsiState) :
  let st1 := line_as_ansi_escapes DECORATION_FG_CODE SGR_MASK attrs_val self pos st in
  let r := text_in_cell_ansi TEXT_SIZE_CODE cell_multicell_data (cpu_at self pos)
             (text_cache self) (output st1) in
  let num := Z.to_nat (if fst r >? 1
                       then char_at (buf (snd r)) (len (snd r) - fst r + 1) else 0) in
  let j := skip_tab_cells self limit num pos in
  let st2 := mkAnsiState (escape_code_written st1) (W [TAB] (output st1)) (gpu_at self pos) in
  0 <= pos < limit -> limit < 2 ^ 32 ->
  buf (snd r) !! Z.to_nat (len (snd r) - fst r) = Some TAB ->
  (pos <= j <= pos + Z.of_nat num
   /\ j < limit
   /\ (forall k : Z, pos < k <= j -> cell_is_char (cpu_at self k) SPACE = true)
   /\ (j = pos + Z.of_nat num \/ j + 1 = limit
       \/ cell_is_char (cpu_at self (j + 1)) SPACE = false))
  /\ (forall fuel : nat,
        limit - pos <= Z.of_nat fuel ->
        line_as_ansi_loop TEXT_SIZE_CODE DECORATION_FG_CODE SGR_MASK attrs_val
          cell_multicell_data fuel self limit pos st
        = line_as_ansi_loop TEXT_SIZE_CODE DECORATION_FG_CODE SGR_MASK attrs_val
            cell_multicell_data fuel self limit (j + 1) st2)
  /\ (forall (o : ANSIBuf) (prev : option GPUCell) (stop_before prefix_char : Z),
        let h := line_as_ansi TEXT_SIZE_CODE DECORATION_FG_CODE SGR_MASK attrs_val
                   cell_multicell_data xlimit_for_line self o prev pos pos prefix_char in
        limit = MIN stop_before (xlimit_for_line self) ->
        st = mkAnsiState (fst (fst h)) (snd (fst h)) (default blank_cell prev) ->
        line_as_ansi TEXT_SIZE_CODE DECORATION_FG_CODE SGR_MASK attrs_val
          cell_multicell_data xlimit_for_line self o prev pos stop_before prefix_char
        = let st3 := line_as_ansi_loop TEXT_SIZE_CODE DECORATION_FG_CODE SGR_MASK attrs_val
                       cell_multicell_data (Z.to_nat (limit - pos)) self limit (j + 1) st2 in
          (escape_code_written st3, output st3, Some (prev_cell st3))).
Proof.
  cbn zeta. intros Hp Hl Hlk.
  split; [apply skip_tab_cells_spec; assumption |].
  split.
  - intros fuel Hf. apply (line_as_ansi_loop_tab self limit pos st fuel Hp Hl Hf Hlk).
  - intros o prev stop_before prefix_char Hlim Hst.
    destruct (line_as_ansi_empty_range self o prev pos stop_before prefix_char) as [_ Hcall];
      [rewrite <- Hlim; lia |].
    cbn zeta in Hcall. rewrite Hcall, <- Hlim, <- Hst.
    rewrite (line_as_ansi_loop_tab self limit pos st (Z.to_nat (limit - pos)) Hp Hl
               ltac:(lia) Hlk).
    reflexivity.
Qed.

(** Once set, the flag stays set to the end of the loop. *)
Lemma line_as_ansi_loop_keeps_flag (self : Line) (limit : Z) (fuel : nat) :
  forall (pos : Z) (st : AnsiState),
    escape_code_written st = true ->
    escape_code_written
      (line_as_ansi_loop TEXT_SIZE_CODE DECORATION_FG_CODE SGR_MASK attrs_val
         cell_multicell_data fuel self limit pos st) = true.
Proof.
  induction fuel as [| fuel IH]; intros pos st Hst; [exact Hst |].
  cbn [line_as_ansi_loop]. destruct (pos <? limit); [| exact Hst].
  unfold line_as_ansi_cell.
  pose proof (line_as_ansi_text_flag self limit pos
                (line_as_ansi_escapes DECORATION_FG_CODE SGR_MASK attrs_val self pos st))
    as Ht.
  destruct (line_as_ansi_text TEXT_SIZE_CODE cell_multicell_data self limit pos
              (line_as_ansi_escapes DECORATION_FG_CODE SGR_MASK attrs_val self pos st))
    as [pos' st'].
  apply IH. cbn [escape_code_written snd] in *. rewrite Ht.
  apply line_as_ansi_escapes_keeps_flag. exact Hst.
Qed.

(** With no hyperlink pool and a cell whose colours and attributes are
    those of the previous cell, the first part of a round does nothing. *)
Lemma line_as_ansi_escapes_nothing (self : Line) (pos : Z) (st : AnsiState) :
  hyperlink_pool (output st) = None ->
  gpu_at self pos = prev_cell st ->
  line_as_ansi_escapes DECORATION_FG_CODE SGR_MASK attrs_val self pos st = st.
Proof.
  intros Hp Hc. unfold line_as_ansi_escapes, CMP_ANY. rewrite Hp, Hc, !Z.eqb_refl.
  reflexivity.
Qed.

(** The second part of a round appends to the buffer, whatever the cell
    is; it changes nothing else of the state. *)
Lemma line_as_ansi_text_appends (self : Line) (limit pos : Z) (st : AnsiState) :
  exists t : list Z,
    snd (line_as_ansi_text TEXT_SIZE_CODE cell_multicell_data self limit pos st)
    = mkAnsiState (escape_code_written st) (W t (output st)) (prev_cell st).
Proof.
  unfold line_as_ansi_text.
  destruct (text_in_cell_ansi_appends (cpu_at self pos) (text_cache self) (output st))
    as [t Ht].
  rewrite Ht.
  assert (Hfirst : Z.to_nat (len (W t (output st)) - Z.of_nat (length t))
                   = length (buf (output st))) by (rewrite len_W; unfold len; lia).
  rewrite Hfirst.
  set (o1 := if decide (buf (W t (output st)) !! length (buf (output st)) = Some 0)
             then mkANSIBuf (<[length (buf (output st)) := SPACE]> (buf (W t (output st))))
                    (active_hyperlink_id (W t (output st))) (hyperlink_pool (W t (output st)))
             else W t (output st)).
  assert (H1 : exists t1, o1 = W t1 (output st) /\ length t1 = length t).
  { unfold o1. destruct (decide _) as [_ | _]; [| exists t; split; reflexivity].
    exists (<[0%nat := SPACE]> t). split; [| apply length_insert].
    unfold W. cbn [buf active_hyperlink_id hyperlink_pool]. f_equal.
    rewrite insert_app_r_alt by lia. rewrite Nat.sub_diag. reflexivity. }
  destruct H1 as (t1 & -> & Hlen).
  destruct (decide (buf (W t1 (output st)) !! length (buf (output st)) = Some TAB))
    as [_ | _]; [| exists t1; reflexivity].
  destruct (Z.gtb_spec (Z.of_nat (length t)) 1) as [Hn | Hn]; [| exists t1; reflexivity].
  exists (take 1 t1). cbn [snd]. f_equal.
  unfold shrink. rewrite len_W. unfold len, W. cbn [buf active_hyperlink_id hyperlink_pool].
  f_equal.
  replace (Z.to_nat (Z.of_nat (length (buf (output st))) + Z.of_nat (length t1)
                     - (Z.of_nat (length t) - 1)))
    with (length (buf (output st)) + 1)%nat by lia.
  apply take_app_add'. reflexivity.
Qed.

(** On cells that all have the colours and attributes of the previous
    cell, and with no hyperlink pool, the loop only appends to the buffer
    and never sets the flag. *)
Lemma line_as_ansi_loop_unflagged (self : Line) (limit : Z) (c0 : GPUCell) (fuel : nat) :
  (forall pos : Z, gpu_at self pos = c0) ->
  forall (pos : Z) (st : AnsiState),
    escape_code_written st = false ->
    hyperlink_pool (output st) = None ->
    prev_cell st = c0 ->
    exists t : list Z,
      line_as_ansi_loop TEXT_SIZE_CODE DECORATION_FG_CODE SGR_MASK attrs_val
        cell_multicell_data fuel self limit pos st
      = mkAnsiState false (W t (output st)) c0.
Proof.
  intros Hg. induction fuel as [| fuel IH]; intros pos st Hf Hp Hc.
  - exists []. cbn [line_as_ansi_loop]. unfold W. rewrite app_nil_r.
    destruct st as [f [b a p] c]. cbn in *. subst. reflexivity.
  - cbn [line_as_ansi_loop]. destruct (pos <? limit).
    2:{ exists []. unfold W. rewrite app_nil_r.
        destruct st as [f [b a p] c]. cbn in *. subst. reflexivity. }
    unfold line_as_ansi_cell.
    rewrite line_as_ansi_escapes_nothing by (rewrite ?Hg, ?Hc; auto).
    destruct (line_as_ansi_text_appends self limit pos st) as [t Ht].
    destruct (line_as_ansi_text TEXT_SIZE_CODE cell_multicell_data self limit pos st)
      as [pos' st'].
    cbn [snd] in Ht. subst st'. cbn [escape_code_written output].
    destruct (IH (add32 pos' 1)
                (mkAnsiState (escape_code_written st) (W t (output st)) (gpu_at self pos)))
      as [t' Ht']; [exact Hf | exact Hp | apply Hg |].
    rewrite Ht'. cbn [output]. rewrite W_W. exists (t ++ t'). reflexivity.
Qed.

(** A line with no prompt mark whose first serialised cell is the top-left
    cell of a multi-cell glyph, serialised with no hyperlink pool and with
    GPU cells that all equal the previous cell: [line_as_ansi] writes the
    escape sequence of the glyph at the head of the buffer and returns
    false. *)
Lemma line_as_ansi_multicell_unflagged (self : Line) (o : ANSIBuf) (prev : option GPUCell)
    (start_at stop_before : Z) :
  prompt_kind self = UNKNOWN_PROMPT_KIND ->
  hyperlink_pool o = None ->
  start_at < MIN stop_before (xlimit_for_line self) ->
  (forall pos : Z, gpu_at self pos = default blank_cell prev) ->
  CPU.ch_is_idx (cpu_at self start_at) = true ->
  CPU.is_multicell (cpu_at self start_at) = true ->
  CPU.x (cpu_at self start_at) = 0 -> CPU.y (cpu_at self start_at) = 0 ->
  let r := line_as_ansi TEXT_SIZE_CODE DECORATION_FG_CODE SGR_MASK attrs_val
             cell_multicell_data xlimit_for_line self o prev start_at stop_before 0 in
  fst (fst r) = false
  /\ exists t : list Z, buf (snd (fst r)) = ESC :: 93 :: t.
Proof.
  intros Hk Hp Hlt Hg Hi Hm Hx Hy. cbn zeta. unfold line_as_ansi.
  rewrite Hk. cbn [Z.eqb negb].
  destruct (Z.leb_spec (MIN stop_before (xlimit_for_line self)) start_at) as [Hle | _];
    [lia |].
  set (limit := MIN stop_before (xlimit_for_line self)) in *.
  set (st0 := mkAnsiState false
                (mkANSIBuf [] (active_hyperlink_id o) (hyperlink_pool o))
                (default blank_cell prev)).
  assert (Hfuel : exists fuel, Z.to_nat (limit - start_at) = S fuel)
    by (exists (Z.to_nat (limit - start_at) - 1)%nat; lia).
  destruct Hfuel as [fuel ->]. cbn [line_as_ansi_loop].
  destruct (Z.ltb_spec start_at limit) as [_ | Hge]; [| lia].
  unfold line_as_ansi_cell.
  rewrite line_as_ansi_escapes_nothing by (cbn; auto).
  destruct (line_as_ansi_text_multicell self limit start_at st0 Hi Hm Hx Hy) as [t Ht].
  rewrite Ht. cbn [escape_code_written output st0].
  destruct (line_as_ansi_loop_unflagged self limit (default blank_cell prev) fuel Hg
              (add32 start_at 1)
              (mkAnsiState false
                 (W (ESC :: 93 :: t) (mkANSIBuf [] (active_hyperlink_id o) (hyperlink_pool o)))
                 (gpu_at self start_at)))
    as [t' Ht']; [reflexivity | exact Hp | apply Hg |].
  rewrite Ht'. cbn [fst snd escape_code_written output]. split; [reflexivity |].
  rewrite W_W. exists (t ++ t'). reflexivity.
Qed.

(** The macro [WRITE_MARK] sets the flag: a line with a prompt mark
    makes [line_as_ansi] return true. *)
Lemma line_as_ansi_mark_flagged (self : Line) (o : ANSIBuf) (prev : option GPUCell)
    (start_at stop_before prefix_char : Z) :
  prompt_kind self <> UNKNOWN_PROMPT_KIND ->
  fst (fst (line_as_ansi TEXT_SIZE_CODE DECORATION_FG_CODE SGR_MASK attrs_val
              cell_multicell_data xlimit_for_line self o prev start_at stop_before
              prefix_char)) = true.
Proof.
  intros Hk. unfold line_as_ansi.
  destruct (prompt_kind self); [contradiction | ..];
    (destruct (MIN stop_before (xlimit_for_line self) <=? start_at); [reflexivity |];
     cbn [fst]; apply line_as_ansi_loop_keeps_flag; reflexivity).
Qed.

End AnsiFacts.

(** ** The theorems at sample inputs *)

Example apply_cursor_sample :
  gpu_cells (line_apply_cursor sample_cursor_as_gpu_cell tab_line sample_cursor 1 2 false)
  = [blank_cell; sample_cursor_as_gpu_cell sample_cursor;
     sample_cursor_as_gpu_cell sample_cursor; blank_cell].
Proof. reflexivity. Qed.

(** With [at = 1] and [num = 2^32 - 1] the sum [at + num] wraps to 0 and
    the loop does not run. *)
Example apply_cursor_wraps :
  line_apply_cursor sample_cursor_as_gpu_cell tab_line sample_cursor 1 (2 ^ 32 - 1) false
  = tab_line.
Proof. reflexivity. Qed.

(** C9 as the claim states it does not hold: with [at = 1] and
    [num = 2^32 - 1], two [unsigned int] values, the column 1 is in
    [at, min(at+num, xnum)), yet the cell at column 1 does not get the
    foreground colour of the cursor: the sum that the loop tests is an
    [unsigned int], it wraps to 0. *)
Lemma line_apply_cursor_sum_wraps :
  u32 1 /\ u32 (2 ^ 32 - 1)
  /\ 1 <= 1 < Z.min (1 + (2 ^ 32 - 1)) (xnum tab_line)
  /\ fg (gpu_at (line_apply_cursor sample_cursor_as_gpu_cell tab_line sample_cursor
                   1 (2 ^ 32 - 1) false) 1)
     <> fg (sample_cursor_as_gpu_cell sample_cursor).
Proof.
  split; [unfold u32; lia | split; [unfold u32; lia | split; [simpl; lia |]]].
  vm_compute. discriminate.
Qed.

Example unicode_in_range_plain :
  fst (unicode_in_range url_line 0 6 17 true false false) = utf32 "https://exa".
Proof. reflexivity. Qed.

Example set_text_sample :
  exists self' : Line,
    set_text sample_cursor_to_attrs sample_COL_MASK sample_PY_SSIZE_T_MAX tab_line
      (utf32 "abc") 1 2 sample_cursor = Some (PyReturn tt, self')
    /\ cpu_cells self'
       = [tab_cell; cpu_cell_of_char 98; cpu_cell_of_char 99; cpu_cell_of_char 32].
Proof. eexists. split; reflexivity. Qed.

(** With a negative [offset] the first round reads before the string:
    the call has no defined result. *)
Example set_text_negative_offset :
  set_text sample_cursor_to_attrs sample_COL_MASK sample_PY_SSIZE_T_MAX tab_line
    (utf32 "abc") (-1) 2 sample_cursor = None.
Proof. reflexivity. Qed.

Lemma line_url_start_at_range_witness :
  u32 (xnum url_line) /\ u32 12
  /\ 0 <= line_url_start_at sample_is_url_char sample_url_prefixes 5 url_line 12
     <= xnum url_line.
Proof.
  assert (H1 : u32 (xnum url_line)) by (unfold u32; simpl; lia).
  assert (H2 : u32 12) by (unfold u32; lia).
  split; [exact H1 | split; [exact H2 |]].
  apply (line_url_start_at_range sample_is_url_char sample_url_prefixes 5 url_line 12 H1 H2).
Defined.

Lemma add_combining_char_fails_on_multicell_witness :
  wf_line url_line /\ 0 <= 0
  /\ chars (text_in_cell (cpu_at (snd (add_combining_char url_line 0 769)) 0)
              (text_cache (snd (add_combining_char url_line 0 769))))
     = [118; 769].
Proof.
  assert (H1 : wf_line url_line) by (split; reflexivity).
  assert (H2 : 0 <= 0) by lia.
  split; [exact H1 | split; [exact H2 |]].
  destruct (add_combining_char_fails_on_multicell url_line 0 769 H1 H2) as (_ & _ & H).
  destruct (H eq_refl) as (_ & _ & Ht). exact Ht.
Defined.

Lemma line_apply_cursor_keeps_text_witness :
  u32 1 /\ u32 2 /\ u32 (xnum tab_line)
  /\ cpu_cells (line_apply_cursor sample_cursor_as_gpu_cell tab_line sample_cursor 1 2 false)
     = cpu_cells tab_line
  /\ exists c : GPUCell,
       gpu_cells (line_apply_cursor sample_cursor_as_gpu_cell tab_line sample_cursor 1 2 false)
         !! 2%nat = Some c
       /\ fg c = fg (sample_cursor_as_gpu_cell sample_cursor)
       /\ mark (attrs c) = mark (attrs blank_cell).
Proof.
  assert (H1 : u32 1) by (unfold u32; lia).
  assert (H2 : u32 2) by (unfold u32; lia).
  assert (H3 : u32 (xnum tab_line)) by (unfold u32; simpl; lia).
  split; [exact H1 | split; [exact H2 | split; [exact H3 |]]].
  destruct (line_apply_cursor_keeps_text sample_cursor_as_gpu_cell tab_line sample_cursor 1 2
              H1 H2 H3) as (H & _ & Hr & _).
  split; [exact H |].
  destruct (Hr ltac:(lia)) as [Hin _].
  destruct (Hin 2%nat blank_cell ltac:(simpl; lia) eq_refl)
    as (c & Hc & (Hfg & _) & _ & Hm & _).
  exists c. split; [exact Hc | split; [exact Hfg | exact Hm]].
Defined.

Lemma set_text_out_of_bounds_witness :
  Z.of_nat (length (utf32 "ab")) < 1 + 2
  /\ fits_ssize_t sample_PY_SSIZE_T_MAX (1 + 2) = true
  /\ set_text sample_cursor_to_attrs sample_COL_MASK sample_PY_SSIZE_T_MAX tab_line
       (utf32 "ab") 1 2 sample_cursor
     = Some (PyRaise ValueError, tab_line).
Proof.
  assert (H : Z.of_nat (length (utf32 "ab")) < 1 + 2) by (simpl; lia).
  assert (H' : fits_ssize_t sample_PY_SSIZE_T_MAX (1 + 2) = true) by reflexivity.
  split; [exact H | split; [exact H' |]].
  apply (set_text_out_of_bounds sample_cursor_to_attrs sample_COL_MASK sample_PY_SSIZE_T_MAX
           tab_line (utf32 "ab") 1 2 sample_cursor H H').
Defined.

Lemma width_of_empty_cell_witness :
  1 < xnum blank_line /\ cell_has_text (cpu_at blank_line 1) = false
  /\ width wide_mcd blank_line 1 = PyNullNoExc.
Proof.
  assert (H1 : 1 < xnum blank_line) by (simpl; lia).
  assert (H2 : cell_has_text (cpu_at blank_line 1) = false) by reflexivity.
  split; [exact H1 | split; [exact H2 |]].
  destruct (width_of_empty_cell wide_mcd blank_line 1 H1 H2) as [H _]. exact H.
Defined.


Lemma line_as_ansi_tab_witness :
  0 <= 0 < 4 /\ 4 < 2 ^ 32
  /\ line_as_ansi "66" 58 sample_SGR_MASK sample_attrs_val wide_mcd xnum
       tab_line empty_output None 0 4 0
     = (false, W [TAB] empty_output, Some blank_cell).
Proof.
  assert (H1 : 0 <= 0 < 4) by lia.
  assert (H2 : 4 < 2 ^ 32) by lia.
  split; [exact H1 | split; [exact H2 |]].
  destruct (line_as_ansi_tab "66" 58 sample_SGR_MASK sample_attrs_val wide_mcd xnum
              tab_line 4 0 first_round H1 H2 eq_refl) as (_ & _ & Hf).
  rewrite (Hf empty_output None 4 0 eq_refl eq_refl). reflexivity.
Defined.

(** * Further properties *)

(** ** URL detection: what [line_url_start_at] finds *)

Section UrlStartFacts.

Variable is_url_char : Z -> bool.
Variable url_prefixes : list (list Z).
Variable max_prefix_len : Z.

(** One round of the scanner keeps what its state says of the cells
    after the column, and it returns a column only on a colon that two
    slashes follow. *)
Lemma find_colon_slash_body_spec (self : Line) (x pos : Z) (state : URL_PARSER_STATES) :
  0 <= pos < xnum self -> xnum self + 1 < 2 ^ 32 ->
  slashes_after self pos state ->
  match find_colon_slash_body is_url_char self x pos state with
  | inl r =>
      r = 0
      \/ (r = pos
          /\ is_hostname_lc is_url_char (text_in_cell (cpu_at self pos) (text_cache self)) = true
          /\ cell_is_char (cpu_at self pos) 58 = true
          /\ slashes_after self pos SECOND_SLASH)
  | inr state' =>
      is_hostname_lc is_url_char (text_in_cell (cpu_at self pos) (text_cache self)) = true
      /\ slashes_after self (pos - 1) state'
  end.
Proof.
  intros Hp Hx Hs. unfold find_colon_slash_body. cbv zeta.
  destruct (is_hostname_lc is_url_char (text_in_cell (cpu_at self pos) (text_cache self)))
    eqn:Hh; cbn [negb]; [| left; reflexivity].
  rewrite !(add32_small pos) by lia.
  set (state1 :=
         if pos =? x then
           if cell_is_char (cpu_at self pos) 58 then
             if (pos + 2 <? xnum self) && cell_is_char (cpu_at self (pos + 1)) 47
                && cell_is_char (cpu_at self (pos + 2)) 47
             then SECOND_SLASH else state
           else if cell_is_char (cpu_at self pos) 47 then
             if (pos + 1 <? xnum self) && cell_is_char (cpu_at self (pos + 1)) 47
             then FIRST_SLASH else state
           else state
         else state).
  assert (H1 : slashes_after self pos state1).
  { unfold state1.
    destruct (pos =? x); [| exact Hs].
    destruct (cell_is_char (cpu_at self pos) 58).
    - destruct (Z.ltb_spec (pos + 2) (xnum self)); cbn [andb]; [| exact Hs].
      destruct (cell_is_char (cpu_at self (pos + 1)) 47) eqn:E1; cbn [andb]; [| exact Hs].
      destruct (cell_is_char (cpu_at self (pos + 2)) 47) eqn:E2; [| exact Hs].
      cbn. auto.
    - destruct (cell_is_char (cpu_at self pos) 47); [| exact Hs].
      destruct (Z.ltb_spec (pos + 1) (xnum self)); cbn [andb]; [| exact Hs].
      destruct (cell_is_char (cpu_at self (pos + 1)) 47) eqn:E1; [| exact Hs].
      cbn. auto. }
  clearbody state1.
  destruct state1; cbn [slashes_after] in H1;
    destruct (cell_is_char (cpu_at self pos) 47) eqn:E47;
    destruct (cell_is_char (cpu_at self pos) 58) eqn:E58;
    cbn [slashes_after];
    replace (pos - 1 + 1) with pos by lia;
    replace (pos - 1 + 2) with (pos + 1) by lia;
    try (split; [reflexivity |]); try exact I;
    try (right; repeat split; (reflexivity || tauto));
    try (repeat split; (assumption || lia || tauto)).
Qed.

(** A column that the loop of [find_colon_slash] returns holds a colon,
    the two cells after it hold a slash each, and the scanner went over
    cells of host name characters only. *)
Lemma find_colon_slash_loop_found (fuel : nat) :
  forall (self : Line) (x limit pos : Z) (state : URL_PARSER_STATES),
    1 <= limit -> limit <= pos < xnum self -> xnum self + 1 < 2 ^ 32 ->
    slashes_after self pos state ->
    let r := find_colon_slash_loop is_url_char fuel self x limit pos state in
    r <> 0 ->
    limit <= r <= pos
    /\ cell_is_char (cpu_at self r) 58 = true
    /\ slashes_after self r SECOND_SLASH
    /\ forall k : Z, r <= k <= pos ->
         is_hostname_lc is_url_char (text_in_cell (cpu_at self k) (text_cache self)) = true.
Proof.
  induction fuel as [| fuel IH]; intros self x limit pos state Hl Hp Hx Hs; cbn zeta;
    cbn [find_colon_slash_loop]; [congruence |].
  pose proof (find_colon_slash_body_spec self x pos state ltac:(lia) Hx Hs) as Hb.
  destruct (find_colon_slash_body is_url_char self x pos state) as [r | state'].
  - intros Hr. destruct Hb as [-> | (-> & Hh & Hc & Hss)]; [congruence |].
    split; [lia | split; [exact Hc | split; [exact Hss |]]].
    intros k Hk. replace k with pos by lia. exact Hh.
  - destruct Hb as [Hh Hss]. rewrite sub32_small by lia.
    destruct (Z.geb_spec (pos - 1) limit) as [Hge | Hlt]; [| congruence].
    intros Hr.
    destruct (IH self x limit (pos - 1) state' Hl ltac:(lia) Hx Hss Hr)
      as (H1 & H2 & H3 & H4).
    split; [lia | split; [exact H2 | split; [exact H3 |]]].
    intros k Hk. destruct (Z.eq_dec k pos) as [-> | Hne]; [exact Hh | apply H4; lia].
Qed.

(** A column that [find_colon_slash] returns holds a colon and the two
    cells after it hold a slash each. *)
Lemma find_colon_slash_colon (self : Line) (x limit : Z) :
  1 <= xnum self -> xnum self + 1 < 2 ^ 32 ->
  let r := find_colon_slash is_url_char self x limit in
  r <> 0 ->
  (2 <= r /\ limit <= r /\ r <= x /\ r + 2 < xnum self)
  /\ cell_is_char (cpu_at self r) 58 = true
  /\ cell_is_char (cpu_at self (r + 1)) 47 = true
  /\ cell_is_char (cpu_at self (r + 2)) 47 = true.
Proof.
  intros Hx0 Hx1. cbn zeta. unfold find_colon_slash.
  rewrite MIN_spec, MAX_spec, (sub32_small (xnum self) 1) by lia.
  destruct (Z.ltb_spec (Z.min x (xnum self - 1)) (Z.max 2 limit)) as [Hlt | Hge];
    [congruence |].
  intros Hr.
  destruct (find_colon_slash_loop_found (Z.to_nat (Z.min x (xnum self - 1))) self x
              (Z.max 2 limit) (Z.min x (xnum self - 1)) ANY ltac:(lia) ltac:(lia) Hx1 I Hr)
    as (H1 & H2 & (H3 & H4 & H5) & _).
  repeat split; (assumption || lia).
Qed.

(** X1: a column [r] other than 0 that [find_colon_slash(x, limit)]
    returns is the column of a colon that two slashes follow, all three
    inside the line; it is at [x] or left of it and not left of
    [max(2, limit)]; and every cell from [r] to the column where the scan
    began, [min(x, xnum - 1)], holds host name characters only. *)
Theorem find_colon_slash_found (self : Line) (x limit : Z) :
  1 <= xnum self -> xnum self + 1 < 2 ^ 32 ->
  let r := find_colon_slash is_url_char self x limit in
  r <> 0 ->
  (Z.max 2 limit <= r /\ r <= x /\ r + 2 < xnum self)
  /\ cell_is_char (cpu_at self r) 58 = true
  /\ cell_is_char (cpu_at self (r + 1)) 47 = true
  /\ cell_is_char (cpu_at self (r + 2)) 47 = true
  /\ forall k : Z, r <= k <= Z.min x (xnum self - 1) ->
       is_hostname_lc is_url_char (text_in_cell (cpu_at self k) (text_cache self)) = true.
Proof.
  intros Hx0 Hx1. cbn zeta. unfold find_colon_slash.
  rewrite MIN_spec, MAX_spec, (sub32_small (xnum self) 1) by lia.
  destruct (Z.ltb_spec (Z.min x (xnum self - 1)) (Z.max 2 limit)) as [Hlt | Hge];
    [congruence |].
  intros Hr.
  destruct (find_colon_slash_loop_found (Z.to_nat (Z.min x (xnum self - 1))) self x
              (Z.max 2 limit) (Z.min x (xnum self - 1)) ANY ltac:(lia) ltac:(lia) Hx1 I Hr)
    as (H1 & H2 & (H3 & H4 & H5) & H6).
  repeat split; (assumption || lia).
Qed.

(** The loop of [prefix_matches] from [(p, i)] says yes exactly when each
    of the cells left of the prefix is in the line and holds its code
    point. *)
Lemma prefix_matches_loop_spec (fuel : nat) :
  forall (self : Line) (prefix : list Z) (plen p i : Z),
    0 <= i <= plen -> 0 <= p -> xnum self < 2 ^ 32 -> plen < 2 ^ 32 ->
    plen - i <= Z.of_nat fuel ->
    prefix_matches_loop fuel self prefix plen p i = true
    <-> forall j : Z, i <= j < plen ->
          p + (j - i) < xnum self
          /\ cell_is_char (cpu_at self (p + (j - i))) (char_at prefix j) = true.
Proof.
  induction fuel as [| fuel IH]; intros self prefix plen p i Hi Hp Hx Hl Hf;
    cbn [prefix_matches_loop].
  - assert (i = plen) by lia. subst i. rewrite Z.eqb_refl.
    split; [intros _ j Hj; lia | reflexivity].
  - destruct (Z.ltb_spec i plen) as [Hlt | Hge]; cbn [andb].
    2:{ assert (i = plen) by lia. subst i. rewrite Z.eqb_refl.
        split; [intros _ j Hj; lia | reflexivity]. }
    destruct (Z.ltb_spec p (xnum self)) as [Hpx | Hpx].
    2:{ destruct (Z.eqb_spec i plen) as [E | _]; [lia |].
        split; [discriminate |]. intros H.
        destruct (H i ltac:(lia)) as [H1 _]. lia. }
    destruct (cell_is_char (cpu_at self p) (char_at prefix i)) eqn:Hc; cbn [negb].
    + rewrite !add32_small by lia.
      rewrite (IH self prefix plen (p + 1) (i + 1)) by lia.
      split; intros H j Hj.
      * destruct (Z.eq_dec j i) as [-> | Hne].
        -- rewrite Z.sub_diag, Z.add_0_r. split; [lia | exact Hc].
        -- replace (p + (j - i)) with (p + 1 + (j - (i + 1))) by lia. apply H. lia.
      * replace (p + 1 + (j - (i + 1))) with (p + (j - i)) by lia. apply H. lia.
    + split; [discriminate |]. intros H.
      destruct (H i ltac:(lia)) as [_ H2].
      rewrite Z.sub_diag, Z.add_0_r in H2. congruence.
Qed.

(** X2: [prefix_matches(at, prefix, prefix_len)] says yes exactly when
    the prefix fits left of the column [at] and each of the [prefix_len]
    cells that end before [at] is a cell of the line holding the code point
    of the prefix at its place, and nothing else. *)
Theorem prefix_matches_iff (self : Line) (at_ : Z) (prefix : list Z) (plen : Z) :
  u32 at_ -> u32 (xnum self) -> 0 <= plen ->
  prefix_matches self at_ prefix plen = true
  <-> plen <= at_
      /\ forall j : Z, 0 <= j < plen ->
           at_ - plen + j < xnum self
           /\ cell_is_char (cpu_at self (at_ - plen + j)) (char_at prefix j) = true.
Proof.
  intros [Ha0 Ha1] [Hx0 Hx1] Hl. unfold prefix_matches.
  destruct (Z.gtb_spec plen at_) as [Hgt | Hle].
  - split; [discriminate | intros [H _]; lia].
  - rewrite sub32_small by lia.
    rewrite (prefix_matches_loop_spec (Z.to_nat plen) self prefix plen (at_ - plen) 0)
      by lia.
    split.
    + intros H. split; [exact Hle |]. intros j Hj.
      specialize (H j Hj). rewrite Z.sub_0_r in H. exact H.
    + intros [_ H] j Hj. rewrite Z.sub_0_r. apply H. exact Hj.
Qed.

(** The prefix that [has_url_prefix_at] reports is one of the list. *)
Lemma has_url_prefix_at_loop_found (self : Line) (at_ min_prefix_len t : Z)
    (prefixes : list (list Z)) :
  u32 at_ ->
  has_url_prefix_at_loop self at_ min_prefix_len prefixes = Some t ->
  exists prefix : list Z,
    In prefix prefixes
    /\ min_prefix_len <= prefix_len prefix <= at_
    /\ t = at_ - prefix_len prefix
    /\ prefix_matches self at_ prefix (prefix_len prefix) = true.
Proof.
  intros [Ha0 Ha1]. induction prefixes as [| prefix rest IH]; cbn [has_url_prefix_at_loop];
    [discriminate |].
  assert (Hrest : has_url_prefix_at_loop self at_ min_prefix_len rest = Some t ->
                  exists prefix0 : list Z,
                    In prefix0 (prefix :: rest)
                    /\ min_prefix_len <= prefix_len prefix0 <= at_
                    /\ t = at_ - prefix_len prefix0
                    /\ prefix_matches self at_ prefix0 (prefix_len prefix0) = true).
  { intros H. destruct (IH H) as (p0 & Hin & Hrest). exists p0.
    split; [right; exact Hin | exact Hrest]. }
  destruct (Z.ltb_spec at_ (prefix_len prefix)) as [Hlt | Hge]; cbn [orb]; [exact Hrest |].
  destruct (Z.ltb_spec (prefix_len prefix) min_prefix_len) as [Hm | Hm]; [exact Hrest |].
  destruct (prefix_matches self at_ prefix (prefix_len prefix)) eqn:Hpm; [| exact Hrest].
  intros H. injection H as <-. exists prefix.
  assert (0 <= prefix_len prefix) by (unfold prefix_len; lia).
  rewrite sub32_small by lia.
  split; [left; reflexivity | split; [lia | split; [reflexivity | exact Hpm]]].
Qed.

Lemma is_url_lc_is_hostname_lc (lc : ListOfChars) :
  is_url_lc is_url_char lc = true -> is_hostname_lc is_url_char lc = true.
Proof.
  unfold is_url_lc, is_hostname_lc. induction (chars lc) as [| c cs IH]; cbn [forallb];
    [reflexivity |].
  intros H. apply andb_prop in H as [H1 H2].
  unfold is_hostname_char at 1. rewrite H1, (IH H2), !orb_true_r. reflexivity.
Qed.

(** When [has_url_beyond_colon_slash] says yes, the cells it looked at
    hold host name characters only. *)
Lemma has_url_beyond_colon_slash_loop_true (fuel : nat) :
  forall (self : Line) (stop i num_of_slashes : Z),
    0 <= i -> stop < 2 ^ 32 -> stop - i <= Z.of_nat fuel ->
    has_url_beyond_colon_slash_loop is_url_char fuel self stop i num_of_slashes = true ->
    forall k : Z, i <= k < stop ->
      is_hostname_lc is_url_char (text_in_cell (cpu_at self k) (text_cache self)) = true.
Proof.
  induction fuel as [| fuel IH]; intros self stop i n Hi Hs Hf; cbn [has_url_beyond_colon_slash_loop].
  - intros _ k Hk. lia.
  - destruct (Z.ltb_spec i stop) as [Hlt | Hge]; [| intros _ k Hk; lia].
    rewrite (add32_small i 1) by lia.
    destruct (n <? 3).
    + destruct (is_hostname_lc is_url_char (text_in_cell (cpu_at self i) (text_cache self)))
        eqn:Hh; cbn [negb]; [| discriminate].
      intros H k Hk. destruct (Z.eq_dec k i) as [-> | Hne]; [exact Hh |].
      apply (IH self stop (i + 1) _ ltac:(lia) Hs ltac:(lia) H). lia.
    + destruct (forallb is_url_char (chars (text_in_cell (cpu_at self i) (text_cache self))))
        eqn:Hh; cbn [negb]; [| discriminate].
      intros H k Hk. destruct (Z.eq_dec k i) as [-> | Hne];
        [apply is_url_lc_is_hostname_lc; exact Hh |].
      apply (IH self stop (i + 1) _ ltac:(lia) Hs ltac:(lia) H). lia.
Qed.

(** What stands in the line at a column [ds_pos] that passed the three
    tests of [line_url_start_at]. *)
Lemma url_start_found (self : Line) (a limit m t : Z) :
  9 <= xnum self -> xnum self + 8 < 2 ^ 32 ->
  let ds_pos := find_colon_slash is_url_char self a limit in
  ds_pos <> 0 ->
  has_url_beyond_colon_slash is_url_char self ds_pos = true ->
  has_url_prefix_at url_prefixes self ds_pos m = Some t ->
  exists prefix : list Z,
    In prefix url_prefixes
    /\ m <= prefix_len prefix
    /\ 0 <= t /\ ds_pos <= a
    /\ ds_pos = t + prefix_len prefix
    /\ ds_pos + 2 < xnum self
    /\ spelled_at self t (prefix ++ [58; 47; 47])
    /\ forall k : Z, ds_pos <= k < Z.min (ds_pos + 8) (xnum self) ->
         is_hostname_lc is_url_char (text_in_cell (cpu_at self k) (text_cache self)) = true.
Proof.
  intros Hx0 Hx1. cbn zeta. intros Hd Hb Hp.
  destruct (find_colon_slash_colon self a limit ltac:(lia) ltac:(lia) Hd)
    as ((Hd2 & _ & Hda & Hd3) & Hc & Hs1 & Hs2).
  set (ds_pos := find_colon_slash is_url_char self a limit) in *.
  unfold has_url_prefix_at in Hp.
  destruct (has_url_prefix_at_loop_found self ds_pos m t url_prefixes ltac:(unfold u32; lia) Hp)
    as (prefix & Hin & Hlen & Ht & Hpm).
  assert (Hpl : 0 <= prefix_len prefix) by (unfold prefix_len; lia).
  unfold prefix_matches in Hpm.
  destruct (Z.gtb_spec (prefix_len prefix) ds_pos) as [Hgt | _]; [discriminate |].
  rewrite sub32_small in Hpm by lia.
  rewrite (prefix_matches_loop_spec (Z.to_nat (prefix_len prefix)) self prefix
             (prefix_len prefix) (ds_pos - prefix_len prefix) 0) in Hpm by lia.
  exists prefix.
  split; [exact Hin | split; [lia | split; [lia | split; [lia | split; [lia | split; [lia |]]]]]].
  split.
  - intros i Hi. rewrite length_app in Hi. cbn [length] in Hi.
    unfold prefix_len in *.
    destruct (Z.lt_ge_cases i (Z.of_nat (length prefix))) as [Hlt | Hge].
    + unfold char_at. rewrite lookup_app_l by lia.
      replace (t + i) with (ds_pos - Z.of_nat (length prefix) + (i - 0)) by lia.
      apply Hpm. lia.
    + unfold char_at. rewrite lookup_app_r by lia.
      assert (Hcases : i = Z.of_nat (length prefix) \/ i = Z.of_nat (length prefix) + 1
                       \/ i = Z.of_nat (length prefix) + 2) by lia.
      destruct Hcases as [-> | [-> | ->]].
      * replace (Z.to_nat (Z.of_nat (length prefix)) - length prefix)%nat with 0%nat by lia.
        replace (t + Z.of_nat (length prefix)) with ds_pos by lia. exact Hc.
      * replace (Z.to_nat (Z.of_nat (length prefix) + 1) - length prefix)%nat with 1%nat by lia.
        replace (t + (Z.of_nat (length prefix) + 1)) with (ds_pos + 1) by lia. exact Hs1.
      * replace (Z.to_nat (Z.of_nat (length prefix) + 2) - length prefix)%nat with 2%nat by lia.
        replace (t + (Z.of_nat (length prefix) + 2)) with (ds_pos + 2) by lia. exact Hs2.
  - unfold has_url_beyond_colon_slash, MIN_URL_LEN in Hb.
    rewrite (add32_small ds_pos 5), (add32_small (ds_pos + 5) 3), MIN_spec in Hb by lia.
    intros k Hk.
    apply (has_url_beyond_colon_slash_loop_true
             (Z.to_nat (Z.min (ds_pos + 5 + 3) (xnum self) - ds_pos)) self
             (Z.min (ds_pos + 5 + 3) (xnum self)) ds_pos 0); [lia | lia | lia | exact Hb | lia].
Qed.

(** A column other than [xnum] that [line_url_start_at(x)] returns comes
    from a column [ds_pos] that [find_colon_slash] found, that passed
    [has_url_beyond_colon_slash], and where [has_url_prefix_at] found a
    prefix that is long enough to reach [x] when [ds_pos] is right of
    [x]. *)
Lemma line_url_start_at_cases (self : Line) (x : Z) :
  u32 x -> xnum self + 8 < 2 ^ 32 ->
  let s := line_url_start_at is_url_char url_prefixes max_prefix_len self x in
  s < xnum self ->
  9 <= xnum self
  /\ exists a limit m : Z,
       find_colon_slash is_url_char self a limit <> 0
       /\ has_url_beyond_colon_slash is_url_char self
            (find_colon_slash is_url_char self a limit) = true
       /\ has_url_prefix_at url_prefixes self (find_colon_slash is_url_char self a limit) m
          = Some s
       /\ (find_colon_slash is_url_char self a limit <= x
           \/ find_colon_slash is_url_char self a limit - x <= m).
Proof.
  intros [Hc0 Hc1] Hx1. cbn zeta. unfold line_url_start_at, MIN_URL_LEN.
  destruct (Z.geb_spec x (xnum self)) as [Hge | Hlt]; cbn [orb]; [lia |].
  destruct (Z.leb_spec (xnum self) (5 + 3)) as [Hle | Hgt]; cbn [orb]; [lia |].
  set (d1 := find_colon_slash is_url_char self (wrap32 (x + max_prefix_len + 3))
               (if x <? 2 then 0 else sub32 x 2)) in *.
  set (d2 := find_colon_slash is_url_char self x 0) in *.
  assert (Hsecond :
            (if (d2 =? 0) || (xnum self <? add32 (add32 d2 5) 3)
                || negb (has_url_beyond_colon_slash is_url_char self d2)
             then xnum self
             else match has_url_prefix_at url_prefixes self d2 0 with
                  | Some t => t
                  | None => xnum self
                  end) < xnum self ->
            9 <= xnum self
            /\ exists a limit m : Z,
                 find_colon_slash is_url_char self a limit <> 0
                 /\ has_url_beyond_colon_slash is_url_char self
                      (find_colon_slash is_url_char self a limit) = true
                 /\ has_url_prefix_at url_prefixes self
                      (find_colon_slash is_url_char self a limit) m
                    = Some
                        (if (d2 =? 0) || (xnum self <? add32 (add32 d2 5) 3)
                            || negb (has_url_beyond_colon_slash is_url_char self d2)
                         then xnum self
                         else match has_url_prefix_at url_prefixes self d2 0 with
                              | Some t => t
                              | None => xnum self
                              end)
                 /\ (find_colon_slash is_url_char self a limit <= x
                     \/ find_colon_slash is_url_char self a limit - x <= m)).
  { destruct (Z.eqb_spec d2 0) as [E2 | N2]; cbn [orb]; [lia |].
    destruct (xnum self <? add32 (add32 d2 5) 3); cbn [orb]; [lia |].
    destruct (has_url_beyond_colon_slash is_url_char self d2) eqn:Hb2; cbn [negb]; [| lia].
    destruct (has_url_prefix_at url_prefixes self d2 0) as [t |] eqn:Hp2; [| lia].
    intros _. split; [lia |]. exists x, 0, 0. fold d2.
    split; [exact N2 | split; [exact Hb2 | split; [exact Hp2 |]]].
    left. destruct (find_colon_slash_colon self x 0 ltac:(lia) ltac:(lia) N2)
      as ((_ & _ & H & _) & _). exact H. }
  destruct (Z.eqb_spec d1 0) as [E1 | N1]; cbn [negb andb]; [exact Hsecond |].
  destruct (has_url_beyond_colon_slash is_url_char self d1) eqn:Hb1; [| exact Hsecond].
  destruct (has_url_prefix_at url_prefixes self d1 (if d1 >? x then sub32 d1 x else 0))
    as [t |] eqn:Hp1; [| exact Hsecond].
  intros _. split; [lia |].
  exists (wrap32 (x + max_prefix_len + 3)), (if x <? 2 then 0 else sub32 x 2),
    (if d1 >? x then sub32 d1 x else 0).
  fold d1. split; [exact N1 | split; [exact Hb1 | split; [exact Hp1 |]]].
  pose proof (find_colon_slash_range is_url_char self (wrap32 (x + max_prefix_len + 3))
                (if x <? 2 then 0 else sub32 x 2) ltac:(lia)) as Hr.
  fold d1 in Hr.
  destruct (Z.gtb_spec d1 x) as [Hgt1 | Hle1]; [right | left; exact Hle1].
  rewrite sub32_small by lia. lia.
Qed.

(** X3: when [line_url_start_at(x)] returns a column [s] other than
    [xnum], then [s] is at [x] or left of it, and from [s] on the line
    holds one of the configured prefixes, one code point a cell, then a
    colon and two slashes, all inside the line; and the cells from the
    colon on, eight of them or as many as the line has, hold host name
    characters only. *)
Theorem line_url_start_at_found (self : Line) (x : Z) :
  u32 x -> xnum self + 8 < 2 ^ 32 ->
  let s := line_url_start_at is_url_char url_prefixes max_prefix_len self x in
  s < xnum self ->
  0 <= s <= x
  /\ exists prefix : list Z,
       In prefix url_prefixes
       /\ s + prefix_len prefix + 2 < xnum self
       /\ spelled_at self s (prefix ++ [58; 47; 47])
       /\ forall k : Z,
            s + prefix_len prefix <= k < Z.min (s + prefix_len prefix + 8) (xnum self) ->
            is_hostname_lc is_url_char (text_in_cell (cpu_at self k) (text_cache self)) = true.
Proof.
  intros Hx Hx1. cbn zeta. intros Hs.
  destruct (line_url_start_at_cases self x Hx Hx1 Hs)
    as (Hn & a & limit & m & Hd & Hb & Hp & Hm).
  destruct (url_start_found self a limit m _ Hn Hx1 Hd Hb Hp)
    as (prefix & Hin & Hml & Ht0 & Hda & Hdt & Hd2 & Hsp & Hhost).
  assert (0 <= prefix_len prefix) by (unfold prefix_len; lia).
  split; [lia |]. exists prefix.
  split; [exact Hin | split; [lia | split; [exact Hsp |]]].
  intros k Hk. apply Hhost. lia.
Qed.

End UrlStartFacts.

(** ** The end of a URL: [line_url_end_at] *)

(** A loop that counts up stops at the first column where its condition
    fails, and a loop that counts down likewise. *)
Lemma while_incr_spec (cond : Z -> bool) (fuel : nat) :
  forall a : Z,
    0 <= a -> a + Z.of_nat fuel < 2 ^ 32 ->
    let r := while_incr fuel cond a in
    a <= r <= a + Z.of_nat fuel
    /\ (forall k : Z, a <= k < r -> cond k = true)
    /\ (r < a + Z.of_nat fuel -> cond r = false).
Proof.
  induction fuel as [| fuel IH]; intros a Ha Hf; cbn zeta; cbn [while_incr].
  - split; [lia | split; [intros k Hk; lia | lia]].
  - destruct (cond a) eqn:Hc.
    + rewrite add32_small by lia.
      destruct (IH (a + 1) ltac:(lia) ltac:(lia)) as (H1 & H2 & H3).
      split; [lia | split].
      * intros k Hk. destruct (Z.eq_dec k a) as [-> | Hne]; [exact Hc | apply H2; lia].
      * intros Hr. apply H3. lia.
    + split; [lia | split; [intros k Hk; lia | intros _; exact Hc]].
Qed.

Lemma while_decr_spec (cond : Z -> bool) (fuel : nat) :
  forall a : Z,
    0 <= a - Z.of_nat fuel -> a < 2 ^ 32 ->
    let r := while_decr fuel cond a in
    a - Z.of_nat fuel <= r <= a
    /\ (forall k : Z, r < k <= a -> cond k = true)
    /\ (a - Z.of_nat fuel < r -> cond r = false).
Proof.
  induction fuel as [| fuel IH]; intros a Ha Hf; cbn zeta; cbn [while_decr].
  - split; [lia | split; [intros k Hk; lia | lia]].
  - destruct (cond a) eqn:Hc.
    + rewrite sub32_small by lia.
      destruct (IH (a - 1) ltac:(lia) ltac:(lia)) as (H1 & H2 & H3).
      split; [lia | split].
      * intros k Hk. destruct (Z.eq_dec k a) as [-> | Hne]; [exact Hc | apply H2; lia].
      * intros Hr. apply H3. lia.
    + split; [lia | split; [intros k Hk; lia | intros _; exact Hc]].
Qed.

Section UrlEndFacts.

Variable is_url_char : Z -> bool.
Variable url_prefixes : list (list Z).
Variable max_prefix_len : Z.
Variable can_strip_from_end_of_url : Z -> bool.

(** The steps of [line_url_end_at] past its first test: the first loop
    stops at the first column [ans] from [x] on where its test [scan]
    fails, at [xnum] at the latest; the column goes back by one unless it
    is 0; and the last loop, when it runs, starts there. *)
Lemma line_url_end_at_steps (self : Line) (x : Z) (check_short : bool) (sentinel : Z)
    (next_line_starts_with_url_chars in_hostname : bool) (last_hostname_char_pos : Z) :
  0 <= x < xnum self -> xnum self < 2 ^ 32 ->
  (check_short = true -> MIN_URL_LEN + 3 < xnum self) ->
  let scan :=
    if negb (sentinel =? 0)
    then url_end_scan_sentinel is_url_char self sentinel in_hostname last_hostname_char_pos
    else url_end_scan is_url_char self in_hostname last_hostname_char_pos in
  exists ans : Z,
    x <= ans <= xnum self
    /\ (forall k : Z, x <= k < ans -> scan k = true)
    /\ scan ans = false
    /\ line_url_end_at is_url_char can_strip_from_end_of_url self x check_short sentinel
         next_line_starts_with_url_chars in_hostname last_hostname_char_pos
       = if (Z.max 0 (ans - 1) <? xnum self - 1) || negb next_line_starts_with_url_chars
         then while_decr (Z.to_nat (Z.max 0 (ans - 1) - x))
                (url_end_strip can_strip_from_end_of_url self x) (Z.max 0 (ans - 1))
         else Z.max 0 (ans - 1).
Proof.
  intros Hx Hn Hshort. cbn zeta. unfold line_url_end_at.
  destruct (Z.geb_spec x (xnum self)) as [Hge | _]; [lia |]. cbn [orb].
  assert (Hs : check_short && (xnum self <=? MIN_URL_LEN + 3) = false).
  { destruct check_short; [| reflexivity]. cbn [andb].
    specialize (Hshort eq_refl). destruct (Z.leb_spec (xnum self) (MIN_URL_LEN + 3)); [lia |].
    reflexivity. }
  rewrite Hs.
  set (scan := if negb (sentinel =? 0)
               then url_end_scan_sentinel is_url_char self sentinel in_hostname
                      last_hostname_char_pos
               else url_end_scan is_url_char self in_hostname last_hostname_char_pos).
  assert (Hscan : (if negb (sentinel =? 0)
                   then while_incr (Z.to_nat (xnum self - x))
                          (url_end_scan_sentinel is_url_char self sentinel in_hostname
                             last_hostname_char_pos) x
                   else while_incr (Z.to_nat (xnum self - x))
                          (url_end_scan is_url_char self in_hostname last_hostname_char_pos) x)
                  = while_incr (Z.to_nat (xnum self - x)) scan x).
  { unfold scan. destruct (negb (sentinel =? 0)); reflexivity. }
  rewrite Hscan. clear Hscan.
  assert (Hout : forall k, xnum self <= k -> scan k = false).
  { intros k Hk. unfold scan.
    destruct (negb (sentinel =? 0)); unfold url_end_scan_sentinel, url_end_scan;
      (destruct (Z.ltb_spec k (xnum self)); [lia | reflexivity]). }
  destruct (while_incr_spec scan (Z.to_nat (xnum self - x)) x ltac:(lia) ltac:(lia))
    as (H1 & H2 & H3).
  set (ans1 := while_incr (Z.to_nat (xnum self - x)) scan x) in *.
  exists ans1.
  split; [lia | split; [exact H2 | split]].
  - destruct (Z.lt_ge_cases ans1 (xnum self)); [apply H3; lia | apply Hout; lia].
  - assert (Hans2 : (if negb (ans1 =? 0) then sub32 ans1 1 else ans1) = Z.max 0 (ans1 - 1)).
    { destruct (Z.eqb_spec ans1 0) as [-> | Hne]; cbn [negb]; [reflexivity |].
      rewrite sub32_small by lia. lia. }
    rewrite Hans2, (sub32_small (xnum self) 1) by lia. reflexivity.
Qed.

(** X4: for a column [x] of the line (and a line of more than eight
    columns when [check_short] is set), let [scan] be the test of the first
    loop of [line_url_end_at]: the cell is valid for a URL and does not
    hold the sentinel.  If the cell at [x] passes it, the column returned
    is at [x] or right of it and inside the line, every cell from [x] to it
    passes the test, and, when the next line does not go on with the URL,
    the column returned is [x] or holds no character that is stripped from
    the end of a URL.  If the cell at [x] fails the test, the column
    returned is [x - 1], or 0 for [x = 0]. *)
Theorem line_url_end_at_valid (self : Line) (x : Z) (check_short : bool) (sentinel : Z)
    (next_line_starts_with_url_chars in_hostname : bool) (last_hostname_char_pos : Z) :
  0 <= x < xnum self -> xnum self < 2 ^ 32 ->
  (check_short = true -> MIN_URL_LEN + 3 < xnum self) ->
  let scan :=
    if negb (sentinel =? 0)
    then url_end_scan_sentinel is_url_char self sentinel in_hostname last_hostname_char_pos
    else url_end_scan is_url_char self in_hostname last_hostname_char_pos in
  let r := line_url_end_at is_url_char can_strip_from_end_of_url self x check_short sentinel
             next_line_starts_with_url_chars in_hostname last_hostname_char_pos in
  (scan x = true ->
     x <= r < xnum self
     /\ (forall k : Z, x <= k <= r -> scan k = true)
     /\ (next_line_starts_with_url_chars = false -> x < r ->
         url_end_strip can_strip_from_end_of_url self x r = false))
  /\ (scan x = false -> r = Z.max 0 (x - 1)).
Proof.
  intros Hx Hn Hshort. cbn zeta.
  destruct (line_url_end_at_steps self x check_short sentinel next_line_starts_with_url_chars
              in_hostname last_hostname_char_pos Hx Hn Hshort)
    as (ans1 & H1 & H2 & Hstop & ->).
  cbn zeta in *.
  set (scan := if negb (sentinel =? 0)
               then url_end_scan_sentinel is_url_char self sentinel in_hostname
                      last_hostname_char_pos
               else url_end_scan is_url_char self in_hostname last_hostname_char_pos) in *.
  set (ans2 := Z.max 0 (ans1 - 1)).
  split.
  - intros Hsx.
    assert (Hlt : x < ans1).
    { destruct (Z.eq_dec ans1 x) as [E | Hne]; [| lia]. rewrite E in Hstop. congruence. }
    destruct (while_decr_spec (url_end_strip can_strip_from_end_of_url self x)
                (Z.to_nat (ans2 - x)) ans2 ltac:(lia) ltac:(lia)) as (D1 & D2 & D3).
    destruct ((ans2 <? xnum self - 1) || negb next_line_starts_with_url_chars) eqn:Hstrip.
    + split; [lia | split].
      * intros k Hk. apply H2. lia.
      * intros _ Hr. apply D3. lia.
    + split; [lia | split].
      * intros k Hk. apply H2. lia.
      * intros Hnext. rewrite Hnext, orb_true_r in Hstrip. discriminate.
  - intros Hsx.
    assert (ans1 = x).
    { destruct (Z.eq_dec ans1 x) as [E | Hne]; [exact E |].
      rewrite (H2 x ltac:(lia)) in Hsx. discriminate. }
    assert (Hz : Z.to_nat (ans2 - x) = 0%nat) by lia.
    rewrite Hz. cbn [while_decr].
    destruct ((ans2 <? xnum self - 1) || negb next_line_starts_with_url_chars); lia.
Qed.

(** X5: when the code points of the configured prefixes and the colon
    are URL characters, a column [s] other than [xnum] that
    [line_url_start_at(x)] returns is the start of a URL for
    [line_url_end_at] with no sentinel: the end [e] that it returns for
    [s] is at [s] or right of it and inside the line, and every cell from
    [s] to [e] passes the test of [line_url_end_at]. *)
Theorem line_url_start_then_end (self : Line) (x : Z) (check_short : bool)
    (next_line_starts_with_url_chars in_hostname : bool) (last_hostname_char_pos : Z) :
  u32 x -> xnum self + 8 < 2 ^ 32 ->
  forallb (forallb is_url_char) url_prefixes = true -> is_url_char 58 = true ->
  let s := line_url_start_at is_url_char url_prefixes max_prefix_len self x in
  let e := line_url_end_at is_url_char can_strip_from_end_of_url self s check_short 0
             next_line_starts_with_url_chars in_hostname last_hostname_char_pos in
  s < xnum self ->
  s <= x /\ s <= e < xnum self
  /\ forall k : Z, s <= k <= e ->
       is_pos_ok_for_url is_url_char self k in_hostname last_hostname_char_pos = true.
Proof.
  intros Hx Hx1 Hpre Hcolon. cbn zeta. intros Hs.
  destruct (line_url_start_at_cases is_url_char url_prefixes max_prefix_len self x Hx Hx1 Hs)
    as (Hn & a & limit & m & Hd & Hb & Hp & Hm).
  destruct (url_start_found is_url_char url_prefixes self a limit m _ Hn Hx1 Hd Hb Hp)
    as (prefix & Hin & Hml & Ht0 & Hda & Hdt & Hd2 & Hsp & _).
  set (s := line_url_start_at is_url_char url_prefixes max_prefix_len self x) in *.
  assert (Hpl : 0 <= prefix_len prefix) by (unfold prefix_len; lia).
  assert (Hsx : s <= x) by lia.
  (* the cell at [s] holds a URL character *)
  assert (Hfirst : is_url_char (char_at (prefix ++ [58; 47; 47]) 0) = true).
  { destruct prefix as [| c prefix]; [exact Hcolon |].
    change (char_at ((c :: prefix) ++ [58; 47; 47]) 0) with c.
    rewrite forallb_forall in Hpre. specialize (Hpre _ Hin).
    cbn [forallb] in Hpre. apply andb_prop in Hpre as [Hc _]. exact Hc. }
  assert (Hcell : cell_is_char (cpu_at self s) (char_at (prefix ++ [58; 47; 47]) 0) = true).
  { specialize (Hsp 0). rewrite Z.add_0_r in Hsp. apply Hsp.
    rewrite length_app. cbn [length]. lia. }
  assert (Hok : url_end_scan is_url_char self in_hostname last_hostname_char_pos s = true).
  { unfold url_end_scan, is_pos_ok_for_url.
    destruct (Z.ltb_spec s (xnum self)); [| lia]. cbn [andb].
    destruct (Z.geb_spec s (xnum self)); [lia |].
    unfold cell_is_char in Hcell. apply andb_prop in Hcell as [Hni Hch].
    apply negb_true_iff in Hni. apply Z.eqb_eq in Hch.
    assert (Hu : is_url_lc is_url_char (text_in_cell (cpu_at self s) (text_cache self)) = true).
    { unfold is_url_lc, text_in_cell. cbn [chars]. rewrite Hni. cbn [forallb].
      rewrite Hch, Hfirst. reflexivity. }
    destruct (in_hostname && (s <=? last_hostname_char_pos));
      [apply is_url_lc_is_hostname_lc; exact Hu | exact Hu]. }
  destruct (line_url_end_at_steps self s check_short 0 next_line_starts_with_url_chars
              in_hostname last_hostname_char_pos ltac:(lia) ltac:(lia)
              ltac:(intros _; unfold MIN_URL_LEN; lia))
    as (ans1 & H1 & H2 & Hstop & ->).
  cbn [Z.eqb negb] in *.
  assert (Hlt : s < ans1).
  { destruct (Z.eq_dec ans1 s) as [E | Hne]; [| lia]. rewrite E in Hstop. congruence. }
  set (ans2 := Z.max 0 (ans1 - 1)).
  destruct (while_decr_spec (url_end_strip can_strip_from_end_of_url self s)
              (Z.to_nat (ans2 - s)) ans2 ltac:(lia) ltac:(lia)) as (D1 & _ & _).
  assert (Hvalid : forall k, s <= k < ans1 ->
            is_pos_ok_for_url is_url_char self k in_hostname last_hostname_char_pos = true).
  { intros k Hk. specialize (H2 k Hk). unfold url_end_scan in H2.
    apply andb_prop in H2 as [_ H2]. exact H2. }
  split; [exact Hsx |].
  destruct ((ans2 <? xnum self - 1) || negb next_line_starts_with_url_chars).
  - split; [lia |]. intros k Hk. apply Hvalid. lia.
  - split; [lia |]. intros k Hk. apply Hvalid. lia.
Qed.

End UrlEndFacts.

(** ** Writing cells: [line_clear_text], [line_apply_cursor] with
       [clear_char], [set_text] and [set_char] *)

(** [memset_array] writes [v] over the [num] cells from [at_] on that the
    array has, and nothing else. *)
Lemma memset_array_lookup {A : Type} (v : A) (num : nat) :
  forall (cells : list A) (at_ j : nat),
    memset_array cells at_ v num !! j
    = if (at_ <=? j)%nat && (j <? at_ + num)%nat
      then (fun _ => v) <$> cells !! j
      else cells !! j.
Proof.
  induction num as [| num IH]; intros cells at_ j; cbn [memset_array].
  - destruct (Nat.leb_spec at_ j), (Nat.ltb_spec j (at_ + 0)); cbn [andb]; try reflexivity.
    lia.
  - rewrite IH.
    destruct (decide (j = at_)) as [-> | Hne].
    + destruct (Nat.leb_spec (S at_) at_); [lia |]. cbn [andb].
      destruct (Nat.leb_spec at_ at_); [| lia].
      destruct (Nat.ltb_spec at_ (at_ + S num)); [| lia]. cbn [andb].
      destruct (cells !! at_) as [old |] eqn:Hold.
      * rewrite list_lookup_insert_eq by (apply lookup_lt_Some in Hold; exact Hold).
        reflexivity.
      * rewrite list_insert_ge by (apply lookup_ge_None; exact Hold).
        rewrite Hold. reflexivity.
    + rewrite list_lookup_insert_ne by congruence.
      destruct (Nat.leb_spec (S at_) j), (Nat.leb_spec at_ j); try lia; cbn [andb];
        [| reflexivity].
      destruct (Nat.ltb_spec j (S at_ + num)), (Nat.ltb_spec j (at_ + S num)); try lia;
        reflexivity.
Qed.

(** The same with the range written as [line_clear_text] and
    [line_apply_cursor] compute it. *)
Lemma memset_array_clamped {A : Type} (v : A) (cells : list A) (at_ num n : Z) (j : nat) :
  u32 at_ -> u32 num -> u32 n -> at_ + num < 2 ^ 32 ->
  memset_array cells (Z.to_nat at_) v
    (Z.to_nat (if add32 at_ num >? n then (if at_ <? n then sub32 n at_ else 0) else num)) !! j
  = if (at_ <=? Z.of_nat j) && (Z.of_nat j <? Z.min (at_ + num) n)
    then (fun _ => v) <$> cells !! j
    else cells !! j.
Proof.
  intros [Ha0 Ha1] [Hn0 Hn1] [Hx0 Hx1] Hs. rewrite memset_array_lookup, add32_small by lia.
  destruct (Z.gtb_spec (at_ + num) n) as [Hgt | Hle].
  - destruct (Z.ltb_spec at_ n) as [Hlt | Hge].
    + rewrite sub32_small by lia.
      destruct (Nat.leb_spec (Z.to_nat at_) j), (Z.leb_spec at_ (Z.of_nat j)); try lia;
        cbn [andb]; [| reflexivity].
      destruct (Nat.ltb_spec j (Z.to_nat at_ + Z.to_nat (n - at_))),
        (Z.ltb_spec (Z.of_nat j) (Z.min (at_ + num) n)); try lia; reflexivity.
    + destruct (Nat.leb_spec (Z.to_nat at_) j), (Z.leb_spec at_ (Z.of_nat j)); try lia;
        cbn [andb]; [| reflexivity].
      destruct (Nat.ltb_spec j (Z.to_nat at_ + Z.to_nat 0)),
        (Z.ltb_spec (Z.of_nat j) (Z.min (at_ + num) n)); try lia; reflexivity.
  - destruct (Nat.leb_spec (Z.to_nat at_) j), (Z.leb_spec at_ (Z.of_nat j)); try lia;
      cbn [andb]; [| reflexivity].
    destruct (Nat.ltb_spec j (Z.to_nat at_ + Z.to_nat num)),
      (Z.ltb_spec (Z.of_nat j) (Z.min (at_ + num) n)); try lia; reflexivity.
Qed.

(** X6: [line_clear_text(at, num, ch)], for [at + num] that is an
    [unsigned int], makes each CPU cell of [at, min(at+num, xnum)) the
    blank cell whose code point is [ch], with no hyperlink, no wrap flag
    and no multi-cell data, and leaves every other CPU cell and every GPU
    cell as it was. *)
Theorem line_clear_text_range (self : Line) (at_ num ch : Z) :
  u32 at_ -> u32 num -> u32 (xnum self) -> at_ + num < 2 ^ 32 ->
  let self' := line_clear_text self at_ num ch in
  gpu_cells self' = gpu_cells self
  /\ xnum self' = xnum self
  /\ text_cache self' = text_cache self
  /\ forall j : nat,
       cpu_cells self' !! j
       = if (at_ <=? Z.of_nat j) && (Z.of_nat j <? Z.min (at_ + num) (xnum self))
         then (fun _ => CPU.mk ch false 0 false false 0 0) <$> cpu_cells self !! j
         else cpu_cells self !! j.
Proof.
  intros Ha Hn Hx Hs. cbn zeta. unfold line_clear_text.
  cbn [gpu_cells xnum text_cache cpu_cells set_cpu_cells].
  repeat split. intros j.
  pose proof (memset_array_clamped (cpu_cell_of_char ch) (cpu_cells self) at_ num (xnum self) j
                Ha Hn Hx Hs) as H.
  unfold cpu_cell_of_char in *. rewrite <- H.
  destruct (Z.gtb_spec (xnum self) at_), (Z.ltb_spec at_ (xnum self)); try lia; reflexivity.
Qed.

Section ClearFacts.

Variable cursor_as_gpu_cell : Cursor -> GPUCell.

(** X7: [line_apply_cursor] with [clear_char] set, for [at + num] that is
    an [unsigned int], makes each CPU cell of [at, min(at+num, xnum)) the
    all-zero cell and each GPU cell of that range the GPU cell of the
    cursor, mark and sprite included, and leaves every cell outside the
    range as it was. *)
Theorem line_apply_cursor_clears (self : Line) (cursor : Cursor) (at_ num : Z) :
  u32 at_ -> u32 num -> u32 (xnum self) -> at_ + num < 2 ^ 32 ->
  let self' := line_apply_cursor cursor_as_gpu_cell self cursor at_ num true in
  xnum self' = xnum self
  /\ text_cache self' = text_cache self
  /\ (forall j : nat,
        cpu_cells self' !! j
        = if (at_ <=? Z.of_nat j) && (Z.of_nat j <? Z.min (at_ + num) (xnum self))
          then (fun _ => zero_cpu_cell) <$> cpu_cells self !! j
          else cpu_cells self !! j)
  /\ (forall j : nat,
        gpu_cells self' !! j
        = if (at_ <=? Z.of_nat j) && (Z.of_nat j <? Z.min (at_ + num) (xnum self))
          then (fun _ => cursor_as_gpu_cell cursor) <$> gpu_cells self !! j
          else gpu_cells self !! j).
Proof.
  intros Ha Hn Hx Hs. cbn zeta. unfold line_apply_cursor.
  cbn [gpu_cells xnum text_cache cpu_cells set_cpu_cells set_gpu_cells].
  split; [reflexivity | split; [reflexivity | split]]; intros j;
    apply memset_array_clamped; assumption.
Qed.

End ClearFacts.

Section SetTextFacts.

Variable cursor_to_attrs : Cursor -> CellAttrs.
Variable COL_MASK : Z.
Variable PY_SSIZE_T_MAX : Z.

(** What the loop of [set_text] leaves, from [(i, offset)], when it
    reads inside the string. *)
Lemma set_text_loop_spec (src : list Z) (limit : Z) (a : CellAttrs) (fg_ bg_ dfg : Z)
    (fuel : nat) :
  forall (self : Line) (i offset : Z),
    0 <= i -> xnum self < 2 ^ 32 -> limit - offset <= Z.of_nat fuel ->
    0 <= offset -> limit <= Z.of_nat (length src) ->
    exists self' : Line,
      set_text_loop fuel self src limit a fg_ bg_ dfg i offset = Some self'
      /\ xnum self' = xnum self
      /\ prompt_kind self' = prompt_kind self
      /\ text_cache self' = text_cache self
      /\ (forall j : nat,
            cpu_cells self' !! j
            = if (i <=? Z.of_nat j) && (Z.of_nat j <? Z.min (i + (limit - offset)) (xnum self))
              then (fun _ => cpu_cell_of_char (char_at src (offset + (Z.of_nat j - i))))
                     <$> cpu_cells self !! j
              else cpu_cells self !! j)
      /\ (forall j : nat,
            gpu_cells self' !! j
            = if (i <=? Z.of_nat j) && (Z.of_nat j <? Z.min (i + (limit - offset)) (xnum self))
              then (fun old => with_colors old a fg_ bg_ dfg) <$> gpu_cells self !! j
              else gpu_cells self !! j).
Proof.
  induction fuel as [| fuel IH]; intros self i offset Hi Hx Hf Ho Hl;
    cbn [set_text_loop].
  - exists self. repeat split; intros j;
      destruct (Z.leb_spec i (Z.of_nat j)),
        (Z.ltb_spec (Z.of_nat j) (Z.min (i + (limit - offset)) (xnum self)));
      cbn [andb]; try reflexivity; lia.
  - destruct (Z.ltb_spec offset limit) as [Hol | Hol]; cbn [andb].
    2:{ exists self. repeat split; intros j;
          destruct (Z.leb_spec i (Z.of_nat j)),
            (Z.ltb_spec (Z.of_nat j) (Z.min (i + (limit - offset)) (xnum self)));
          cbn [andb]; try reflexivity; lia. }
    destruct (Z.ltb_spec i (xnum self)) as [Hix | Hix].
    2:{ exists self. repeat split; intros j;
          destruct (Z.leb_spec i (Z.of_nat j)),
            (Z.ltb_spec (Z.of_nat j) (Z.min (i + (limit - offset)) (xnum self)));
          cbn [andb]; try reflexivity; lia. }
    rewrite PyUnicode_READ_inside by lia.
    rewrite add32_small by lia.
    set (self1 := set_cpu_cells self
                    (<[Z.to_nat i := cpu_cell_of_char (char_at src offset)]> (cpu_cells self))).
    set (self2 := set_gpu_cells self1
                    (<[Z.to_nat i := with_colors (gpu_at self1 i) a fg_ bg_ dfg]>
                       (gpu_cells self1))).
    destruct (IH self2 (i + 1) (offset + 1) ltac:(lia) Hx ltac:(lia) ltac:(lia) Hl)
      as (self' & Heq & Hn & Hp & Ht & Hc & Hg).
    exists self'.
    split; [exact Heq |].
    split; [exact Hn | split; [exact Hp | split; [exact Ht | split]]]; intros j.
    + rewrite Hc. cbn [xnum cpu_cells self2 self1 set_gpu_cells set_cpu_cells].
      destruct (decide (j = Z.to_nat i)) as [-> | Hne].
      * rewrite Z2Nat.id by lia.
        destruct (Z.leb_spec (i + 1) i); [lia |]. cbn [andb].
        destruct (Z.leb_spec i i); [| lia].
        destruct (Z.ltb_spec i (Z.min (i + (limit - offset)) (xnum self))); [| lia].
        cbn [andb]. replace (offset + (i - i)) with offset by lia.
        destruct (cpu_cells self !! Z.to_nat i) as [old |] eqn:Hold.
        -- rewrite list_lookup_insert_eq by (apply lookup_lt_Some in Hold; exact Hold).
           reflexivity.
        -- rewrite list_insert_ge by (apply lookup_ge_None; exact Hold).
           rewrite Hold. reflexivity.
      * rewrite list_lookup_insert_ne by congruence.
        replace (offset + 1 + (Z.of_nat j - (i + 1))) with (offset + (Z.of_nat j - i)) by lia.
        replace (i + 1 + (limit - (offset + 1))) with (i + (limit - offset)) by lia.
        destruct (Z.leb_spec (i + 1) (Z.of_nat j)), (Z.leb_spec i (Z.of_nat j)); try lia;
          cbn [andb]; reflexivity.
    + rewrite Hg. cbn [xnum gpu_cells self2 self1 set_gpu_cells set_cpu_cells].
      destruct (decide (j = Z.to_nat i)) as [-> | Hne].
      * rewrite Z2Nat.id by lia.
        destruct (Z.leb_spec (i + 1) i); [lia |]. cbn [andb].
        destruct (Z.leb_spec i i); [| lia].
        destruct (Z.ltb_spec i (Z.min (i + (limit - offset)) (xnum self))); [| lia].
        cbn [andb].
        destruct (gpu_cells self !! Z.to_nat i) as [old |] eqn:Hold.
        -- rewrite list_lookup_insert_eq by (apply lookup_lt_Some in Hold; exact Hold).
           unfold gpu_at. cbn [gpu_cells self1 set_cpu_cells]. rewrite Hold. reflexivity.
        -- rewrite list_insert_ge by (apply lookup_ge_None; exact Hold).
           rewrite Hold. reflexivity.
      * rewrite list_lookup_insert_ne by congruence.
        replace (i + 1 + (limit - (offset + 1))) with (i + (limit - offset)) by lia.
        destruct (Z.leb_spec (i + 1) (Z.of_nat j)), (Z.leb_spec i (Z.of_nat j)); try lia;
          cbn [andb]; reflexivity.
Qed.

(** A call of [set_text] that reads inside the string: its sum
    [offset + sz] is a [Py_ssize_t], [offset] is not negative and the sum
    is at most the length.  It succeeds, and the line it leaves is the one
    the loop leaves from [(cursor.x, offset)]. *)
Lemma set_text_within (self : Line) (src : list Z) (offset sz : Z) (cursor : Cursor) :
  0 <= Cur.x cursor -> xnum self < 2 ^ 32 ->
  0 <= offset -> fits_ssize_t PY_SSIZE_T_MAX (offset + sz) = true ->
  offset + sz <= Z.of_nat (length src) ->
  exists self' : Line,
    set_text cursor_to_attrs COL_MASK PY_SSIZE_T_MAX self src offset sz cursor
    = Some (PyReturn tt, self')
    /\ xnum self' = xnum self
    /\ text_cache self' = text_cache self
    /\ (forall j : nat,
          cpu_cells self' !! j
          = if (Cur.x cursor <=? Z.of_nat j)
               && (Z.of_nat j <? Z.min (Cur.x cursor + sz) (xnum self))
            then (fun _ => cpu_cell_of_char (char_at src (offset + (Z.of_nat j - Cur.x cursor))))
                   <$> cpu_cells self !! j
            else cpu_cells self !! j)
    /\ (forall j : nat,
          gpu_cells self' !! j
          = if (Cur.x cursor <=? Z.of_nat j)
               && (Z.of_nat j <? Z.min (Cur.x cursor + sz) (xnum self))
            then (fun old =>
                    with_colors old (cursor_to_attrs cursor) (Z.land (Cur.fg cursor) COL_MASK)
                      (Z.land (Cur.bg cursor) COL_MASK)
                      (Z.land (Cur.decoration_fg cursor) COL_MASK)) <$> gpu_cells self !! j
            else gpu_cells self !! j).
Proof.
  intros Hc Hx Ho Hfit Hb. unfold set_text. rewrite Hfit. cbn [negb].
  destruct (Z.ltb_spec (Z.of_nat (length src)) (offset + sz)) as [Hlt | _]; [lia |].
  destruct (set_text_loop_spec src (offset + sz) (cursor_to_attrs cursor)
              (Z.land (Cur.fg cursor) COL_MASK) (Z.land (Cur.bg cursor) COL_MASK)
              (Z.land (Cur.decoration_fg cursor) COL_MASK)
              (Z.to_nat (offset + sz - offset)) self (Cur.x cursor) offset Hc Hx
              ltac:(lia) Ho Hb)
    as (self' & Heq & Hn & _ & Ht & Hcpu & Hgpu).
  replace (Cur.x cursor + (offset + sz - offset)) with (Cur.x cursor + sz) in * by lia.
  exists self'. rewrite Heq.
  split; [reflexivity | split; [exact Hn | split; [exact Ht | split; assumption]]].
Qed.

(** X8: a call [set_text(src, offset, sz, cursor)] whose sum
    [offset + sz] is a [Py_ssize_t], with [offset] not negative and the
    sum within the length of [src], succeeds; it makes the CPU cell at
    [cursor.x + k], for each [k] of [0, sz) with [cursor.x + k < xnum],
    the plain cell of the code point [src[offset + k]], read inside the
    string, with no hyperlink, no wrap flag and no multi-cell data, and
    gives its GPU cell the attributes and the masked colours of the cursor
    while keeping its sprite; every other cell, and the text cache, are as
    they were. *)
Theorem set_text_writes (self : Line) (src : list Z) (offset sz : Z) (cursor : Cursor) :
  0 <= Cur.x cursor -> xnum self < 2 ^ 32 ->
  0 <= offset -> fits_ssize_t PY_SSIZE_T_MAX (offset + sz) = true ->
  offset + sz <= Z.of_nat (length src) ->
  let stop := Z.min (Cur.x cursor + sz) (xnum self) in
  exists self' : Line,
    set_text cursor_to_attrs COL_MASK PY_SSIZE_T_MAX self src offset sz cursor
    = Some (PyReturn tt, self')
    /\ xnum self' = xnum self
    /\ text_cache self' = text_cache self
    /\ (forall j : nat,
          Cur.x cursor <= Z.of_nat j < stop ->
          0 <= offset + (Z.of_nat j - Cur.x cursor) < Z.of_nat (length src))
    /\ (forall j : nat,
          cpu_cells self' !! j
          = if (Cur.x cursor <=? Z.of_nat j) && (Z.of_nat j <? stop)
            then (fun _ => CPU.mk (char_at src (offset + (Z.of_nat j - Cur.x cursor)))
                             false 0 false false 0 0) <$> cpu_cells self !! j
            else cpu_cells self !! j)
    /\ (forall j : nat,
          gpu_cells self' !! j
          = if (Cur.x cursor <=? Z.of_nat j) && (Z.of_nat j <? stop)
            then (fun old =>
                    mkGPUCell (Z.land (Cur.fg cursor) COL_MASK) (Z.land (Cur.bg cursor) COL_MASK)
                      (Z.land (Cur.decoration_fg cursor) COL_MASK)
                      (sprite_x old) (sprite_y old) (sprite_z old) (cursor_to_attrs cursor))
                   <$> gpu_cells self !! j
            else gpu_cells self !! j).
Proof.
  intros Hc Hx Ho Hfit Hb. cbn zeta.
  destruct (set_text_within self src offset sz cursor Hc Hx Ho Hfit Hb)
    as (self' & Heq & Hn & Ht & Hcpu & Hgpu).
  exists self'.
  split; [exact Heq | split; [exact Hn | split; [exact Ht | split; [| split]]]]; intros j.
  - intros Hj. lia.
  - rewrite Hcpu. reflexivity.
  - rewrite Hgpu. reflexivity.
Qed.

(** X9: after such a call [set_text(src, offset, sz, cursor)], the text
    of the cell at [cursor.x + k] that [text_at] returns is the single
    code point [src[offset + k]], for each [k] of [0, sz) with
    [cursor.x + k < xnum]. *)
Theorem set_text_then_text_at (self : Line) (src : list Z) (offset sz : Z) (cursor : Cursor)
    (k : Z) :
  wf_line self -> 0 <= Cur.x cursor -> xnum self < 2 ^ 32 ->
  0 <= offset -> fits_ssize_t PY_SSIZE_T_MAX (offset + sz) = true ->
  offset + sz <= Z.of_nat (length src) ->
  0 <= k < sz -> Cur.x cursor + k < xnum self ->
  exists (self' : Line) (ch : Z),
    set_text cursor_to_attrs COL_MASK PY_SSIZE_T_MAX self src offset sz cursor
    = Some (PyReturn tt, self')
    /\ src !! Z.to_nat (offset + k) = Some ch
    /\ text_at self' (Cur.x cursor + k) = PyReturn [ch].
Proof.
  intros [Hwc Hwg] Hc Hx Ho Hfit Hb Hk Hkx.
  destruct (set_text_within self src offset sz cursor Hc Hx Ho Hfit Hb)
    as (self' & Heq & Hn & _ & Hcpu & _).
  destruct (src !! Z.to_nat (offset + k)) as [ch |] eqn:Hch.
  2:{ apply lookup_ge_None in Hch. lia. }
  exists self', ch.
  split; [exact Heq | split; [reflexivity |]].
  unfold text_at. rewrite Hn. unfold wrap32. rewrite (Z.mod_small (Cur.x cursor + k)) by lia.
  destruct (Z.geb_spec (Cur.x cursor + k) (xnum self)) as [Hge | _]; [lia |].
  unfold cpu_at. rewrite Hcpu, Z2Nat.id by lia.
  destruct (Z.leb_spec (Cur.x cursor) (Cur.x cursor + k)); [| lia].
  destruct (Z.ltb_spec (Cur.x cursor + k) (Z.min (Cur.x cursor + sz) (xnum self))); [| lia].
  cbn [andb].
  destruct (cpu_cells self !! Z.to_nat (Cur.x cursor + k)) as [old |] eqn:Hold.
  - cbn. replace (offset + (Cur.x cursor + k - Cur.x cursor)) with (offset + k) by lia.
    unfold char_at. rewrite Hch. reflexivity.
  - apply lookup_ge_None in Hold. lia.
Qed.

End SetTextFacts.

(** ** Reading a line: [line_length], [colors_for_cell], the fallback
       text and the marks *)

(** What the loop of [line_length] returns, from [i], when the [i] last
    cells of the line are blank. *)
Lemma line_length_loop_spec (fuel : nat) :
  forall (self : Line) (i : Z),
    0 <= i <= xnum self -> xnum self < 2 ^ 32 -> xnum self - i <= Z.of_nat fuel ->
    (forall k : Z, xnum self - i <= k < xnum self ->
       cell_is_char (cpu_at self k) BLANK_CHAR = true) ->
    let n := line_length_loop fuel self (xnum self - 1) i in
    0 <= n <= xnum self
    /\ (forall k : Z, n <= k < xnum self -> cell_is_char (cpu_at self k) BLANK_CHAR = true)
    /\ (0 < n -> cell_is_char (cpu_at self (n - 1)) BLANK_CHAR = false).
Proof.
  induction fuel as [| fuel IH]; intros self i Hi Hx Hf Hb; cbn zeta;
    cbn [line_length_loop].
  - split; [lia | split; [intros k Hk; apply Hb; lia | lia]].
  - destruct (Z.ltb_spec i (xnum self)) as [Hlt | Hge].
    2:{ split; [lia | split; [intros k Hk; apply Hb; lia | lia]]. }
    destruct (cell_is_char (cpu_at self (xnum self - 1 - i)) BLANK_CHAR) eqn:Hc; cbn [negb].
    + rewrite add32_small by lia.
      apply IH; [lia | exact Hx | lia |].
      intros k Hk. destruct (Z.eq_dec k (xnum self - 1 - i)) as [-> | Hne]; [exact Hc |].
      apply Hb. lia.
    + rewrite sub32_small by lia.
      split; [lia | split; [exact Hb |]].
      intros _. replace (xnum self - i - 1) with (xnum self - 1 - i) by lia. exact Hc.
Qed.

(** [line_length] returns the column after the last cell that is not a
    blank one. *)
Lemma line_length_props (self : Line) :
  u32 (xnum self) ->
  let n := line_length self in
  0 <= n <= xnum self
  /\ (forall k : Z, n <= k < xnum self -> cell_is_char (cpu_at self k) BLANK_CHAR = true)
  /\ (0 < n -> cell_is_char (cpu_at self (n - 1)) BLANK_CHAR = false).
Proof.
  intros [Hx0 Hx1]. cbn zeta. unfold line_length.
  destruct (Z.eq_dec (xnum self) 0) as [E | Hne].
  - rewrite E. change (Z.to_nat 0) with 0%nat. cbn [line_length_loop].
    split; [lia | split; [intros k Hk; lia | lia]].
  - rewrite sub32_small by lia.
    apply line_length_loop_spec; [lia | exact Hx1 | lia |]. intros k Hk. lia.
Qed.

(** There is one such column. *)
Lemma line_length_unique (self : Line) (n : Z) :
  u32 (xnum self) ->
  0 <= n <= xnum self ->
  (forall k : Z, n <= k < xnum self -> cell_is_char (cpu_at self k) BLANK_CHAR = true) ->
  (0 < n -> cell_is_char (cpu_at self (n - 1)) BLANK_CHAR = false) ->
  line_length self = n.
Proof.
  intros Hx Hn Hb Hl.
  destruct (line_length_props self Hx) as (Hm & Hbm & Hlm).
  set (m := line_length self) in *.
  destruct (Z.lt_trichotomy m n) as [Hlt | [E | Hgt]]; [| exact E |].
  - rewrite (Hbm (n - 1)) in Hl by lia. specialize (Hl ltac:(lia)). discriminate.
  - rewrite (Hb (m - 1)) in Hlm by lia. specialize (Hlm ltac:(lia)). discriminate.
Qed.

(** X10: [line_length] returns the column after the last cell that is not
    a blank one (a cell that holds the single code point 0), and nothing
    else: it returns [n] exactly when [n] is a number of [0, xnum] such
    that every cell from [n] on is blank and, unless [n] is 0, the cell at
    [n - 1] is not. *)
Theorem line_length_spec (self : Line) (n : Z) :
  u32 (xnum self) ->
  line_length self = n
  <-> 0 <= n <= xnum self
      /\ (forall k : Z, n <= k < xnum self ->
            cell_is_char (cpu_at self k) BLANK_CHAR = true)
      /\ (0 < n -> cell_is_char (cpu_at self (n - 1)) BLANK_CHAR = false).
Proof.
  intros Hx. split.
  - intros <-. apply line_length_props. exact Hx.
  - intros (Hn & Hb & Hl). apply line_length_unique; assumption.
Qed.

(** X11: clearing the text from a column [at] to the end of the line, with
    [line_clear_text] and the blank character, cuts [line_length] down to
    [at] at most: the length after the call is at most [at] and at most the
    length before it, and it is the length before it when that was at most
    [at]. *)
Theorem line_clear_text_truncates (self : Line) (at_ num : Z) :
  u32 at_ -> u32 num -> u32 (xnum self) -> at_ + num < 2 ^ 32 ->
  xnum self <= at_ + num ->
  let n' := line_length (line_clear_text self at_ num BLANK_CHAR) in
  n' <= at_
  /\ n' <= line_length self
  /\ (line_length self <= at_ -> n' = line_length self).
Proof.
  intros Ha Hn Hx Hs Hend. cbn zeta.
  set (self' := line_clear_text self at_ num BLANK_CHAR).
  assert (Hxn : xnum self' = xnum self) by reflexivity.
  assert (Hcell : forall k : Z, 0 <= k < xnum self ->
            cell_is_char (cpu_at self' k) BLANK_CHAR
            = if at_ <=? k then true else cell_is_char (cpu_at self k) BLANK_CHAR).
  { intros k Hk. unfold cpu_at, self', line_clear_text. cbn [cpu_cells set_cpu_cells].
    pose proof (memset_array_clamped (cpu_cell_of_char BLANK_CHAR) (cpu_cells self) at_ num
                  (xnum self) (Z.to_nat k) Ha Hn Hx Hs) as Hl.
    replace (if xnum self >? at_ then sub32 (xnum self) at_ else 0)
      with (if at_ <? xnum self then sub32 (xnum self) at_ else 0)
      by (destruct (Z.gtb_spec (xnum self) at_), (Z.ltb_spec at_ (xnum self)); try lia;
          reflexivity).
    rewrite Hl, Z2Nat.id by lia.
    destruct (Z.leb_spec at_ k) as [Hle | Hgt]; cbn [andb]; [| reflexivity].
    destruct (Z.ltb_spec k (Z.min (at_ + num) (xnum self))); [| lia].
    destruct (cpu_cells self !! Z.to_nat k); reflexivity. }
  assert (Hx' : u32 (xnum self')) by exact Hx.
  destruct (line_length_props self Hx) as (Hm & Hbm & Hlm).
  destruct (line_length_props self' Hx') as (Hm' & Hbm' & Hlm').
  set (n := line_length self) in *. set (n' := line_length self') in *.
  rewrite Hxn in Hm', Hbm'.
  destruct Ha as [Ha0 Ha1].
  assert (H1 : n' <= at_).
  { destruct (Z.le_gt_cases n' at_) as [H | H]; [exact H |].
    specialize (Hlm' ltac:(lia)). rewrite Hcell in Hlm' by lia.
    destruct (Z.leb_spec at_ (n' - 1)); [discriminate | lia]. }
  assert (H2 : n' <= n).
  { destruct (Z.le_gt_cases n' n) as [H | H]; [exact H |].
    specialize (Hlm' ltac:(lia)). rewrite Hcell in Hlm' by lia.
    destruct (Z.leb_spec at_ (n' - 1)); [discriminate |].
    rewrite Hbm in Hlm' by lia. discriminate. }
  split; [exact H1 | split; [exact H2 |]].
  intros Hle. apply line_length_unique; [exact Hx' | rewrite Hxn; lia | |].
  - intros k Hk. rewrite Hxn in Hk. rewrite Hcell by lia.
    destruct (Z.leb_spec at_ k); [reflexivity | apply Hbm; lia].
  - intros Hpos. rewrite Hcell by lia.
    destruct (Z.leb_spec at_ (n - 1)); [lia | apply Hlm; exact Hpos].
Qed.

(** A loop that counts down does nothing where its condition fails. *)
Lemma while_decr_stop (cond : Z -> bool) (fuel : nat) (a : Z) :
  cond a = false -> while_decr fuel cond a = a.
Proof. intros H. destruct fuel; cbn [while_decr]; [| rewrite H]; reflexivity. Qed.

(** X12: for a column [x] of the line, [colors_for_cell] succeeds and
    moves the column to the first column [x'] of the glyph that [x] is
    in: [x'] is at [x] or left of it, every cell right of [x'] up to [x]
    is a multi-cell one with a non-zero offset, and the cell at [x'] is
    not such a cell, unless [x'] is the column 0.  The colours that the
    call returns are those that [resolve_color] gives for the GPU cell at
    [x'], swapped when that cell is reversed; and the call returns the
    same column, colours and reverse flag when it is made at any column
    from [x'] to [x]: the cells of a glyph report the colours of its first
    column. *)
Theorem colors_for_cell_anchor (self : Line) (color_table : list Z) (x fg_ bg_ : Z)
    (reversed : bool) :
  0 <= x < xnum self -> xnum self < 2 ^ 32 ->
  let r := colors_for_cell self color_table x fg_ bg_ reversed in
  let x' := fst (fst (fst (snd r))) in
  let f := resolve_color color_table (fg (gpu_at self x')) fg_ in
  let b := resolve_color color_table (bg (gpu_at self x')) bg_ in
  0 <= x' <= x
  /\ (forall k : Z, x' < k <= x ->
        CPU.is_multicell (cpu_at self k) = true /\ CPU.x (cpu_at self k) <> 0)
  /\ (CPU.is_multicell (cpu_at self x') = false \/ CPU.x (cpu_at self x') = 0 \/ x' = 0)
  /\ r = (true, if reverse (attrs (gpu_at self x')) then (x', b, f, true)
                else (x', f, b, reversed))
  /\ (forall k : Z, x' <= k <= x ->
        colors_for_cell self color_table k fg_ bg_ reversed = r).
Proof.
  intros Hx Hn. cbn zeta.
  assert (Hzero : colors_for_cell_test self 0 = false).
  { unfold colors_for_cell_test. rewrite andb_false_r. reflexivity. }
  assert (Hwalk : forall k, 0 <= k < xnum self ->
            let w := while_decr (Z.to_nat k) (colors_for_cell_test self) k in
            0 <= w <= k
            /\ (forall j, w < j <= k -> colors_for_cell_test self j = true)
            /\ colors_for_cell_test self w = false).
  { intros k Hk. cbn zeta.
    destruct (while_decr_spec (colors_for_cell_test self) (Z.to_nat k) k ltac:(lia) ltac:(lia))
      as (H1 & H2 & H3).
    split; [lia | split; [exact H2 |]].
    destruct (Z.eq_dec (while_decr (Z.to_nat k) (colors_for_cell_test self) k) 0) as [E | Hne];
      [rewrite E; exact Hzero | apply H3; lia]. }
  destruct (Hwalk x Hx) as (Hw1 & Hw2 & Hw3).
  assert (Hr : colors_for_cell self color_table x fg_ bg_ reversed
               = let w := while_decr (Z.to_nat x) (colors_for_cell_test self) x in
                 let f := resolve_color color_table (fg (gpu_at self w)) fg_ in
                 let b := resolve_color color_table (bg (gpu_at self w)) bg_ in
                 if reverse (attrs (gpu_at self w)) then (true, (w, b, f, true))
                 else (true, (w, f, b, reversed))).
  { unfold colors_for_cell. destruct (Z.geb_spec x (xnum self)); [lia | reflexivity]. }
  set (w := while_decr (Z.to_nat x) (colors_for_cell_test self) x) in *.
  assert (Hx' : fst (fst (fst (snd (colors_for_cell self color_table x fg_ bg_ reversed)))) = w).
  { rewrite Hr. cbn zeta. destruct (reverse (attrs (gpu_at self w))); reflexivity. }
  rewrite Hx'.
  split; [exact Hw1 | split; [| split; [| split]]].
  - intros k Hk. specialize (Hw2 k Hk). unfold colors_for_cell_test in Hw2.
    apply andb_prop in Hw2 as [Hw2 _]. apply andb_prop in Hw2 as [Hm Hxo].
    split; [exact Hm |]. intros E. rewrite E in Hxo. discriminate.
  - unfold colors_for_cell_test in Hw3.
    destruct (CPU.is_multicell (cpu_at self w)); [| left; reflexivity].
    destruct (Z.eqb_spec (CPU.x (cpu_at self w)) 0) as [E | _]; [right; left; exact E |].
    destruct (Z.eqb_spec w 0) as [E | _]; [right; right; exact E | discriminate].
  - rewrite Hr. cbn zeta. destruct (reverse (attrs (gpu_at self w))); reflexivity.
  - intros k Hk.
    destruct (Hwalk k ltac:(lia)) as (Hk1 & Hk2 & Hk3).
    assert (Hsame : while_decr (Z.to_nat k) (colors_for_cell_test self) k = w).
    { set (wk := while_decr (Z.to_nat k) (colors_for_cell_test self) k) in *.
      destruct (Z.lt_trichotomy wk w) as [Hlt | [E | Hgt]]; [| exact E |].
      - rewrite (Hk2 w ltac:(lia)) in Hw3. discriminate.
      - rewrite (Hw2 wk ltac:(lia)) in Hk3. discriminate. }
    rewrite Hr. unfold colors_for_cell.
    destruct (Z.geb_spec k (xnum self)); [lia |]. rewrite Hsame. reflexivity.
Qed.

Section FallbackFacts.

Variables VS15 VS16 : Z.
Variable encode_utf8 : Z -> list Z.

Lemma fallback_loops (l : list Z) :
  forall acc : list Z,
    fold_left
      (fun buf ch => if negb (ch =? VS15) && negb (ch =? VS16) then buf ++ encode_utf8 ch
                     else buf) l (flat_map encode_utf8 acc)
    = flat_map encode_utf8
        (fold_left
           (fun buf ch => if negb (ch =? VS15) && negb (ch =? VS16) then buf ++ [ch] else buf)
           l acc).
Proof.
  induction l as [| c l IH]; intros acc; cbn [fold_left]; [reflexivity |].
  destruct (negb (c =? VS15) && negb (c =? VS16)); [| apply IH].
  rewrite <- IH. f_equal. rewrite flat_map_app. cbn [flat_map]. rewrite app_nil_r.
  reflexivity.
Qed.

(** X13: the UTF-8 fallback text of a cell is the UTF-8 encoding, code
    point by code point, of its Unicode fallback text, whatever the
    encoder of one code point is. *)
Theorem cell_as_utf8_for_fallback_encodes (lc : ListOfChars) :
  cell_as_utf8_for_fallback VS15 VS16 encode_utf8 lc
  = flat_map encode_utf8 (cell_as_unicode_for_fallback VS15 VS16 lc).
Proof.
  unfold cell_as_utf8_for_fallback, cell_as_unicode_for_fallback. cbv zeta.
  set (b0 := if negb (char_at (chars lc) 0 =? 0) then char_at (chars lc) 0 else SPACE).
  destruct (b0 =? TAB); cbn [negb].
  - cbn [flat_map]. rewrite app_nil_r. reflexivity.
  - rewrite <- fallback_loops. cbn [flat_map]. rewrite app_nil_r. reflexivity.
Qed.

Lemma fallback_loop_shape (l : list Z) :
  forall acc : list Z,
    let r := fold_left
               (fun buf ch => if negb (ch =? VS15) && negb (ch =? VS16) then buf ++ [ch]
                              else buf) l acc in
    exists rest : list Z,
      r = acc ++ rest
      /\ (length rest <= length l)%nat
      /\ Forall (fun ch => ch <> VS15 /\ ch <> VS16 /\ In ch l) rest.
Proof.
  induction l as [| c l IH]; intros acc; cbn zeta; cbn [fold_left].
  - exists []. rewrite app_nil_r. split; [reflexivity | split; [cbn; lia | constructor]].
  - destruct (Z.eqb_spec c VS15) as [E15 | N15]; cbn [negb andb].
    + destruct (IH acc) as (rest & -> & Hlen & Hall). exists rest.
      split; [reflexivity | split; [cbn [length]; lia |]].
      eapply Forall_impl; [exact Hall |]. intros ch (H1 & H2 & H3).
      split; [exact H1 | split; [exact H2 | right; exact H3]].
    + destruct (Z.eqb_spec c VS16) as [E16 | N16]; cbn [negb].
      * destruct (IH acc) as (rest & -> & Hlen & Hall). exists rest.
        split; [reflexivity | split; [cbn [length]; lia |]].
        eapply Forall_impl; [exact Hall |]. intros ch (H1 & H2 & H3).
        split; [exact H1 | split; [exact H2 | right; exact H3]].
      * destruct (IH (acc ++ [c])) as (rest & -> & Hlen & Hall). exists (c :: rest).
        split; [rewrite <- app_assoc; reflexivity | split; [cbn [length]; lia |]].
        constructor; [split; [exact N15 | split; [exact N16 | left; reflexivity]] |].
        eapply Forall_impl; [exact Hall |]. intros ch (H1 & H2 & H3).
        split; [exact H1 | split; [exact H2 | right; exact H3]].
Qed.

(** The loop of the fallback text keeps, in their order, the code
    points that are not a variation selector. *)
Lemma fallback_loop_filter (l : list Z) :
  forall acc : list Z,
    fold_left
      (fun buf ch => if negb (ch =? VS15) && negb (ch =? VS16) then buf ++ [ch] else buf)
      l acc
    = acc ++ List.filter (fun ch => negb (ch =? VS15) && negb (ch =? VS16)) l.
Proof.
  induction l as [| c l IH]; intros acc; cbn [fold_left List.filter].
  - rewrite app_nil_r. reflexivity.
  - destruct (negb (c =? VS15) && negb (c =? VS16)); [| apply IH].
    rewrite IH, <- app_assoc. reflexivity.
Qed.

(** X14: the Unicode fallback text of a cell is never empty.  Its first
    code point is the first one of the cell, or a space when that is 0 or
    a tab, so it is neither 0 nor a tab.  The code points after it are
    those of the cell after its first one, in their order, without the
    variation selectors VS15 and VS16; after a tab there is none.  The
    text is no longer than that of the cell, or one code point for a cell
    with no text. *)
Theorem cell_as_unicode_for_fallback_shape (lc : ListOfChars) :
  let ch0 := char_at (chars lc) 0 in
  let first := if (ch0 =? 0) || (ch0 =? TAB) then SPACE else ch0 in
  let rest :=
    if ch0 =? TAB then []
    else List.filter (fun ch => negb (ch =? VS15) && negb (ch =? VS16)) (drop 1 (chars lc)) in
  cell_as_unicode_for_fallback VS15 VS16 lc = first :: rest
  /\ first <> 0 /\ first <> TAB
  /\ Forall (fun ch => ch <> VS15 /\ ch <> VS16 /\ In ch (drop 1 (chars lc))) rest
  /\ Z.of_nat (length (first :: rest)) <= Z.max 1 (count lc).
Proof.
  cbn zeta.
  assert (Heq : cell_as_unicode_for_fallback VS15 VS16 lc
                = (if (char_at (chars lc) 0 =? 0) || (char_at (chars lc) 0 =? TAB)
                   then SPACE else char_at (chars lc) 0)
                  :: (if char_at (chars lc) 0 =? TAB then []
                      else List.filter (fun ch => negb (ch =? VS15) && negb (ch =? VS16))
                             (drop 1 (chars lc)))).
  { unfold cell_as_unicode_for_fallback. cbv zeta.
    destruct (Z.eqb_spec (char_at (chars lc) 0) 0) as [E0 | N0]; cbn [negb orb].
    - rewrite E0. change (SPACE =? TAB) with false. change (0 =? TAB) with false.
      cbn [negb]. apply fallback_loop_filter.
    - destruct (Z.eqb_spec (char_at (chars lc) 0) TAB) as [Et | Nt]; cbn [negb];
        [reflexivity | apply fallback_loop_filter]. }
  split; [exact Heq |].
  pose proof (fallback_loop_shape (drop 1 (chars lc)) [SPACE]) as Hshape.
  cbn zeta in Hshape. rewrite fallback_loop_filter in Hshape.
  destruct Hshape as (rest & Hr & Hlen & Hall).
  apply app_inv_head in Hr. subst rest.
  rewrite length_drop in Hlen.
  split; [| split; [| split]].
  - destruct (Z.eqb_spec (char_at (chars lc) 0) 0) as [E0 | N0]; cbn [orb];
      [unfold SPACE; lia |].
    destruct (Z.eqb_spec (char_at (chars lc) 0) TAB); [unfold SPACE; lia | exact N0].
  - destruct (Z.eqb_spec (char_at (chars lc) 0) 0) as [E0 | N0]; cbn [orb];
      [unfold SPACE, TAB; lia |].
    destruct (Z.eqb_spec (char_at (chars lc) 0) TAB) as [Et | Nt];
      [unfold SPACE, TAB; lia | exact Nt].
  - destruct (char_at (chars lc) 0 =? TAB); [constructor | exact Hall].
  - unfold count.
    destruct (char_at (chars lc) 0 =? TAB); cbn [length]; lia.
Qed.

End FallbackFacts.

(** ** Marks: [line_has_mark] and [mark_text_in_line] *)

(** The loop of [line_has_mark], from [x], says yes exactly when a cell
    from [x] on has a mark that the test accepts. *)
Lemma line_has_mark_loop_spec (line : Line) (mark_ : Z) (fuel : nat) :
  forall x : Z,
    0 <= x -> xnum line < 2 ^ 32 -> xnum line - x <= Z.of_nat fuel ->
    line_has_mark_loop fuel line mark_ x = true
    <-> exists k : Z,
          x <= k < xnum line
          /\ mark (attrs (gpu_at line k)) <> 0
          /\ (mark_ = 0 \/ mark_ = mark (attrs (gpu_at line k))).
Proof.
  induction fuel as [| fuel IH]; intros x Hx Hn Hf; cbn [line_has_mark_loop].
  - split; [discriminate | intros (k & Hk & _); lia].
  - destruct (Z.ltb_spec x (xnum line)) as [Hlt | Hge].
    2:{ split; [discriminate | intros (k & Hk & _); lia]. }
    cbv zeta.
    destruct (Z.eqb_spec (mark (attrs (gpu_at line x))) 0) as [Em | Nm]; cbn [negb andb].
    + rewrite add32_small by lia. rewrite IH by lia.
      split; intros (k & Hk & Hm & Ho); exists k.
      * split; [lia | split; assumption].
      * destruct (Z.eq_dec k x) as [-> | Hne]; [contradiction |].
        split; [lia | split; assumption].
    + destruct (Z.eqb_spec mark_ 0) as [E0 | N0]; cbn [orb].
      * split; [| reflexivity]. intros _. exists x.
        split; [lia | split; [exact Nm | left; exact E0]].
      * destruct (Z.eqb_spec mark_ (mark (attrs (gpu_at line x)))) as [E | N].
        -- split; [| reflexivity]. intros _. exists x.
           split; [lia | split; [exact Nm | right; exact E]].
        -- rewrite add32_small by lia. rewrite IH by lia.
           split; intros (k & Hk & Hm & Ho); exists k.
           ++ split; [lia | split; assumption].
           ++ destruct (Z.eq_dec k x) as [-> | Hne]; [destruct Ho; contradiction |].
              split; [lia | split; assumption].
Qed.

(** [line_has_mark] reads nothing of a line but the number of its columns
    and the marks of its cells. *)
Lemma line_has_mark_ext (line1 line2 : Line) (mark_ : Z) :
  xnum line1 = xnum line2 -> xnum line1 < 2 ^ 32 ->
  (forall k : Z, 0 <= k < xnum line1 ->
     mark (attrs (gpu_at line1 k)) = mark (attrs (gpu_at line2 k))) ->
  line_has_mark line1 mark_ = line_has_mark line2 mark_.
Proof.
  intros Hn Hx Hm. unfold line_has_mark.
  apply eq_true_iff_eq.
  rewrite !line_has_mark_loop_spec by lia.
  split; intros (k & Hk & H1 & H2); exists k.
  - rewrite <- Hm by lia. split; [lia | split; assumption].
  - rewrite Hm by lia. split; [lia | split; assumption].
Qed.

(** X15: [line_has_mark(line, 0)] says whether some cell of the line has
    a mark other than 0, and [line_has_mark(line, m)] for a mark [m] other
    than 0 says whether some cell of the line has the mark [m]. *)
Theorem line_has_mark_iff (line : Line) (mark_ : Z) :
  u32 (xnum line) ->
  (line_has_mark line 0 = true
   <-> exists k : Z, 0 <= k < xnum line /\ mark (attrs (gpu_at line k)) <> 0)
  /\ (mark_ <> 0 ->
      (line_has_mark line mark_ = true
       <-> exists k : Z, 0 <= k < xnum line /\ mark (attrs (gpu_at line k)) = mark_)).
Proof.
  intros [Hx0 Hx1]. unfold line_has_mark. split.
  - rewrite line_has_mark_loop_spec by lia.
    split; intros (k & Hk & H); exists k.
    + split; [exact Hk | tauto].
    + split; [exact Hk | split; [exact H | left; reflexivity]].
  - intros Hm. rewrite line_has_mark_loop_spec by lia.
    split; intros (k & Hk & H); exists k.
    + split; [exact Hk |]. destruct H as [_ [H | H]]; [contradiction | congruence].
    + split; [exact Hk | split; [congruence | right; congruence]].
Qed.

Section MarkFacts.

Variable cursor_as_gpu_cell : Cursor -> GPUCell.
Variable xlimit_for_line : Line -> Z.
Variable Marker : Type.
Variable apply_marker : Marker -> Line -> list Z -> Line.

(** X16: [line_apply_cursor] without [clear_char] does not change what
    [line_has_mark] says of the line, for any mark: applying the
    formatting of a cursor keeps the marks. *)
Theorem line_apply_cursor_keeps_marks (self : Line) (cursor : Cursor) (at_ num mark_ : Z) :
  u32 at_ -> u32 (xnum self) ->
  line_has_mark (line_apply_cursor cursor_as_gpu_cell self cursor at_ num false) mark_
  = line_has_mark self mark_.
Proof.
  intros [Ha0 Ha1] [Hx0 Hx1]. unfold line_apply_cursor.
  destruct (apply_cursor_loop_spec (Z.to_nat (xnum self - at_)) self (add32 at_ num)
              (cursor_as_gpu_cell cursor) at_ ltac:(lia) ltac:(lia) ltac:(lia))
    as (_ & Hn & _ & _ & Hg).
  cbn zeta in *.
  apply line_has_mark_ext; [exact Hn | rewrite Hn; exact Hx1 |].
  intros k Hk. unfold gpu_at. rewrite Hg.
  destruct ((at_ <=? Z.of_nat (Z.to_nat k))
            && (Z.of_nat (Z.to_nat k) <? Z.min (add32 at_ num) (xnum self))); [| reflexivity].
  destruct (gpu_cells self !! Z.to_nat k); reflexivity.
Qed.

(** What the loop that clears the marks leaves, from [i]. *)
Lemma clear_marks_loop_spec (fuel : nat) :
  forall (line : Line) (i : Z),
    0 <= i -> xnum line < 2 ^ 32 -> xnum line - i <= Z.of_nat fuel ->
    let line' := clear_marks_loop fuel line i in
    cpu_cells line' = cpu_cells line
    /\ xnum line' = xnum line
    /\ prompt_kind line' = prompt_kind line
    /\ text_cache line' = text_cache line
    /\ forall j : nat,
         gpu_cells line' !! j
         = if (i <=? Z.of_nat j) && (Z.of_nat j <? xnum line)
           then with_mark 0 <$> gpu_cells line !! j
           else gpu_cells line !! j.
Proof.
  induction fuel as [| fuel IH]; intros line i Hi Hx Hf; cbn zeta; cbn [clear_marks_loop].
  - repeat split. intros j.
    destruct (Z.leb_spec i (Z.of_nat j)), (Z.ltb_spec (Z.of_nat j) (xnum line));
      cbn [andb]; try reflexivity. lia.
  - destruct (Z.ltb_spec i (xnum line)) as [Hlt | Hge].
    2:{ repeat split. intros j.
        destruct (Z.leb_spec i (Z.of_nat j)), (Z.ltb_spec (Z.of_nat j) (xnum line));
          cbn [andb]; try reflexivity. lia. }
    rewrite add32_small by lia.
    set (line1 := set_gpu_cells line
                    (<[Z.to_nat i := with_mark 0 (gpu_at line i)]> (gpu_cells line))).
    destruct (IH line1 (i + 1) ltac:(lia) Hx ltac:(cbn; lia)) as (Hc & Hn & Hp & Ht & Hg).
    split; [exact Hc | split; [exact Hn | split; [exact Hp | split; [exact Ht |]]]].
    intros j. rewrite Hg. cbn [xnum gpu_cells line1 set_gpu_cells].
    destruct (decide (j = Z.to_nat i)) as [-> | Hne].
    + rewrite Z2Nat.id by lia.
      destruct (Z.leb_spec (i + 1) i); [lia |]. cbn [andb].
      destruct (Z.leb_spec i i); [| lia].
      destruct (Z.ltb_spec i (xnum line)); [| lia]. cbn [andb].
      destruct (gpu_cells line !! Z.to_nat i) as [old |] eqn:Hold.
      * rewrite list_lookup_insert_eq by (apply lookup_lt_Some in Hold; exact Hold).
        unfold gpu_at. rewrite Hold. reflexivity.
      * rewrite list_insert_ge by (apply lookup_ge_None; exact Hold).
        rewrite Hold. reflexivity.
    + rewrite list_lookup_insert_ne by congruence.
      destruct (Z.leb_spec (i + 1) (Z.of_nat j)), (Z.leb_spec i (Z.of_nat j)); try lia;
        cbn [andb]; reflexivity.
Qed.

(** X17: with no marker, and with a marker on a line whose text is
    empty, [mark_text_in_line] sets the mark of every cell of the line to
    0 and changes nothing else; after it [line_has_mark] says no for every
    mark. *)
Theorem mark_text_in_line_clears (marker : option Marker) (line : Line) (capacity : Z) :
  u32 (xnum line) ->
  marker = None \/ fst (line_as_unicode xlimit_for_line line capacity false) = [] ->
  let line' := mark_text_in_line xlimit_for_line Marker apply_marker marker line capacity in
  cpu_cells line' = cpu_cells line
  /\ xnum line' = xnum line
  /\ text_cache line' = text_cache line
  /\ (forall j : nat,
        gpu_cells line' !! j
        = if Z.of_nat j <? xnum line then with_mark 0 <$> gpu_cells line !! j
          else gpu_cells line !! j)
  /\ forall mark_ : Z, line_has_mark line' mark_ = false.
Proof.
  intros [Hx0 Hx1] Hm. cbn zeta.
  assert (Hline : mark_text_in_line xlimit_for_line Marker apply_marker marker line capacity
                  = clear_marks_loop (Z.to_nat (xnum line)) line 0).
  { unfold mark_text_in_line. destruct marker as [m |]; [| reflexivity].
    destruct Hm as [Hm | Hm]; [discriminate |]. rewrite Hm. reflexivity. }
  rewrite Hline.
  destruct (clear_marks_loop_spec (Z.to_nat (xnum line)) line 0 ltac:(lia) Hx1 ltac:(lia))
    as (Hc & Hn & _ & Ht & Hg).
  cbn zeta in *. set (line' := clear_marks_loop (Z.to_nat (xnum line)) line 0) in *.
  split; [exact Hc | split; [exact Hn | split; [exact Ht | split]]].
  - intros j. rewrite Hg. destruct (Z.leb_spec 0 (Z.of_nat j)); [reflexivity | lia].
  - intros mark_. apply not_true_is_false. unfold line_has_mark.
    rewrite line_has_mark_loop_spec by lia.
    intros (k & Hk & Hnz & _). apply Hnz. unfold gpu_at. rewrite Hg, Hn in *.
    rewrite Z2Nat.id by lia.
    destruct (Z.leb_spec 0 k); [| lia]. destruct (Z.ltb_spec k (xnum line)); [| lia].
    cbn [andb]. destruct (gpu_cells line !! Z.to_nat k); reflexivity.
Qed.

End MarkFacts.

(** ** Decimal digits and SGR codes *)

Lemma decimal_value_rev (l : list Z) :
  decimal_value (rev l) = fold_right (fun d acc => 10 * acc + (d - 48)) 0 l.
Proof.
  unfold decimal_value.
  rewrite <- (rev_involutive l) at 2. rewrite fold_left_rev_right. reflexivity.
Qed.

Lemma head_rev {A : Type} (l : list A) : head (rev l) = last l.
Proof. rewrite rev_alt. apply (head_reverse l). Qed.

(** The digits that the loop writes are decimal digits, they denote the
    number, and the last one written, the leading digit, is not 0. *)
Lemma digits_rev_value (fuel : nat) :
  forall num : Z,
    0 < num < 2 ^ Z.of_nat fuel ->
    fold_right (fun d acc => 10 * acc + (d - 48)) 0 (digits_rev fuel num) = num
    /\ Forall (fun d => 48 <= d <= 57) (digits_rev fuel num)
    /\ last (digits_rev fuel num) <> Some 48.
Proof.
  induction fuel as [| fuel IH]; intros num Hn.
  - change (2 ^ Z.of_nat 0) with 1 in Hn. lia.
  - cbn [digits_rev].
    pose proof (Z.mod_pos_bound num 10 ltac:(lia)) as Hm.
    pose proof (Z.div_mod num 10 ltac:(lia)) as Hd.
    destruct (Z.gtb_spec (num / 10) 0) as [Hq | Hq].
    + assert (Hlt : 0 < num / 10 < 2 ^ Z.of_nat fuel).
      { split; [lia |]. apply Z.div_lt_upper_bound; [lia |].
        rewrite Nat2Z.inj_succ, Z.pow_succ_r in Hn by lia. lia. }
      destruct (IH (num / 10) Hlt) as (Hv & Hall & Hlast).
      cbn [fold_right]. rewrite Hv.
      split; [lia | split; [constructor; [lia | exact Hall] |]].
      destruct (digits_rev fuel (num / 10)) as [| d ds] eqn:E.
      * cbn in Hv. lia.
      * rewrite last_cons_cons. exact Hlast.
    + assert (num / 10 = 0) by (pose proof (Z.div_pos num 10); lia).
      cbn [fold_right].
      split; [lia | split; [constructor; [lia | constructor] |]].
      cbn. intros E. injection E as E. lia.
Qed.

(** X18: [nonnegative_integer_as_utf32] appends to the buffer the decimal
    digits of the number, at least one, and returns how many they are: the
    code points appended are digits, they denote the number, and the first
    of them is the digit 0 only for the number 0. *)
Theorem nonnegative_integer_as_utf32_digits (num : Z) (o : ANSIBuf) :
  0 <= num ->
  let r := nonnegative_integer_as_utf32 num o in
  exists digits : list Z,
    buf (snd r) = buf o ++ digits
    /\ fst r = Z.of_nat (length digits)
    /\ 0 < fst r
    /\ Forall (fun d => 48 <= d <= 57) digits
    /\ decimal_value digits = num
    /\ (head digits = Some 48 -> num = 0).
Proof.
  intros Hn. cbn zeta. unfold nonnegative_integer_as_utf32. cbn [fst snd W buf].
  exists (decimal num). split; [reflexivity | split; [reflexivity |]].
  unfold decimal. destruct (Z.eqb_spec num 0) as [-> | Hne].
  - cbn. repeat split; try lia. repeat constructor; lia.
  - assert (Hpos : 0 < num) by lia.
    pose proof (Z.log2_spec num Hpos) as [_ Hlog].
    pose proof (Z.log2_nonneg num) as Hl0.
    destruct (digits_rev_value (S (Z.to_nat (Z.log2 num))) num) as (Hv & Hall & Hlast).
    { split; [exact Hpos |]. rewrite Nat2Z.inj_succ, Z2Nat.id by lia. exact Hlog. }
    rewrite decimal_value_rev, Hv, length_rev.
    split.
    + cbn [digits_rev length]. lia.
    + split; [apply Forall_rev; exact Hall | split; [reflexivity |]].
      intros Hh. rewrite head_rev in Hh. contradiction.
Qed.

(** The text of [fmt_u] and of [color_as_sgr] is never short. *)
Lemma fmt_u_nonempty (n : Z) : 1 <= slen (fmt_u n).
Proof.
  unfold slen, fmt_u, decimal. rewrite length_string_of_list_ascii, length_map.
  destruct (n =? 0); [cbn; lia |]. rewrite length_rev. cbn [digits_rev length]. lia.
Qed.

Lemma color_as_sgr_min (val simple_code aix_code complex_code : Z) :
  2 <= slen (color_as_sgr val simple_code aix_code complex_code).
Proof.
  unfold color_as_sgr.
  assert (H : forall n s, 2 <= slen (fmt_u n +:+ s +:+ ";")).
  { intros n s. rewrite !slen_append. pose proof (fmt_u_nonempty n).
    change (slen ";") with 1. unfold slen in *. lia. }
  assert (H0 : forall n, 2 <= slen (fmt_u n +:+ ";")).
  { intros n. rewrite !slen_append. pose proof (fmt_u_nonempty n).
    change (slen ";") with 1. lia. }
  destruct (Z.land val 255 =? 1).
  - destruct ((Z.shiftr val 8 <? 16) && negb (simple_code =? 0)); [apply H0 |].
    apply (H complex_code (":5:" +:+ fmt_u (Z.shiftr val 8))%string).
  - destruct (Z.land val 255 =? 2); [| apply H0].
    rewrite !slen_append. pose proof (fmt_u_nonempty complex_code).
    change (slen ";") with 1. unfold slen in *. lia.
Qed.

Lemma drop_last_short (s : string) : drop_last s = EmptyString -> slen s <= 1.
Proof.
  destruct s as [| a [| b s]]; unfold slen; cbn [String.length drop_last];
    [lia | lia | discriminate].
Qed.

Lemma sgr_step_P (b b' : bool) (p s : string) :
  2 <= slen s < 126 ->
  sgr_built b p -> sgr_built (b || b') (if b' then P p s else p).
Proof.
  intros Hs [Hp Hb]. destruct b'.
  - assert (2 <= slen (P p s)).
    { destruct Hp as [-> | Hp]; [rewrite P_empty; lia |].
      unfold P. destruct (SZ p >? slen s); [rewrite slen_append |]; lia. }
    split; [right; assumption | intros _; assumption].
  - rewrite orb_false_r. split; assumption.
Qed.

Lemma sgr_step_color (b b' : bool) (p c : string) :
  2 <= slen c ->
  sgr_built b p -> sgr_built (b || b') (if b' then p +:+ c else p).
Proof.
  intros Hc [Hp Hb]. destruct b'.
  - assert (2 <= slen (p +:+ c)) by (rewrite slen_append; unfold slen in *; lia).
    split; [right; assumption | intros _; assumption].
  - rewrite orb_false_r. split; assumption.
Qed.

Section SgrDelta.

Variable DECORATION_FG_CODE : Z.

(** X19: [cell_as_sgr(cell, prev)] is the empty string exactly when the
    two cells have the same bold, dim, italic, reverse and strike bits,
    the same three colours and the same underline style: a difference in
    any of them gives codes, and nothing else does. *)
Theorem cell_as_sgr_empty_iff (cell prev : GPUCell) :
  cell_as_sgr DECORATION_FG_CODE cell prev = EmptyString
  <-> bold (attrs cell) = bold (attrs prev)
      /\ dim (attrs cell) = dim (attrs prev)
      /\ italic (attrs cell) = italic (attrs prev)
      /\ reverse (attrs cell) = reverse (attrs prev)
      /\ strike (attrs cell) = strike (attrs prev)
      /\ fg cell = fg prev
      /\ bg cell = bg prev
      /\ decoration_fg cell = decoration_fg prev
      /\ decoration (attrs cell) = decoration (attrs prev).
Proof.
  split.
  - intros He. apply drop_last_short in He.
    unfold cell_as_sgr_codes in He. cbv zeta in He.
    set (i0 := negb (Bool.eqb (bold (attrs cell)) (bold (attrs prev)))
               || negb (Bool.eqb (dim (attrs cell)) (dim (attrs prev)))) in *.
    set (p1 := if i0 then _ else EmptyString) in *.
    assert (H1 : sgr_built i0 p1).
    { unfold p1, i0.
      destruct (bold (attrs cell)), (dim (attrs cell)), (bold (attrs prev)),
        (dim (attrs prev)); vm_compute; (split; [auto | intros; discriminate || auto]);
        right; discriminate. }
    clearbody p1.
    pose proof (sgr_step_P i0 (negb (Bool.eqb (italic (attrs cell)) (italic (attrs prev)))) p1
                  (if italic (attrs cell) then "3;" else "23;")
                  ltac:(destruct (italic (attrs cell)); vm_compute; split; congruence) H1)
      as H2.
    pose proof (sgr_step_P _ (negb (Bool.eqb (reverse (attrs cell)) (reverse (attrs prev)))) _
                  (if reverse (attrs cell) then "7;" else "27;")
                  ltac:(destruct (reverse (attrs cell)); vm_compute; split; congruence) H2)
      as H3.
    pose proof (sgr_step_P _ (negb (Bool.eqb (strike (attrs cell)) (strike (attrs prev)))) _
                  (if strike (attrs cell) then "9;" else "29;")
                  ltac:(destruct (strike (attrs cell)); vm_compute; split; congruence) H3)
      as H4.
    pose proof (sgr_step_color _ (negb (fg cell =? fg prev)) _
                  (color_as_sgr (fg cell) 30 90 38) (color_as_sgr_min _ _ _ _) H4) as H5.
    pose proof (sgr_step_color _ (negb (bg cell =? bg prev)) _
                  (color_as_sgr (bg cell) 40 100 48) (color_as_sgr_min _ _ _ _) H5) as H6.
    pose proof (sgr_step_color _ (negb (decoration_fg cell =? decoration_fg prev)) _
                  (color_as_sgr (decoration_fg cell) 0 0 DECORATION_FG_CODE)
                  (color_as_sgr_min _ _ _ _) H6) as H7.
    assert (Hdec : 2 <= slen (decoration_as_sgr (decoration (attrs cell))) < 126).
    { unfold decoration_as_sgr.
      destruct (decoration (attrs cell)) as [| [[[] | [] |] | [[] | [] |] |] |]; vm_compute;
        split; congruence. }
    pose proof (sgr_step_P _ (negb (decoration (attrs cell) =? decoration (attrs prev))) _
                  _ Hdec H7) as [_ H8].
    destruct (i0 || negb (Bool.eqb (italic (attrs cell)) (italic (attrs prev)))
              || negb (Bool.eqb (reverse (attrs cell)) (reverse (attrs prev)))
              || negb (Bool.eqb (strike (attrs cell)) (strike (attrs prev)))
              || negb (fg cell =? fg prev) || negb (bg cell =? bg prev)
              || negb (decoration_fg cell =? decoration_fg prev)
              || negb (decoration (attrs cell) =? decoration (attrs prev))) eqn:Hany.
    { specialize (H8 eq_refl). lia. }
    clear - Hany. unfold i0 in Hany.
    repeat (apply orb_false_elim in Hany as [Hany ?]).
    repeat match goal with
           | H : negb _ = false |- _ => apply negb_false_iff in H
           end.
    repeat match goal with
           | H : Bool.eqb _ _ = true |- _ => apply Bool.eqb_prop in H
           | H : (_ =? _) = true |- _ => apply Z.eqb_eq in H
           end.
    repeat split; assumption.
  - intros (Hb & Hd & Hi & Hr & Hs & Hf & Hg & Hdf & Hdec).
    unfold cell_as_sgr, cell_as_sgr_codes.
    rewrite Hb, Hd, Hi, Hr, Hs, Hf, Hg, Hdf, Hdec, !Bool.eqb_reflx, !Z.eqb_refl.
    reflexivity.
Qed.

End SgrDelta.

(** ** [set_char] and [add_combining_char] *)

Section SetCharFacts.

Variable cursor_to_attrs : Cursor -> CellAttrs.
Variable COL_MASK : Z.
Variables underline_hyperlinks UNDERLINE_ALWAYS url_color url_style : Z.
Variable to_hyperlink_id : Z -> Z.

(** X20: [set_char(at, ch, width, cursor, hyperlink_id)] succeeds exactly
    for a column of the line and the width 1, and a call that fails leaves
    the line as it was.  A call that succeeds makes the cell at [at] the
    plain cell of the code point [ch] with the hyperlink id, so that
    [text_at] returns [ch] alone and [line_get_char] returns [ch]; it
    keeps the sprite of the cell, leaves every other cell as it was, and
    with no cursor and no forced underline it leaves the GPU cell as it
    was too. *)
Theorem set_char_writes (self : Line) (at_ ch width : Z) (cursor : option Cursor)
    (hyperlink_id : Z) :
  wf_line self -> 0 <= at_ -> xnum self < 2 ^ 32 ->
  let r := set_char cursor_to_attrs COL_MASK underline_hyperlinks UNDERLINE_ALWAYS url_color
             url_style to_hyperlink_id self at_ ch width cursor hyperlink_id in
  (fst r = PyReturn tt <-> at_ < xnum self /\ width = 1)
  /\ (fst r <> PyReturn tt -> snd r = self)
  /\ (fst r = PyReturn tt ->
      cpu_at (snd r) at_ = CPU.mk ch false (to_hyperlink_id hyperlink_id) false false 0 0
      /\ text_at (snd r) at_ = PyReturn [ch]
      /\ line_get_char (snd r) at_ = ch
      /\ (sprite_x (gpu_at (snd r) at_) = sprite_x (gpu_at self at_)
          /\ sprite_y (gpu_at (snd r) at_) = sprite_y (gpu_at self at_)
          /\ sprite_z (gpu_at (snd r) at_) = sprite_z (gpu_at self at_))
      /\ (forall j : nat, j <> Z.to_nat at_ ->
            cpu_cells (snd r) !! j = cpu_cells self !! j
            /\ gpu_cells (snd r) !! j = gpu_cells self !! j)
      /\ (cursor = None ->
          (underline_hyperlinks =? UNDERLINE_ALWAYS) && negb (to_hyperlink_id hyperlink_id =? 0)
          = false ->
          gpu_cells (snd r) = gpu_cells self)).
Proof.
  intros [Hwc Hwg] Ha Hx. cbn zeta. unfold set_char.
  destruct (Z.geb_spec at_ (xnum self)) as [Hge | Hlt].
  { cbn [fst snd]. split; [| split]; [| reflexivity | discriminate].
    split; [discriminate | intros [H _]; lia]. }
  destruct (Z.eqb_spec width 1) as [Hw | Hw]; cbn [negb].
  2:{ cbn [fst snd]. split; [| split]; [| reflexivity | discriminate].
      split; [discriminate | intros [_ H]; contradiction]. }
  cbn [fst snd].
  split; [split; [intros _; split; assumption | reflexivity] |].
  split; [intros H; contradiction |]. intros _.
  unfold line_set_char.
  set (g1 := match cursor with
             | Some c => with_colors (gpu_at self at_) (cursor_to_attrs c)
                           (Z.land (Cur.fg c) COL_MASK) (Z.land (Cur.bg c) COL_MASK)
                           (Z.land (Cur.decoration_fg c) COL_MASK)
             | None => gpu_at self at_
             end).
  set (g2 := if (underline_hyperlinks =? UNDERLINE_ALWAYS)
                && negb (to_hyperlink_id hyperlink_id =? 0)
             then _ else g1).
  set (c := CPU.mk ch false (to_hyperlink_id hyperlink_id) false false 0 0).
  set (self' := set_gpu_cells _ _).
  assert (Hc : cpu_at self' at_ = c).
  { unfold cpu_at, self'. cbn [cpu_cells set_gpu_cells set_cpu_cells].
    rewrite list_lookup_insert_eq by lia. reflexivity. }
  assert (Hg : gpu_at self' at_ = g2).
  { unfold gpu_at at 1. unfold self'. cbn [gpu_cells set_gpu_cells set_cpu_cells].
    rewrite list_lookup_insert_eq by lia. reflexivity. }
  assert (Hs1 : sprite_x g1 = sprite_x (gpu_at self at_)
                /\ sprite_y g1 = sprite_y (gpu_at self at_)
                /\ sprite_z g1 = sprite_z (gpu_at self at_)).
  { unfold g1. destruct cursor; repeat split. }
  split; [exact Hc |]. split.
  { unfold text_at. unfold wrap32. rewrite Z.mod_small by lia.
    cbn [xnum self' set_gpu_cells set_cpu_cells].
    destruct (Z.geb_spec at_ (xnum self)); [lia |]. rewrite Hc. reflexivity. }
  split; [unfold line_get_char; rewrite Hc; reflexivity |].
  split.
  { rewrite Hg. unfold g2.
    destruct ((underline_hyperlinks =? UNDERLINE_ALWAYS)
              && negb (to_hyperlink_id hyperlink_id =? 0)); [cbn | ]; exact Hs1. }
  split.
  { intros j Hj. unfold self'. cbn [cpu_cells gpu_cells set_gpu_cells set_cpu_cells].
    rewrite !list_lookup_insert_ne by congruence. split; reflexivity. }
  intros Hnone Hno. unfold self'. cbn [gpu_cells set_gpu_cells set_cpu_cells].
  unfold g2, g1. rewrite Hno, Hnone.
  apply list_insert_id. unfold gpu_at.
  destruct (gpu_cells self !! Z.to_nat at_) as [g |] eqn:E; [reflexivity |].
  apply lookup_ge_None in E. lia.
Qed.

(** X21: when the hyperlinks are always underlined, a cell that
    [line_set_char] writes with a hyperlink id other than 0 gets the
    underline style of the options, and a decoration colour that
    [resolve_color] resolves to the low 24 bits of the colour of the
    options under the mask, whatever the mask, the cursor, the colour
    table and the default are: the colour is stored, in a 32-bit
    [color_type], in the form that [resolve_color] reads as a colour given
    by its value.  When the colour of the options is a 24-bit colour that
    the mask keeps, it is that colour. *)
Theorem line_set_char_underlines_hyperlink (self : Line) (at_ ch : Z) (cursor : option Cursor)
    (hyperlink_id : Z) (color_table : list Z) (defval : Z) :
  wf_line self -> 0 <= at_ < xnum self ->
  underline_hyperlinks = UNDERLINE_ALWAYS -> hyperlink_id <> 0 ->
  let self' := line_set_char cursor_to_attrs COL_MASK underline_hyperlinks UNDERLINE_ALWAYS
                 url_color url_style self at_ ch cursor hyperlink_id in
  decoration (attrs (gpu_at self' at_)) = url_style
  /\ resolve_color color_table (decoration_fg (gpu_at self' at_)) defval
     = Z.land url_color COL_MASK mod 2 ^ 24
  /\ (0 <= url_color < 2 ^ 24 -> Z.land url_color COL_MASK = url_color ->
      resolve_color color_table (decoration_fg (gpu_at self' at_)) defval = url_color)
  /\ CPU.hyperlink_id (cpu_at self' at_) = hyperlink_id.
Proof.
  intros [Hwc Hwg] Ha Hu Hh. cbn zeta. unfold line_set_char.
  rewrite Hu, Z.eqb_refl. destruct (Z.eqb_spec hyperlink_id 0) as [E | _]; [contradiction |].
  cbn [negb andb].
  set (g2 := with_decoration url_style _).
  set (self' := set_gpu_cells _ _).
  assert (Hc : cpu_at self' at_ = CPU.mk ch false hyperlink_id false false 0 0).
  { unfold cpu_at, self'. cbn [cpu_cells set_gpu_cells set_cpu_cells].
    rewrite list_lookup_insert_eq by lia. reflexivity. }
  assert (Hg : gpu_at self' at_ = g2).
  { unfold gpu_at at 1. unfold self'. cbn [gpu_cells set_gpu_cells set_cpu_cells].
    rewrite list_lookup_insert_eq by lia. reflexivity. }
  rewrite Hc, Hg. unfold g2.
  cbn [with_decoration attrs decoration decoration_fg CPU.hyperlink_id].
  set (v := Z.land url_color COL_MASK).
  assert (Hres : resolve_color color_table (Z.lor (wrap32 (Z.shiftl v 8)) 2) defval
                 = v mod 2 ^ 24).
  { assert (Hwrap : wrap32 (Z.shiftl v 8) = Z.shiftl (v mod 2 ^ 24) 8).
    { unfold wrap32. rewrite !Z.shiftl_mul_pow2 by lia.
      change (2 ^ 32) with (2 ^ 24 * 2 ^ 8).
      rewrite Z.mul_mod_distr_r by lia. reflexivity. }
    rewrite Hwrap. unfold resolve_color.
    assert (Hlow : Z.land (Z.lor (Z.shiftl (v mod 2 ^ 24) 8) 2) 255 = 2).
    { rewrite Z.land_lor_distr_l.
      change 255 with (Z.ones 8). rewrite Z.land_ones by lia.
      rewrite Z.shiftl_mul_pow2, Z.mod_mul by lia. reflexivity. }
    rewrite Hlow.
    rewrite Z.shiftr_lor, Z.shiftr_shiftl_l, Z.sub_diag, Z.shiftl_0_r by lia.
    change (Z.shiftr 2 8) with 0. apply Z.lor_0_r. }
  split; [reflexivity | split; [exact Hres | split; [| reflexivity]]].
  intros Hcol Hkeep. rewrite Hres, Hkeep. apply Z.mod_small. exact Hcol.
Qed.

End SetCharFacts.

(** X22: a call of [add_combining_char] that succeeds changes the cell at
    [x] only: every other CPU cell and every GPU cell is as it was, the
    cell at [x] keeps its hyperlink id and its wrap flag, and every other
    cell that holds a code point or a live index of the text cache has the
    text that it had. *)
Theorem add_combining_char_keeps_other_cells (self : Line) (x new_char : Z) :
  wf_line self -> 0 <= x ->
  let r := add_combining_char self x new_char in
  fst r = PyReturn tt ->
  gpu_cells (snd r) = gpu_cells self
  /\ xnum (snd r) = xnum self
  /\ CPU.hyperlink_id (cpu_at (snd r) x) = CPU.hyperlink_id (cpu_at self x)
  /\ CPU.next_char_was_wrapped (cpu_at (snd r) x) = CPU.next_char_was_wrapped (cpu_at self x)
  /\ forall j : Z,
       0 <= j -> j <> x ->
       cpu_at (snd r) j = cpu_at self j
       /\ ((CPU.ch_is_idx (cpu_at self j) = true ->
            0 <= CPU.ch_or_idx (cpu_at self j) < Z.of_nat (length (text_cache self))) ->
           text_in_cell (cpu_at (snd r) j) (text_cache (snd r))
           = text_in_cell (cpu_at self j) (text_cache self)).
Proof.
  intros [Hcpu _] Hx. cbn zeta. unfold add_combining_char.
  destruct (Z.geb_spec x (xnum self)) as [Hge | Hlt]; [discriminate |].
  destruct (CPU.is_multicell (cpu_at self x)) eqn:Hm; [discriminate |].
  pose proof (tc_get_or_insert_chars_spec (text_cache self)
    (chars (text_in_cell (cpu_at self x) (text_cache self)) ++ [new_char])) as Hs.
  destruct (tc_get_or_insert_chars (text_cache self)
    (chars (text_in_cell (cpu_at self x) (text_cache self)) ++ [new_char])) as [idx tc'].
  destruct Hs as [_ Hkeep]. cbn [fst snd]. intros _.
  cbn [gpu_cells xnum set_text_cache set_cpu_cells text_cache].
  assert (Hc : cpu_at
    (set_text_cache
       (set_cpu_cells self (<[Z.to_nat x := with_text (cpu_at self x) idx]> (cpu_cells self)))
       tc') x = with_text (cpu_at self x) idx).
  { unfold cpu_at at 1. cbn [cpu_cells set_text_cache set_cpu_cells].
    rewrite list_lookup_insert_eq by lia. reflexivity. }
  rewrite Hc. cbn [with_text CPU.hyperlink_id CPU.next_char_was_wrapped].
  repeat split.
  - unfold cpu_at at 1. cbn [cpu_cells set_text_cache set_cpu_cells].
    rewrite list_lookup_insert_ne by lia. reflexivity.
  - intros Hlive.
    assert (Hj : cpu_at
      (set_text_cache
         (set_cpu_cells self (<[Z.to_nat x := with_text (cpu_at self x) idx]> (cpu_cells self)))
         tc') j = cpu_at self j).
    { unfold cpu_at at 1. cbn [cpu_cells set_text_cache set_cpu_cells].
      rewrite list_lookup_insert_ne by lia. reflexivity. }
    rewrite Hj. unfold text_in_cell. f_equal.
    destruct (CPU.ch_is_idx (cpu_at self j)) eqn:Hi; [| reflexivity].
    specialize (Hlive eq_refl). unfold tc_chars_at_index.
    destruct (text_cache self !! Z.to_nat (CPU.ch_or_idx (cpu_at self j))) as [e |] eqn:He.
    + rewrite (Hkeep _ _ He). reflexivity.
    + apply lookup_ge_None in He. lia.
Qed.

(** ** [as_ansi] and [line_as_unicode] *)


Section AnsiUnicodeFacts.

Variable TEXT_SIZE_CODE : string.
Variable DECORATION_FG_CODE : Z.
Variable SGR_MASK : Z.
Variable attrs_val : CellAttrs -> Z.
Variable cell_multicell_data : CPUCell -> TextCache -> MultiCellData.
Variable xlimit_for_line : Line -> Z.





End AnsiUnicodeFacts.

(** ** [set_text] and [unicode_in_range]; hyperlinks *)


Section SetTextUnicode.

Variable cursor_to_attrs : Cursor -> CellAttrs.
Variable COL_MASK : Z.
Variable PY_SSIZE_T_MAX : Z.


End SetTextUnicode.

(** [strstr(key, ":")] on a key whose id has no colon. *)
Lemma partition_key_id_uri (id uri : list Z) :
  Forall (fun c => c <> 58) id ->
  partition_key (id ++ 58 :: uri) = Some (id, uri).
Proof.
  induction 1 as [| c id Hc _ IH]; cbn [app partition_key].
  - reflexivity.
  - destruct (Z.eqb_spec c 58) as [E | _]; [contradiction |]. rewrite IH. reflexivity.
Qed.

(** X25: [write_hyperlink] appends one OSC 8 sequence.  For an id other
    than 0 whose key in the pool is [id:uri], it is
    [ESC ] 8 ; id=<id> ; <uri> ESC \], without the [id=<id>] part for an
    empty id, and the active hyperlink of the buffer becomes that id.  For
    the id 0, with no pool, and for an id that the pool does not know, it
    is the closing sequence [ESC ] 8 ; ; ESC \] and the active hyperlink
    becomes 0. *)
Theorem write_hyperlink_sequence (hid : Z) (o : ANSIBuf) :
  (forall (pool : HYPERLINK_POOL) (link_id uri : list Z),
     hid <> 0 -> hyperlink_pool o = Some pool -> pool hid = Some (link_id ++ 58 :: uri) ->
     Forall (fun c => c <> 58) link_id ->
     buf (write_hyperlink hid o)
     = buf o ++ [ESC; 93; 56; 59]
         ++ (match link_id with [] => [] | _ => [105; 100; 61] ++ link_id end)
         ++ [59] ++ uri ++ [ESC; 92]
     /\ active_hyperlink_id (write_hyperlink hid o) = hid)
  /\ (hid = 0 \/ hyperlink_pool o = None
      \/ (exists pool : HYPERLINK_POOL, hyperlink_pool o = Some pool /\ pool hid = None) ->
      buf (write_hyperlink hid o) = buf o ++ [ESC; 93; 56; 59; 59; ESC; 92]
      /\ active_hyperlink_id (write_hyperlink hid o) = 0)
  /\ hyperlink_pool (write_hyperlink hid o) = hyperlink_pool o.
Proof.
  split; [| split].
  - intros pool link_id uri Hh Hp Hk Hid. unfold write_hyperlink.
    destruct (Z.eqb_spec hid 0) as [E | _]; [contradiction |]. cbn [negb].
    rewrite Hp, Hk.
    destruct (Z.eqb_spec hid 0) as [E | _]; [contradiction |].
    rewrite (partition_key_id_uri link_id uri Hid). unfold default. cbn [from_option id].
    destruct link_id as [| c link_id]; unfold W; cbn [buf active_hyperlink_id hyperlink_pool];
      rewrite <- ?app_assoc; cbn [app]; split; reflexivity.
  - intros Hcase. unfold write_hyperlink.
    assert (Hkey : (if negb (hid =? 0)
                    then match hyperlink_pool o with
                         | Some pool => pool hid
                         | None => None
                         end
                    else None) = None).
    { destruct Hcase as [-> | [Hp | (pool & Hp & Hk)]].
      - reflexivity.
      - rewrite Hp. destruct (negb (hid =? 0)); reflexivity.
      - rewrite Hp, Hk. destruct (negb (hid =? 0)); reflexivity. }
    rewrite Hkey. unfold W. cbn [buf active_hyperlink_id hyperlink_pool].
    rewrite <- ?app_assoc. cbn [app]. split; reflexivity.
  - unfold write_hyperlink, W.
    destruct (if negb (hid =? 0)
              then match hyperlink_pool o with
                   | Some pool => pool hid
                   | None => None
                   end
              else None) as [key |]; [| reflexivity].
    destruct (hid =? 0); [reflexivity |].
    destruct (default (key, []) (partition_key key)) as [id uri].
    destruct id; reflexivity.
Qed.

(** ** The prefix of a multi-cell glyph *)

Section MulticellPrefix.

Variable TEXT_SIZE_CODE : string.

(** X26: [write_multicell_ansi_prefix] appends
    [ESC ] <code> ; <fields> ;] and returns the number of code points
    appended, where the fields are [w=<width>] for a width above 1,
    [s=<scale>] for a scale above 1 and [S=<subscale>] for a subscale
    other than 0, in this order, the numbers in decimal, with a colon
    between two fields and none after the last. *)
Theorem write_multicell_ansi_prefix_format (mcd : MultiCellData) (o : ANSIBuf) :
  let fields :=
    (if mcd_width mcd >? 1 then [[119; 61] ++ decimal (mcd_width mcd)] else [])
    ++ (if mcd_scale mcd >? 1 then [[115; 61] ++ decimal (mcd_scale mcd)] else [])
    ++ (if negb (mcd_subscale mcd =? 0) then [[83; 61] ++ decimal (mcd_subscale mcd)]
        else []) in
  let text := [ESC; 93] ++ utf32 TEXT_SIZE_CODE ++ [59] ++ join_colon fields ++ [59] in
  write_multicell_ansi_prefix TEXT_SIZE_CODE mcd o = (Z.of_nat (length text), W text o).
Proof.
  cbn zeta. unfold write_multicell_ansi_prefix, nonnegative_integer_as_utf32. cbn [snd].
  destruct (mcd_width mcd >? 1), (mcd_scale mcd >? 1), (negb (mcd_subscale mcd =? 0));
    rewrite !W_W, ?app_assoc;
    (rewrite strip_colon_W_colon || rewrite strip_colon_W_semicolon);
    rewrite W_W, len_W, Z.add_simpl_l; cbn [join_colon app];
    repeat first [rewrite <- app_assoc | progress cbn [app]]; reflexivity.
Qed.

End MulticellPrefix.

(** ** The further properties at sample inputs *)

Example url_end_scenario :
  line_url_end_at sample_is_url_char sample_can_strip_from_end_of_url url_line 6 true 0
    false false 31 = 26.
Proof. reflexivity. Qed.

Example line_length_samples : line_length url_line = 31 /\ line_length blank_line = 0.
Proof. split; reflexivity. Qed.

Example fallback_samples :
  cell_as_unicode_for_fallback 65038 65039 (mkLC [101; 769; 65039] false true) = [101; 769]
  /\ cell_as_unicode_for_fallback 65038 65039 (mkLC [TAB; 3] false true) = [SPACE].
Proof. split; reflexivity. Qed.

Lemma find_colon_slash_found_witness :
  1 <= xnum url_line /\ xnum url_line + 1 < 2 ^ 32
  /\ find_colon_slash sample_is_url_char url_line 12 0 <> 0
  /\ cell_is_char (cpu_at url_line (find_colon_slash sample_is_url_char url_line 12 0)) 58
     = true.
Proof.
  assert (H1 : 1 <= xnum url_line) by (simpl; lia).
  assert (H2 : xnum url_line + 1 < 2 ^ 32) by (simpl; lia).
  assert (H3 : find_colon_slash sample_is_url_char url_line 12 0 <> 0)
    by (vm_compute; discriminate).
  split; [exact H1 | split; [exact H2 | split; [exact H3 |]]].
  destruct (find_colon_slash_found sample_is_url_char url_line 12 0 H1 H2 H3) as (_ & H & _).
  exact H.
Defined.

Lemma prefix_matches_iff_witness :
  u32 11 /\ u32 (xnum url_line) /\ 0 <= 5
  /\ (prefix_matches url_line 11 (utf32 "https") 5 = true
      <-> 5 <= 11
          /\ forall j : Z, 0 <= j < 5 ->
               11 - 5 + j < xnum url_line
               /\ cell_is_char (cpu_at url_line (11 - 5 + j)) (char_at (utf32 "https") j) = true).
Proof.
  assert (H1 : u32 11) by (unfold u32; lia).
  assert (H2 : u32 (xnum url_line)) by (unfold u32; simpl; lia).
  assert (H3 : 0 <= 5) by lia.
  split; [exact H1 | split; [exact H2 | split; [exact H3 |]]].
  apply (prefix_matches_iff url_line 11 (utf32 "https") 5 H1 H2 H3).
Defined.

Lemma line_url_start_at_found_witness :
  u32 12 /\ xnum url_line + 8 < 2 ^ 32
  /\ line_url_start_at sample_is_url_char sample_url_prefixes 5 url_line 12 < xnum url_line
  /\ 0 <= line_url_start_at sample_is_url_char sample_url_prefixes 5 url_line 12 <= 12.
Proof.
  assert (H1 : u32 12) by (unfold u32; lia).
  assert (H2 : xnum url_line + 8 < 2 ^ 32) by (simpl; lia).
  assert (H3 : line_url_start_at sample_is_url_char sample_url_prefixes 5 url_line 12
               < xnum url_line) by (vm_compute; reflexivity).
  split; [exact H1 | split; [exact H2 | split; [exact H3 |]]].
  destruct (line_url_start_at_found sample_is_url_char sample_url_prefixes 5 url_line 12
              H1 H2 H3) as (H & _).
  exact H.
Defined.

Lemma line_url_end_at_valid_witness :
  0 <= 6 < xnum url_line /\ xnum url_line < 2 ^ 32
  /\ (true = true -> MIN_URL_LEN + 3 < xnum url_line)
  /\ url_end_scan sample_is_url_char url_line false 31 6 = true
  /\ 6 <= line_url_end_at sample_is_url_char sample_can_strip_from_end_of_url url_line 6
            true 0 false false 31 < xnum url_line.
Proof.
  assert (H1 : 0 <= 6 < xnum url_line) by (simpl; lia).
  assert (H2 : xnum url_line < 2 ^ 32) by (simpl; lia).
  assert (H3 : true = true -> MIN_URL_LEN + 3 < xnum url_line)
    by (intros _; vm_compute; reflexivity).
  assert (H4 : url_end_scan sample_is_url_char url_line false 31 6 = true) by reflexivity.
  split; [exact H1 | split; [exact H2 | split; [exact H3 | split; [exact H4 |]]]].
  destruct (line_url_end_at_valid sample_is_url_char sample_can_strip_from_end_of_url
              url_line 6 true 0 false false 31 H1 H2 H3) as [H _].
  destruct (H H4) as [Hr _]. exact Hr.
Defined.

Lemma line_clear_text_range_witness :
  u32 1 /\ u32 2 /\ u32 (xnum tab_line) /\ 1 + 2 < 2 ^ 32
  /\ gpu_cells (line_clear_text tab_line 1 2 120) = gpu_cells tab_line.
Proof.
  assert (H1 : u32 1) by (unfold u32; lia).
  assert (H2 : u32 2) by (unfold u32; lia).
  assert (H3 : u32 (xnum tab_line)) by (unfold u32; simpl; lia).
  assert (H4 : 1 + 2 < 2 ^ 32) by lia.
  split; [exact H1 | split; [exact H2 | split; [exact H3 | split; [exact H4 |]]]].
  destruct (line_clear_text_range tab_line 1 2 120 H1 H2 H3 H4) as (H & _).
  exact H.
Defined.

Lemma line_apply_cursor_clears_witness :
  u32 1 /\ u32 2 /\ u32 (xnum tab_line) /\ 1 + 2 < 2 ^ 32
  /\ xnum (line_apply_cursor sample_cursor_as_gpu_cell tab_line sample_cursor 1 2 true)
     = xnum tab_line.
Proof.
  assert (H1 : u32 1) by (unfold u32; lia).
  assert (H2 : u32 2) by (unfold u32; lia).
  assert (H3 : u32 (xnum tab_line)) by (unfold u32; simpl; lia).
  assert (H4 : 1 + 2 < 2 ^ 32) by lia.
  split; [exact H1 | split; [exact H2 | split; [exact H3 | split; [exact H4 |]]]].
  destruct (line_apply_cursor_clears sample_cursor_as_gpu_cell tab_line sample_cursor 1 2
              H1 H2 H3 H4) as (H & _).
  exact H.
Defined.

Lemma set_text_writes_witness :
  0 <= Cur.x sample_cursor /\ xnum tab_line < 2 ^ 32
  /\ 0 <= 1 /\ fits_ssize_t sample_PY_SSIZE_T_MAX (1 + 2) = true
  /\ 1 + 2 <= Z.of_nat (length (utf32 "abc"))
  /\ exists self' : Line,
       set_text sample_cursor_to_attrs sample_COL_MASK sample_PY_SSIZE_T_MAX tab_line
         (utf32 "abc") 1 2 sample_cursor = Some (PyReturn tt, self')
       /\ xnum self' = xnum tab_line.
Proof.
  assert (H1 : 0 <= Cur.x sample_cursor) by (simpl; lia).
  assert (H2 : xnum tab_line < 2 ^ 32) by (simpl; lia).
  assert (H3 : 0 <= 1) by lia.
  assert (H4 : fits_ssize_t sample_PY_SSIZE_T_MAX (1 + 2) = true) by reflexivity.
  assert (H5 : 1 + 2 <= Z.of_nat (length (utf32 "abc"))) by (simpl; lia).
  split; [exact H1 | split; [exact H2 | split; [exact H3 | split; [exact H4 |]]]].
  split; [exact H5 |].
  destruct (set_text_writes sample_cursor_to_attrs sample_COL_MASK sample_PY_SSIZE_T_MAX
              tab_line (utf32 "abc") 1 2 sample_cursor H1 H2 H3 H4 H5)
    as (self' & Heq & Hn & _).
  exists self'. split; [exact Heq | exact Hn].
Defined.

Lemma set_text_then_text_at_witness :
  wf_line tab_line /\ 0 <= Cur.x sample_cursor /\ xnum tab_line < 2 ^ 32
  /\ 0 <= 1 /\ fits_ssize_t sample_PY_SSIZE_T_MAX (1 + 2) = true
  /\ 1 + 2 <= Z.of_nat (length (utf32 "abc"))
  /\ 0 <= 1 < 2 /\ Cur.x sample_cursor + 1 < xnum tab_line
  /\ exists (self' : Line) (ch : Z),
       set_text sample_cursor_to_attrs sample_COL_MASK sample_PY_SSIZE_T_MAX tab_line
         (utf32 "abc") 1 2 sample_cursor = Some (PyReturn tt, self')
       /\ utf32 "abc" !! Z.to_nat (1 + 1) = Some ch
       /\ text_at self' (Cur.x sample_cursor + 1) = PyReturn [ch].
Proof.
  assert (H0 : wf_line tab_line) by (split; reflexivity).
  assert (H1 : 0 <= Cur.x sample_cursor) by (simpl; lia).
  assert (H2 : xnum tab_line < 2 ^ 32) by (simpl; lia).
  assert (H3 : 0 <= 1) by lia.
  assert (H4 : fits_ssize_t sample_PY_SSIZE_T_MAX (1 + 2) = true) by reflexivity.
  assert (H5 : 1 + 2 <= Z.of_nat (length (utf32 "abc"))) by (simpl; lia).
  assert (H6 : 0 <= 1 < 2) by lia.
  assert (H7 : Cur.x sample_cursor + 1 < xnum tab_line) by (simpl; lia).
  split; [exact H0 | split; [exact H1 | split; [exact H2 | split; [exact H3 |]]]].
  split; [exact H4 | split; [exact H5 | split; [exact H6 | split; [exact H7 |]]]].
  apply (set_text_then_text_at sample_cursor_to_attrs sample_COL_MASK sample_PY_SSIZE_T_MAX
           tab_line (utf32 "abc") 1 2 sample_cursor 1 H0 H1 H2 H3 H4 H5 H6 H7).
Defined.

Lemma line_length_spec_witness :
  u32 (xnum url_line)
  /\ (line_length url_line = 31
      <-> 0 <= 31 <= xnum url_line
          /\ (forall k : Z, 31 <= k < xnum url_line ->
                cell_is_char (cpu_at url_line k) BLANK_CHAR = true)
          /\ (0 < 31 -> cell_is_char (cpu_at url_line (31 - 1)) BLANK_CHAR = false)).
Proof.
  assert (H1 : u32 (xnum url_line)) by (unfold u32; simpl; lia).
  split; [exact H1 |].
  apply (line_length_spec url_line 31 H1).
Defined.

Lemma colors_for_cell_anchor_witness :
  0 <= 1 < xnum wide_line /\ xnum wide_line < 2 ^ 32
  /\ fst (fst (fst (snd (colors_for_cell wide_line [] 1 7 8 false)))) = 0
  /\ colors_for_cell wide_line [] 0 7 8 false = colors_for_cell wide_line [] 1 7 8 false.
Proof.
  assert (H1 : 0 <= 1 < xnum wide_line) by (simpl; lia).
  assert (H2 : xnum wide_line < 2 ^ 32) by (simpl; lia).
  split; [exact H1 | split; [exact H2 | split; [reflexivity |]]].
  destruct (colors_for_cell_anchor wide_line [] 1 7 8 false H1 H2) as (_ & _ & _ & _ & H).
  apply (H 0). vm_compute. split; discriminate.
Defined.

Lemma line_has_mark_iff_witness :
  u32 (xnum tab_line)
  /\ (line_has_mark tab_line 0 = true
      <-> exists k : Z, 0 <= k < xnum tab_line /\ mark (attrs (gpu_at tab_line k)) <> 0).
Proof.
  assert (H1 : u32 (xnum tab_line)) by (unfold u32; simpl; lia).
  split; [exact H1 |].
  destruct (line_has_mark_iff tab_line 1 H1) as [H _]. exact H.
Defined.

Lemma line_apply_cursor_keeps_marks_witness :
  u32 1 /\ u32 (xnum tab_line)
  /\ line_has_mark (line_apply_cursor sample_cursor_as_gpu_cell tab_line sample_cursor 1 2 false)
       0
     = line_has_mark tab_line 0.
Proof.
  assert (H1 : u32 1) by (unfold u32; lia).
  assert (H2 : u32 (xnum tab_line)) by (unfold u32; simpl; lia).
  split; [exact H1 | split; [exact H2 |]].
  apply (line_apply_cursor_keeps_marks sample_cursor_as_gpu_cell tab_line sample_cursor 1 2 0
           H1 H2).
Defined.

Lemma mark_text_in_line_clears_witness :
  u32 (xnum tab_line)
  /\ (@None unit = None \/ fst (line_as_unicode xnum tab_line 0 false) = [])
  /\ forall mark_ : Z,
       line_has_mark (mark_text_in_line xnum unit sample_apply_marker None tab_line 0) mark_
       = false.
Proof.
  assert (H1 : u32 (xnum tab_line)) by (unfold u32; simpl; lia).
  assert (H2 : @None unit = None \/ fst (line_as_unicode xnum tab_line 0 false) = [])
    by (left; reflexivity).
  split; [exact H1 | split; [exact H2 |]].
  destruct (mark_text_in_line_clears xnum unit sample_apply_marker None tab_line 0 H1 H2)
    as (_ & _ & _ & _ & H).
  exact H.
Defined.

Lemma nonnegative_integer_as_utf32_digits_witness :
  0 <= 2048
  /\ exists digits : list Z,
       buf (snd (nonnegative_integer_as_utf32 2048 empty_output)) = buf empty_output ++ digits
       /\ decimal_value digits = 2048.
Proof.
  assert (H1 : 0 <= 2048) by lia.
  split; [exact H1 |].
  destruct (nonnegative_integer_as_utf32_digits 2048 empty_output H1)
    as (digits & Hb & _ & _ & _ & Hv & _).
  exists digits. split; [exact Hb | exact Hv].
Defined.

Lemma set_char_writes_witness :
  wf_line url_line /\ 0 <= 3 /\ xnum url_line < 2 ^ 32
  /\ text_at (snd (set_char sample_cursor_to_attrs sample_COL_MASK 0 1 255 1 (fun z => z)
                     url_line 3 65 1 None 0)) 3
     = PyReturn [65].
Proof.
  assert (H1 : wf_line url_line) by (split; reflexivity).
  assert (H2 : 0 <= 3) by lia.
  assert (H3 : xnum url_line < 2 ^ 32) by (simpl; lia).
  split; [exact H1 | split; [exact H2 | split; [exact H3 |]]].
  destruct (set_char_writes sample_cursor_to_attrs sample_COL_MASK 0 1 255 1 (fun z => z)
              url_line 3 65 1 None 0 H1 H2 H3) as (_ & _ & H).
  destruct (H eq_refl) as (_ & Ht & _). exact Ht.
Defined.

Lemma line_set_char_underlines_hyperlink_witness :
  wf_line url_line /\ 0 <= 3 < xnum url_line /\ 1 = 1 /\ 7 <> 0
  /\ resolve_color []
       (decoration_fg
          (gpu_at (line_set_char sample_cursor_to_attrs sample_COL_MASK 1 1 255 3 url_line
                     3 65 None 7) 3)) 0
     = 255.
Proof.
  assert (H1 : wf_line url_line) by (split; reflexivity).
  assert (H2 : 0 <= 3 < xnum url_line) by (simpl; lia).
  assert (H4 : 1 = 1) by reflexivity.
  assert (H5 : 7 <> 0) by lia.
  split; [exact H1 | split; [exact H2 | split; [exact H4 | split; [exact H5 |]]]].
  destruct (line_set_char_underlines_hyperlink sample_cursor_to_attrs sample_COL_MASK 1 1 255 3
              url_line 3 65 None 7 [] 0 H1 H2 H4 H5) as (_ & _ & H & _).
  apply H; [lia | reflexivity].
Defined.


Lemma add_combining_char_keeps_other_cells_witness :
  wf_line url_line /\ 0 <= 0
  /\ fst (add_combining_char url_line 0 769) = PyReturn tt
  /\ gpu_cells (snd (add_combining_char url_line 0 769)) = gpu_cells url_line.
Proof.
  assert (H1 : wf_line url_line) by (split; reflexivity).
  assert (H2 : 0 <= 0) by lia.
  assert (H3 : fst (add_combining_char url_line 0 769) = PyReturn tt) by reflexivity.
  split; [exact H1 | split; [exact H2 | split; [exact H3 |]]].
  destruct (add_combining_char_keeps_other_cells url_line 0 769 H1 H2 H3) as (H & _).
  exact H.
Defined.


Lemma write_hyperlink_sequence_witness :
  7 <> 0 /\ sample_pool 7 = Some ([97] ++ 58 :: [98])
  /\ buf (write_hyperlink 7 (mkANSIBuf [] 0 (Some sample_pool)))
     = [ESC; 93; 56; 59; 105; 100; 61; 97; 59; 98; ESC; 92].
Proof.
  assert (H1 : 7 <> 0) by lia.
  assert (H2 : sample_pool 7 = Some ([97] ++ 58 :: [98])) by reflexivity.
  assert (H3 : Forall (fun c => c <> 58) [97]) by (constructor; [lia | constructor]).
  split; [exact H1 | split; [exact H2 |]].
  destruct (write_hyperlink_sequence 7 (mkANSIBuf [] 0 (Some sample_pool))) as (H & _).
  destruct (H sample_pool [97] [98] H1 eq_refl H2 H3) as [Hb _]. exact Hb.
Defined.

Lemma line_url_start_then_end_witness :
  u32 12 /\ xnum url_line + 8 < 2 ^ 32
  /\ forallb (forallb sample_is_url_char) sample_url_prefixes = true
  /\ sample_is_url_char 58 = true
  /\ line_url_start_at sample_is_url_char sample_url_prefixes 5 url_line 12 < xnum url_line
  /\ line_url_start_at sample_is_url_char sample_url_prefixes 5 url_line 12
     <= line_url_end_at sample_is_url_char sample_can_strip_from_end_of_url url_line
          (line_url_start_at sample_is_url_char sample_url_prefixes 5 url_line 12)
          true 0 false false 31
     < xnum url_line.
Proof.
  assert (H1 : u32 12) by (unfold u32; lia).
  assert (H2 : xnum url_line + 8 < 2 ^ 32) by (simpl; lia).
  assert (H3 : forallb (forallb sample_is_url_char) sample_url_prefixes = true)
    by reflexivity.
  assert (H4 : sample_is_url_char 58 = true) by reflexivity.
  assert (H5 : line_url_start_at sample_is_url_char sample_url_prefixes 5 url_line 12
               < xnum url_line) by (vm_compute; reflexivity).
  split; [exact H1 | split; [exact H2 | split; [exact H3 | split; [exact H4 |]]]].
  split; [exact H5 |].
  destruct (line_url_start_then_end sample_is_url_char sample_url_prefixes 5
              sample_can_strip_from_end_of_url url_line 12 true false false 31
              H1 H2 H3 H4 H5) as (_ & H & _).
  exact H.
Defined.

Lemma line_clear_text_truncates_witness :
  u32 10 /\ u32 21 /\ u32 (xnum url_line) /\ 10 + 21 < 2 ^ 32 /\ xnum url_line <= 10 + 21
  /\ line_length (line_clear_text url_line 10 21 BLANK_CHAR) <= 10.
Proof.
  assert (H1 : u32 10) by (unfold u32; lia).
  assert (H2 : u32 21) by (unfold u32; lia).
  assert (H3 : u32 (xnum url_line)) by (unfold u32; simpl; lia).
  assert (H4 : 10 + 21 < 2 ^ 32) by lia.
  assert (H5 : xnum url_line <= 10 + 21) by (simpl; lia).
  split; [exact H1 | split; [exact H2 | split; [exact H3 | split; [exact H4 |]]]].
  split; [exact H5 |].
  destruct (line_clear_text_truncates url_line 10 21 H1 H2 H3 H4 H5) as (H & _).
  exact H.
Defined.
